(** * AI negotiation: the decision engine and the orchestrators

    A shallow embedding of the negotiation core of the repository:

    - [Ai_negotiation.py]: [Product], [NegotiationContext],
      [ConversationManager], [AdvancedSellerAgent] and [YourBuyerAgent];
    - [bb.py]: the template buyer's [generate_opening_offer];
    - [negotiation_agent.py]: [AISellerAgent] and [BargainingSystem],
      and the loop of the command line, [run_negotiation_loop];
    - [Ai_negotiation.py], further: [ConversationAnalyzer],
      [ConversationLogger], [create_conversation_scenario] and
      [InteractiveNegotiation] with its price patterns;
    - [in.py]: [SmartAISeller], [SmartBargainingSystem] and the command
      line, [parse_command] and [run_negotiation];
    - [new_bargain_platform.py]: the test bench [run_negotiation_test]
      with [MockSellerAgent], and the template buyers it is given, that
      of [bb.py] and [ExampleSimpleAgent].

    Python [int] is [Z].  Message texts (f-strings decorated by
    [random.choice]) and wall-clock time stamps are presentation and are
    not part of the model; every append to a history is kept, so lengths
    and orders are those of the code.  Python [float] arithmetic is
    accessed through the interface [PyFloat] below. *)

From Stdlib Require Import ZArith QArith Qround List Sorted String Ascii Bool Lia.
Import ListNotations.
Local Open Scope Z_scope.

(** ** Python float arithmetic *)

(** The operations on [float] the code uses.  [of_int] is the implicit
    conversion in mixed [int]/[float] expressions, [lit] reads a decimal
    literal, [trunc] is [int(x)].  The [OverflowError] of converting an
    int beyond the range of [float], or an infinite [float] to an int,
    is not modelled; that of dividing two ints is modelled where the
    amounts divided are typed at the keyboard, by [quotient_overflows]
    below. *)
Class PyFloat : Type := {
  float : Type;
  of_int : Z -> float;
  lit : Q -> float;
  fadd : float -> float -> float;
  fsub : float -> float -> float;
  fmul : float -> float -> float;
  fdiv : float -> float -> float;
  fpow : float -> float -> float;
  fleb : float -> float -> bool;
  fltb : float -> float -> bool;
  trunc : float -> Z
}.

Declare Scope py_scope.
Delimit Scope py_scope with py.
Infix "+~" := fadd (at level 50, left associativity) : py_scope.
Infix "-~" := fsub (at level 50, left associativity) : py_scope.
Infix "*~" := fmul (at level 40, left associativity) : py_scope.
Infix "/~" := fdiv (at level 40, left associativity) : py_scope.
Infix "^~" := fpow (at level 30, right associativity) : py_scope.
Infix "<=~" := fleb (at level 70, no associativity) : py_scope.
Infix "<~" := fltb (at level 70, no associativity) : py_scope.
Local Open Scope py_scope.

Section Arith.
Context {F : PyFloat}.

(** [a / b] on two ints (true division); the caller rules out [b = 0]. *)
Definition true_div (a b : Z) : float := of_int a /~ of_int b.

(** [int(n * c)] for an int [n] and a float [c]. *)
Definition int_mul (n : Z) (c : float) : Z := trunc (of_int n *~ c).

(** [int(max(n, x))] for an int [n] and a float [x]: [max] returns its
    first argument unless the second is strictly larger. *)
Definition int_max (n : Z) (x : float) : Z :=
  if of_int n <~ x then trunc x else n.
End Arith.

(** The laws of the arithmetic the proofs rely on.  They hold for exact
    arithmetic (proved in [ExactLaws]) and are stated so that they also
    hold for IEEE binary64 with round-to-nearest, where literals,
    products and quotients round monotonically and keep their sign. *)
Section Laws.
Context {F : PyFloat}.

(** A non-positive int divided by a positive int is not at or above a
    literal of at least 0.01. *)
Definition quotient_sign_law : Prop :=
  forall (a b : Z) (c : Q),
    a <= 0 -> 0 < b -> (1 # 100 <= c)%Q -> (lit c <=~ true_div a b) = false.

(** Scaling a non-negative int by the larger of two literals between 0
    and 1 truncates to the larger int. *)
Definition scale_mono_law : Prop :=
  forall (m : Z) (c d : Q),
    0 <= m -> (0 <= c)%Q -> (c <= d)%Q -> (d <= 1)%Q ->
    int_mul m (lit c) <= int_mul m (lit d).

(** A positive int scaled by a literal of at least 1.01 is not at or
    below a smaller int. *)
Definition scale_up_law : Prop :=
  forall (m h : Z) (c : Q),
    0 < m -> (101 # 100 <= c)%Q -> h < m ->
    (of_int m *~ lit c <=~ of_int h) = false.
End Laws.

(** ** Exceptions and fuel *)

(** The exceptions the modelled code can raise. *)
Inductive exn : Type := ZeroDivisionError | AttributeError | OverflowError.

(** The least magnitude that rounds beyond the largest [float]: halfway
    between the largest one, [2 ^ 1024 - 2 ^ 971], and [2 ^ 1024]. *)
Definition float_limit : Z := 2 ^ 1024 - 2 ^ 970.

(** [a / b] on two ints, [b] not zero, raises [OverflowError] when the
    quotient rounded to the nearest [float] is beyond the largest one:
    when [|a| / |b|] reaches [float_limit]. *)
Definition quotient_overflows (a b : Z) : bool :=
  float_limit * Z.abs b <=? Z.abs a.

(** A call that may raise: it gives a value or an exception. *)
Inductive raising (A : Type) : Type :=
| Ok (a : A)
| Raise (e : exn).
Arguments Ok {A} a.
Arguments Raise {A} e.

Definition bind {A B : Type} (c : raising A) (k : A -> raising B) : raising B :=
  match c with
  | Ok a => k a
  | Raise e => Raise e
  end.

Notation "x <- c ;; k" := (bind c (fun x => k))
  (at level 61, c at next level, right associativity).
Notation "' p <- c ;; k" := (bind c (fun x => let 'p := x in k))
  (at level 61, p pattern, c at next level, right associativity).

(** The outcome of running a loop with fuel: it returns, raises, or the
    model ran out of fuel. *)
Inductive outcome (A : Type) : Type :=
| Returned (a : A)
| Raised (e : exn)
| OutOfFuel.
Arguments Returned {A} a.
Arguments Raised {A} e.
Arguments OutOfFuel {A}.

(** ** Strings *)

Local Open Scope string_scope.
Local Open Scope Z_scope.
Local Open Scope py_scope.

(** [str.upper] on the ASCII letters. *)
Definition upper_ascii (c : ascii) : ascii :=
  let n := nat_of_ascii c in
  if (97 <=? n)%nat && (n <=? 122)%nat then ascii_of_nat (n - 32) else c.

Fixpoint upper (s : string) : string :=
  match s with
  | EmptyString => EmptyString
  | String c s' => String (upper_ascii c) (upper s')
  end.

(** [sub in s]. *)
Fixpoint contains (sub s : string) : bool :=
  prefix sub s ||
  match s with
  | EmptyString => false
  | String _ s' => contains sub s'
  end.

(** [DealStatus], declared identically by each file. *)
Inductive DealStatus : Type := ONGOING | ACCEPTED | REJECTED | TIMEOUT.

Definition DealStatus_eqb (a b : DealStatus) : bool :=
  match a, b with
  | ONGOING, ONGOING | ACCEPTED, ACCEPTED
  | REJECTED, REJECTED | TIMEOUT, TIMEOUT => true
  | _, _ => false
  end.

(** [l[-1] if l else None]. *)
Definition last_offer (l : list Z) : option Z := last (map Some l) None.

(** The truth value of an optional int: [None] and [0] are false. *)
Definition truthy (p : option Z) : bool :=
  match p with
  | Some v => negb (v =? 0)
  | None => false
  end.

(** * [Ai_negotiation.py] *)

Module Ai_negotiation.

(** ** Data structures *)

Module Product.
Record t : Type := {
  name : string;
  category : string;
  quantity : Z;
  quality_grade : string;
  origin : string;
  base_market_price : Z;
  attributes : list (string * string)
}.
End Product.

(** The [speaker] of a turn and the [role] of a message: ["buyer"],
    ["seller"] or ["system"]. *)
Inductive Speaker : Type := buyer | seller | system.

Module NegotiationContext.
Record t : Type := {
  product : Product.t;
  your_budget : Z;
  current_round : Z;
  seller_offers : list Z;
  your_offers : list Z;
  messages : list Speaker
}.

Definition with_current_round (c : t) (r : Z) : t :=
  {| product := product c; your_budget := your_budget c; current_round := r;
     seller_offers := seller_offers c; your_offers := your_offers c;
     messages := messages c |}.

Definition with_seller_offers (c : t) (l : list Z) : t :=
  {| product := product c; your_budget := your_budget c;
     current_round := current_round c;
     seller_offers := l; your_offers := your_offers c;
     messages := messages c |}.

Definition with_your_offers (c : t) (l : list Z) : t :=
  {| product := product c; your_budget := your_budget c;
     current_round := current_round c;
     seller_offers := seller_offers c; your_offers := l;
     messages := messages c |}.

Definition with_messages (c : t) (l : list Speaker) : t :=
  {| product := product c; your_budget := your_budget c;
     current_round := current_round c;
     seller_offers := seller_offers c; your_offers := your_offers c;
     messages := l |}.
End NegotiationContext.

Module ConversationTurn.
Record t : Type := {
  speaker : Speaker;
  price_offer : option Z;
  round_number : Z;
  deal_status : DealStatus
}.
End ConversationTurn.

(** ** The agents' interfaces *)

(** What [ConversationManager] calls on its [buyer_agent]; the agent may
    change its own attributes, so each method returns the agent too. *)
Class BuyerAgent (B : Type) : Type := {
  generate_opening_offer : B -> NegotiationContext.t -> B * Z;
  respond_to_seller_offer :
    B -> NegotiationContext.t -> option Z -> B * (DealStatus * Z)
}.

(** What [ConversationManager] calls on its [seller_agent]. *)
Class SellerAgent (S : Type) : Type := {
  get_opening_price : S -> Product.t -> Z;
  respond_to_buyer : S -> Z -> Z -> raising (S * (Z * bool))
}.

(** ** [YourBuyerAgent] *)

Module YourBuyerAgent.
Import NegotiationContext.

(** The dictionary [self._state]. *)
Record SellerModel : Type := {
  seller_history : list Z;
  seller_min_est : option Z;
  times_seen : Z
}.

(** The agent: its name and the attribute [_state], absent until
    [_init_state] creates it. *)
Record t : Type := {
  name : string;
  _state : option SellerModel
}.

Definition MIN_STEP : Z := 1000.

Section Methods.
Context {F : PyFloat}.

Definition FAR_STEP_RATIO : float := lit (8 # 100).
Definition CLOSE_STEP_RATIO : float := lit (3 # 100).
Definition ESTIMATE_DECAY : float := lit (80 # 100).

Definition fresh_state : SellerModel :=
  {| seller_history := []; seller_min_est := None; times_seen := 0 |}.

Definition _init_state (self : t) : t :=
  match _state self with
  | Some _ => self
  | None => {| name := name self; _state := Some fresh_state |}
  end.

(** The body of [_update_seller_model] on the dictionary. *)
Definition update_model (s : SellerModel) (seller_price : Z) : SellerModel :=
  {| seller_history := seller_history s ++ [seller_price];
     seller_min_est :=
       match seller_min_est s with
       | None => Some (int_mul seller_price (lit (9 # 10)))
       | Some est =>
           let candidate := int_mul seller_price (lit (85 # 100)) in
           Some (trunc (ESTIMATE_DECAY *~ of_int est
                        +~ (of_int 1 -~ ESTIMATE_DECAY) *~ of_int candidate))
       end;
     times_seen := times_seen s + 1 |}.

(** [_update_seller_model]; it is only called after [_init_state]. *)
Definition _update_seller_model (self : t) (seller_price : Z) : t :=
  match _state self with
  | Some s => {| name := name self;
                 _state := Some (update_model s seller_price) |}
  | None => self
  end.

Definition _quality_opening_multiplier (grade : string) : Q :=
  let g := upper grade in
  if contains "EXPORT" g then 82 # 100
  else if String.eqb g "A" then 80 # 100
  else if String.eqb g "B" then 76 # 100
  else 78 # 100.

Definition _quality_walkaway_multiplier (grade : string) : Q :=
  let g := upper grade in
  if contains "EXPORT" g then 96 # 100
  else if String.eqb g "A" then 94 # 100
  else if String.eqb g "B" then 90 # 100
  else 92 # 100.

Definition _bounds (context : NegotiationContext.t) : Z * Z :=
  let market := Product.base_market_price (product context) in
  let grade := Product.quality_grade (product context) in
  let opening := int_mul market (lit (_quality_opening_multiplier grade)) in
  let walkaway := int_mul market (lit (_quality_walkaway_multiplier grade)) in
  let opening := Z.min opening (your_budget context) in
  let walkaway := Z.min walkaway (your_budget context) in
  let opening := Z.min opening walkaway in
  (opening, walkaway).

Definition generate_opening_offer (self : t) (context : NegotiationContext.t)
  : t * Z :=
  let self := _init_state self in
  let '(opening, walkaway) := _bounds context in
  (self, opening).

(** The round target of [respond_to_seller_offer]. *)
Definition round_target (context : NegotiationContext.t) : Z :=
  let '(opening, walkaway) := _bounds context in
  let rnd := Z.max 1 (Z.min 10 (current_round context)) in
  let progress := of_int (rnd - 1) /~ lit 9 in
  let eased := progress ^~ lit (12 # 10) in
  trunc (of_int opening +~ of_int (walkaway - opening) *~ eased).

(** The step of the counter-offer, from the gap to the seller. *)
Definition concession_step (market seller_price last_my : Z) : Z :=
  let pct_gap := true_div (seller_price - last_my) (Z.max 1 last_my) in
  let market_far_step := int_max MIN_STEP (of_int market *~ FAR_STEP_RATIO) in
  let market_close_step := int_max MIN_STEP (of_int market *~ CLOSE_STEP_RATIO) in
  if lit (12 # 100) <~ pct_gap then market_far_step
  else if lit (4 # 100) <~ pct_gap
       then trunc (true_div (market_far_step + market_close_step) 2)
       else market_close_step.

(** [context.your_offers[-1] if context.your_offers else opening]. *)
Definition last_my (context : NegotiationContext.t) : Z :=
  last (your_offers context) (fst (_bounds context)).

(** The counter-offer once the bounds are enforced, before the minimum
    increment. *)
Definition clamped_counter (context : NegotiationContext.t) (seller_price : Z) : Z :=
  let market := Product.base_market_price (product context) in
  let '(opening, walkaway) := _bounds context in
  let last_my := last_my context in
  let step := concession_step market seller_price last_my in
  let proposed :=
    if last_my <? seller_price
    then Z.min (your_budget context)
               (last_my + Z.max step (int_mul (seller_price - last_my) (lit (5 # 10))))
    else Z.max opening (Z.min (your_budget context) (seller_price - MIN_STEP)) in
  let proposed := Z.max (Z.max proposed opening) last_my in
  Z.min (Z.min proposed (your_budget context)) walkaway.

(** The counter-offer returned with [ONGOING]. *)
Definition counter_offer (context : NegotiationContext.t) (seller_price : Z) : Z :=
  let proposed := clamped_counter context seller_price in
  if (proposed =? last_my context) && (proposed + MIN_STEP <=? your_budget context)
  then proposed + MIN_STEP
  else proposed.

(** The offer made when the seller named no price. *)
Definition nudge (context : NegotiationContext.t) : Z :=
  let '(opening, walkaway) := _bounds context in
  let proposed :=
    Z.min (your_budget context) (int_mul (last_my context) (lit (105 # 100))) in
  Z.max proposed opening.

(** The three acceptance tests, in the order of the code; [est_min] is
    the estimate after the update. *)
Definition accepts (context : NegotiationContext.t) (est_min : option Z)
    (seller_price : Z) : bool :=
  let '(opening, walkaway) := _bounds context in
  ((10 <=? current_round context) && (seller_price <=? your_budget context))
  || ((seller_price <=? round_target context)
      && (seller_price <=? your_budget context))
  || match est_min with
     | Some est =>
         (8 <=? current_round context)
         && ((seller_price <=? Z.max est walkaway)
             && (seller_price <=? your_budget context))
     | None => false
     end.

Definition respond_to_seller_offer (self : t)
    (context : NegotiationContext.t) (seller_price : option Z)
  : t * (DealStatus * Z) :=
  let self := _init_state self in
  match seller_price with
  | None => (self, (ONGOING, nudge context))
  | Some sp =>
      let self := _update_seller_model self sp in
      let est_min :=
        match _state self with Some s => seller_min_est s | None => None end in
      if accepts context est_min sp
      then (self, (ACCEPTED, sp))
      else (self, (ONGOING, counter_offer context sp))
  end.
End Methods.
End YourBuyerAgent.

#[export] Instance YourBuyerAgent_is_buyer {F : PyFloat} : BuyerAgent YourBuyerAgent.t :=
  {| generate_opening_offer := YourBuyerAgent.generate_opening_offer;
     respond_to_seller_offer := YourBuyerAgent.respond_to_seller_offer |}.

(** ** [AdvancedSellerAgent] *)

Module AdvancedSellerAgent.
(** The attribute [negotiation_history] is never read or written after
    [__init__] and is left out. *)
Record t : Type := {
  min_price : Z;
  strategy : string;
  rounds_passed : Z
}.

Definition with_rounds_passed (self : t) (r : Z) : t :=
  {| min_price := min_price self; strategy := strategy self; rounds_passed := r |}.

Section Methods.
Context {F : PyFloat}.

Definition get_opening_price (self : t) (product : Product.t) : Z :=
  let market := Product.base_market_price product in
  if String.eqb (strategy self) "aggressive" then int_mul market (lit (18 # 10))
  else if String.eqb (strategy self) "conservative" then int_mul market (lit (13 # 10))
  else int_mul market (lit (15 # 10)).

(** [(accept_threshold, concession_rate)] of a strategy. *)
Definition rates (strategy : string) : Q * Q :=
  if String.eqb strategy "aggressive" then (15 # 100, 8 # 100)
  else if String.eqb strategy "conservative" then (5 # 100, 12 # 100)
  else (10 # 100, 10 # 100).

Definition respond_to_buyer (self : t) (buyer_offer round_num : Z)
  : raising (t * (Z * bool)) :=
  let self := with_rounds_passed self round_num in
  if min_price self =? 0 then Raise ZeroDivisionError
  else
    let profit_margin := true_div (buyer_offer - min_price self) (min_price self) in
    let '(accept_threshold, concession_rate) := rates (strategy self) in
    if (lit accept_threshold <=~ profit_margin)
       || ((8 <=? round_num) && (min_price self <=? buyer_offer))
    then Ok (self, (buyer_offer, true))
    else
      let counter :=
        if 9 <=? round_num
        then Z.max (min_price self) (int_mul buyer_offer (lit (102 # 100)))
        else if 7 <=? round_num
        then Z.max (min_price self)
               (int_mul buyer_offer (of_int 1 +~ lit concession_rate /~ of_int 2))
        else Z.max (min_price self)
               (int_mul buyer_offer (of_int 1 +~ lit concession_rate)) in
      Ok (self, (counter, false)).
End Methods.
End AdvancedSellerAgent.

#[export] Instance AdvancedSellerAgent_is_seller {F : PyFloat}
  : SellerAgent AdvancedSellerAgent.t :=
  {| get_opening_price := AdvancedSellerAgent.get_opening_price;
     respond_to_buyer := AdvancedSellerAgent.respond_to_buyer |}.

(** ** [ConversationManager] *)

Module ConversationManager.
Import NegotiationContext.

Section Manager.
Context {B S : Type} {buyer_class : BuyerAgent B} {seller_class : SellerAgent S}.

Record t : Type := {
  buyer_agent : B;
  seller_agent : S;
  product : Product.t;
  buyer_budget : Z;
  conversation_history : list ConversationTurn.t;
  round_number : Z;
  deal_status : DealStatus;
  final_price : option Z;
  context : NegotiationContext.t
}.

Definition with_buyer_agent (self : t) (b : B) : t :=
  {| buyer_agent := b; seller_agent := seller_agent self;
     product := product self; buyer_budget := buyer_budget self;
     conversation_history := conversation_history self;
     round_number := round_number self; deal_status := deal_status self;
     final_price := final_price self; context := context self |}.

Definition with_seller_agent (self : t) (s : S) : t :=
  {| buyer_agent := buyer_agent self; seller_agent := s;
     product := product self; buyer_budget := buyer_budget self;
     conversation_history := conversation_history self;
     round_number := round_number self; deal_status := deal_status self;
     final_price := final_price self; context := context self |}.

Definition with_conversation_history (self : t) (h : list ConversationTurn.t) : t :=
  {| buyer_agent := buyer_agent self; seller_agent := seller_agent self;
     product := product self; buyer_budget := buyer_budget self;
     conversation_history := h;
     round_number := round_number self; deal_status := deal_status self;
     final_price := final_price self; context := context self |}.

Definition with_round_number (self : t) (r : Z) : t :=
  {| buyer_agent := buyer_agent self; seller_agent := seller_agent self;
     product := product self; buyer_budget := buyer_budget self;
     conversation_history := conversation_history self;
     round_number := r; deal_status := deal_status self;
     final_price := final_price self; context := context self |}.

Definition with_deal_status (self : t) (d : DealStatus) : t :=
  {| buyer_agent := buyer_agent self; seller_agent := seller_agent self;
     product := product self; buyer_budget := buyer_budget self;
     conversation_history := conversation_history self;
     round_number := round_number self; deal_status := d;
     final_price := final_price self; context := context self |}.

Definition with_final_price (self : t) (p : option Z) : t :=
  {| buyer_agent := buyer_agent self; seller_agent := seller_agent self;
     product := product self; buyer_budget := buyer_budget self;
     conversation_history := conversation_history self;
     round_number := round_number self; deal_status := deal_status self;
     final_price := p; context := context self |}.

Definition with_context (self : t) (c : NegotiationContext.t) : t :=
  {| buyer_agent := buyer_agent self; seller_agent := seller_agent self;
     product := product self; buyer_budget := buyer_budget self;
     conversation_history := conversation_history self;
     round_number := round_number self; deal_status := deal_status self;
     final_price := final_price self; context := c |}.

(** [__init__]. *)
Definition init (buyer_agent : B) (seller_agent : S) (product : Product.t)
    (buyer_budget : Z) : t :=
  {| buyer_agent := buyer_agent; seller_agent := seller_agent;
     product := product; buyer_budget := buyer_budget;
     conversation_history := []; round_number := 0;
     deal_status := ONGOING; final_price := None;
     context := {| NegotiationContext.product := product;
                   your_budget := buyer_budget;
                   current_round := 0;
                   seller_offers := []; your_offers := []; messages := [] |} |}.

Definition _add_turn (self : t) (speaker : Speaker) (price_offer : option Z) : t :=
  let turn :=
    {| ConversationTurn.speaker := speaker;
       ConversationTurn.price_offer := price_offer;
       ConversationTurn.round_number := round_number self;
       ConversationTurn.deal_status := deal_status self |} in
  let self := with_conversation_history self (conversation_history self ++ [turn]) in
  let ctx := context self in
  let ctx :=
    match speaker, price_offer with
    | seller, Some p =>
        if truthy price_offer
        then with_seller_offers ctx (seller_offers ctx ++ [p]) else ctx
    | buyer, Some p =>
        if truthy price_offer
        then with_your_offers ctx (your_offers ctx ++ [p]) else ctx
    | _, _ => ctx
    end in
  with_context self (with_messages ctx (messages ctx ++ [speaker])).

Definition max_rounds : Z := 10.

(** The test of the [while] loop. *)
Definition loop_test (self : t) : bool :=
  DealStatus_eqb (deal_status self) ONGOING && (round_number self <? max_rounds).

(** One pass through the body of the [while] loop.  Both [break]s leave
    [deal_status] at [ACCEPTED], so leaving through [break] and leaving
    through the loop test are the same. *)
Definition loop_body (self : t) : raising t :=
  let self := with_round_number self (round_number self + 1) in
  let self := with_context self (with_current_round (context self) (round_number self)) in
  let '(self, buyer_offer) :=
    if round_number self =? 1
    then
      let '(b, buyer_offer) := generate_opening_offer (buyer_agent self) (context self) in
      (with_deal_status (with_buyer_agent self b) ONGOING, buyer_offer)
    else
      let last_seller_price := last_offer (seller_offers (context self)) in
      let '(b, (status, buyer_offer)) :=
        respond_to_seller_offer (buyer_agent self) (context self) last_seller_price in
      (with_deal_status (with_buyer_agent self b) status, buyer_offer) in
  let self := _add_turn self buyer (Some buyer_offer) in
  if DealStatus_eqb (deal_status self) ACCEPTED
  then
    Ok (with_final_price self
                (match last_offer (seller_offers (context self)) with
                 | Some p => Some p
                 | None => Some buyer_offer
                 end))
  else
    '(s, (seller_price, seller_accepts)) <-
      respond_to_buyer (seller_agent self) buyer_offer (round_number self) ;;
    let self := with_seller_agent self s in
    if seller_accepts : bool
    then
      let self := with_deal_status self ACCEPTED in
      let self := with_final_price self (Some buyer_offer) in
      Ok (_add_turn self seller (Some seller_price))
    else Ok (_add_turn self seller (Some seller_price)).

(** The [while] loop; [fuel] bounds the number of passes the model is
    willing to make. *)
Fixpoint negotiation_loop (fuel : nat) (self : t) : outcome t :=
  if loop_test self
  then
    match fuel with
    | O => OutOfFuel
    | Datatypes.S fuel' =>
        match loop_body self with
        | Ok self' => negotiation_loop fuel' self'
        | Raise e => Raised e
        end
    end
  else Returned self.

(** [_print_final_summary] changes nothing, but for an accepted deal it
    prints the savings as a share of the budget and the discount as a
    share of the market price, and so divides by both. *)
Definition _print_final_summary (self : t) : raising unit :=
  if DealStatus_eqb (deal_status self) ACCEPTED
  then
    if buyer_budget self =? 0 then Raise ZeroDivisionError
    else if Product.base_market_price (product self) =? 0 then Raise ZeroDivisionError
    else Ok tt
  else Ok tt.

Definition start_conversation (fuel : nat) (self : t) : outcome t :=
  let seller_price := get_opening_price (seller_agent self) (product self) in
  let self := _add_turn self seller (Some seller_price) in
  match negotiation_loop fuel self with
  | Returned self =>
      let self :=
        if DealStatus_eqb (deal_status self) ONGOING
        then _add_turn (with_deal_status self TIMEOUT) system None
        else self in
      match _print_final_summary self with
      | Ok _ => Returned self
      | Raise e => Raised e
      end
  | Raised e => Raised e
  | OutOfFuel => OutOfFuel
  end.
End Manager.

Arguments t : clear implicits.
End ConversationManager.

End Ai_negotiation.

(** * [bb.py] *)

Module bb.
Import Ai_negotiation.

(** The template [YourBuyerAgent]; it keeps no state. *)
Module YourBuyerAgent.
Section Methods.
Context {F : PyFloat}.

Definition generate_opening_offer (context : NegotiationContext.t) : Z :=
  let opening_price :=
    int_mul (Product.base_market_price (NegotiationContext.product context))
            (lit (75 # 100)) in
  Z.min opening_price (NegotiationContext.your_budget context).
End Methods.
End YourBuyerAgent.
End bb.

(** * [negotiation_agent.py]

    Readings of [time.time()] are inputs of the methods that take them,
    as exact rationals in seconds. *)

Module Negotiation_agent.

Module Product.
Record t : Type := {
  name : string;
  category : string;
  quantity : Z;
  quality_grade : string;
  origin : string;
  base_market_price : Z;
  seller_min_price : Z;
  attributes : list (string * string)
}.
End Product.

(** An entry of [conversation_history]: a seller's entry carries the key
    ["price"], a human's the key ["offer"]. *)
Inductive Message : Type :=
| seller_said (price : Z)
| human_said (offer : Z).

Module NegotiationState.
Record t : Type := {
  product : Product.t;
  human_budget : Z;
  seller_current_price : Z;
  human_current_offer : Z;
  round_number : Z;
  start_time : Q;
  time_limit : Z;
  conversation_history : list Message;
  deal_closed : bool;
  final_price : option Z;
  winner : option string
}.

Definition with_seller_current_price (s : t) (v : Z) : t :=
  {| product := product s; human_budget := human_budget s; seller_current_price := v;
     human_current_offer := human_current_offer s; round_number := round_number s;
     start_time := start_time s; time_limit := time_limit s;
     conversation_history := conversation_history s; deal_closed := deal_closed s;
     final_price := final_price s; winner := winner s |}.

Definition with_human_current_offer (s : t) (v : Z) : t :=
  {| product := product s; human_budget := human_budget s;
     seller_current_price := seller_current_price s; human_current_offer := v;
     round_number := round_number s; start_time := start_time s;
     time_limit := time_limit s; conversation_history := conversation_history s;
     deal_closed := deal_closed s; final_price := final_price s;
     winner := winner s |}.

Definition with_round_number (s : t) (v : Z) : t :=
  {| product := product s; human_budget := human_budget s;
     seller_current_price := seller_current_price s;
     human_current_offer := human_current_offer s; round_number := v;
     start_time := start_time s; time_limit := time_limit s;
     conversation_history := conversation_history s; deal_closed := deal_closed s;
     final_price := final_price s; winner := winner s |}.

Definition with_conversation_history (s : t) (v : list Message) : t :=
  {| product := product s; human_budget := human_budget s;
     seller_current_price := seller_current_price s;
     human_current_offer := human_current_offer s; round_number := round_number s;
     start_time := start_time s; time_limit := time_limit s;
     conversation_history := v; deal_closed := deal_closed s;
     final_price := final_price s; winner := winner s |}.

Definition with_deal_closed (s : t) (v : bool) : t :=
  {| product := product s; human_budget := human_budget s;
     seller_current_price := seller_current_price s;
     human_current_offer := human_current_offer s; round_number := round_number s;
     start_time := start_time s; time_limit := time_limit s;
     conversation_history := conversation_history s; deal_closed := v;
     final_price := final_price s; winner := winner s |}.

Definition with_final_price (s : t) (v : option Z) : t :=
  {| product := product s; human_budget := human_budget s;
     seller_current_price := seller_current_price s;
     human_current_offer := human_current_offer s; round_number := round_number s;
     start_time := start_time s; time_limit := time_limit s;
     conversation_history := conversation_history s; deal_closed := deal_closed s;
     final_price := v; winner := winner s |}.

Definition with_winner (s : t) (v : option string) : t :=
  {| product := product s; human_budget := human_budget s;
     seller_current_price := seller_current_price s;
     human_current_offer := human_current_offer s; round_number := round_number s;
     start_time := start_time s; time_limit := time_limit s;
     conversation_history := conversation_history s; deal_closed := deal_closed s;
     final_price := final_price s; winner := v |}.
End NegotiationState.

(** What [BargainingSystem] calls on its [seller_agent]; the last argument
    is the clock the seller reads. *)
Class HumanSeller (S : Type) : Type := {
  respond_to_human_offer : S -> NegotiationState.t -> Z -> Q -> DealStatus * Z
}.

(** ** [AISellerPersonality] and [AISellerAgent] *)

Module AISellerPersonality.
(** The numeric entries of a personality; [traits] and [phrases] only
    feed the message texts. *)
Record t : Type := {
  name : string;
  opening_multiplier : Q;
  min_concession : Q;
  max_concession : Q;
  timeout_pressure : bool
}.

Definition AGGRESSIVE : t :=
  {| name := "Aggressive Dealer"; opening_multiplier := 16 # 10;
     min_concession := 2 # 100; max_concession := 8 # 100;
     timeout_pressure := true |}.

Definition DIPLOMATIC : t :=
  {| name := "Diplomatic Trader"; opening_multiplier := 14 # 10;
     min_concession := 3 # 100; max_concession := 12 # 100;
     timeout_pressure := false |}.

Definition CUNNING : t :=
  {| name := "Cunning Merchant"; opening_multiplier := 15 # 10;
     min_concession := 1 # 100; max_concession := 15 # 100;
     timeout_pressure := true |}.

(** [getattr(AISellerPersonality, personality_type)]; [None] stands for
    [AttributeError]. *)
Definition lookup (personality_type : string) : option t :=
  if String.eqb personality_type "AGGRESSIVE" then Some AGGRESSIVE
  else if String.eqb personality_type "DIPLOMATIC" then Some DIPLOMATIC
  else if String.eqb personality_type "CUNNING" then Some CUNNING
  else None.
End AISellerPersonality.

Module AISellerAgent.
Import NegotiationState.

Record t : Type := { personality : AISellerPersonality.t }.

(** [l[-n:]]. *)
Definition last_n {A : Type} (n : nat) (l : list A) : list A :=
  skipn (List.length l - n) l.

(** The offers of the human entries of a list of messages. *)
Fixpoint human_offers (l : list Message) : list Z :=
  match l with
  | [] => []
  | human_said offer :: l' => offer :: human_offers l'
  | seller_said _ :: l' => human_offers l'
  end.

(** [len(l) >= 2 and l[-1] > l[-2]]. *)
Definition rising (l : list Z) : bool :=
  match rev l with
  | x :: y :: _ => y <? x
  | _ => false
  end.

Section Methods.
Context {F : PyFloat}.

Definition get_opening_offer (self : t) (product : Product.t) : Z :=
  int_mul (Product.base_market_price product)
          (lit (AISellerPersonality.opening_multiplier (personality self))).

(** The concession rate of [respond_to_human_offer]. *)
Definition concession_rate (self : t) (state : NegotiationState.t) : float :=
  let lo := lit (AISellerPersonality.min_concession (personality self)) in
  let hi := lit (AISellerPersonality.max_concession (personality self)) in
  let rate :=
    if round_number state <=? 2 then lo
    else if 6 <=? round_number state then hi
    else lo +~ (hi -~ lo) *~ of_int (round_number state - 2) /~ of_int 4 in
  if String.eqb (AISellerPersonality.name (personality self)) "Cunning Merchant"
     && (2 <? Z.of_nat (List.length (conversation_history state)))
     && rising (human_offers (last_n 3 (conversation_history state)))
  then rate *~ lit (5 # 10)
  else rate.

Definition respond_to_human_offer (self : t) (state : NegotiationState.t)
    (human_offer : Z) (now : Q) : DealStatus * Z :=
  let product := product state in
  let time_remaining := (inject_Z (time_limit state) - (now - start_time state))%Q in
  if of_int (Product.seller_min_price product) *~ lit (105 # 100) <=~ of_int human_offer
  then (ACCEPTED, human_offer)
  else if negb (Qle_bool 30 time_remaining)
  then
    if Product.seller_min_price product <=? human_offer
    then (ACCEPTED, human_offer)
    else (ONGOING,
          Z.max (Product.seller_min_price product)
                (int_mul human_offer (lit (102 # 100))))
  else
    let current_price := seller_current_price state in
    let gap := current_price - human_offer in
    let concession := trunc (of_int gap *~ concession_rate self state) in
    (ONGOING, Z.max (Product.seller_min_price product) (current_price - concession)).
End Methods.
End AISellerAgent.

#[export] Instance AISellerAgent_is_seller {F : PyFloat} : HumanSeller AISellerAgent.t :=
  {| respond_to_human_offer := AISellerAgent.respond_to_human_offer |}.

(** ** [BargainingSystem] *)

Module BargainingSystem.
Import NegotiationState.

Section System.
Context {S : Type} {seller_class : HumanSeller S}.

Record t : Type := {
  current_negotiation : option NegotiationState.t;
  seller_agent : option S;
  products_catalog : list Product.t
}.

Definition with_current_negotiation (self : t) (n : NegotiationState.t) : t :=
  {| current_negotiation := Some n; seller_agent := seller_agent self;
     products_catalog := products_catalog self |}.

(** [_end_negotiation(result, final_price)].  For a deal it prints the
    saving as a share of the market price before it sets the winner, and
    so divides [market_savings] by the market price; the branch of a
    deal is taken for a final price that is an int other than 0. *)
Definition _end_negotiation (self : t) (result : string) (final_price : option Z)
  : raising t :=
  match current_negotiation self with
  | None => Ok self
  | Some n =>
      let n := with_deal_closed n true in
      let n := with_final_price n final_price in
      if String.eqb result "deal" && truthy final_price
      then
        let market_savings :=
          Product.base_market_price (product n)
          - match final_price with Some p => p | None => 0 end in
        if Product.base_market_price (product n) =? 0
        then Raise ZeroDivisionError
        else if quotient_overflows market_savings (Product.base_market_price (product n))
        then Raise OverflowError
        else Ok (with_current_negotiation self (with_winner n (Some "human")))
      else if String.eqb result "timeout"
      then Ok (with_current_negotiation self (with_winner n (Some "timeout")))
      else if String.eqb result "rejected"
      then Ok (with_current_negotiation self (with_winner n (Some "no_deal")))
      else Ok (with_current_negotiation self n)
  end.

(** [human_make_offer(offer_amount)]; [now] is the clock read by the
    method and [now_seller] the clock read by the seller's response.
    [start_new_negotiation] sets [seller_agent] together with
    [current_negotiation]; calling the seller's method on [None] is an
    [AttributeError]. *)
Definition human_make_offer (self : t) (offer_amount : Z) (now now_seller : Q)
  : raising (t * bool) :=
  match current_negotiation self with
  | None => Ok (self, false)
  | Some n =>
      if deal_closed n then Ok (self, false)
      else
        let elapsed_time := (now - start_time n)%Q in
        if Qle_bool (inject_Z (time_limit n)) elapsed_time
        then self <- _end_negotiation self "timeout" None ;; Ok (self, false)
        else if human_budget n <? offer_amount then Ok (self, false)
        else if offer_amount <=? 0 then Ok (self, false)
        else
          let n := with_human_current_offer n offer_amount in
          let n := with_round_number n (round_number n + 1) in
          let n := with_conversation_history n
                     (conversation_history n ++ [human_said offer_amount]) in
          match seller_agent self with
          | None => Raise AttributeError
          | Some agent =>
              let '(status, seller_price) :=
                respond_to_human_offer agent n offer_amount now_seller in
              let n := with_seller_current_price n seller_price in
              let n := with_conversation_history n
                         (conversation_history n ++ [seller_said seller_price]) in
              let self := with_current_negotiation self n in
              if DealStatus_eqb status ACCEPTED
              then self <- _end_negotiation self "deal" (Some seller_price) ;;
                   Ok (self, true)
              else Ok (self, true)
          end
  end.

Definition accept_seller_offer (self : t) : raising (t * bool) :=
  match current_negotiation self with
  | Some n =>
      if deal_closed n then Ok (self, false)
      else
        let final_price := seller_current_price n in
        if human_budget n <? final_price then Ok (self, false)
        else
          let n := with_conversation_history n
                     (conversation_history n ++ [human_said final_price]) in
          let self := with_current_negotiation self n in
          self <- _end_negotiation self "deal" (Some final_price) ;; Ok (self, true)
  | None => Ok (self, false)
  end.

Definition reject_and_exit (self : t) : raising (t * bool) :=
  match current_negotiation self with
  | Some _ => self <- _end_negotiation self "rejected" None ;; Ok (self, true)
  | None => Ok (self, false)
  end.
End System.

Arguments t : clear implicits.

(** [_load_products]. *)
Definition _load_products : list Product.t :=
  [ {| Product.name := "Alphonso Mangoes"; Product.category := "Mangoes";
       Product.quantity := 100; Product.quality_grade := "Export";
       Product.origin := "Ratnagiri"; Product.base_market_price := 200000;
       Product.seller_min_price := 160000;
       Product.attributes :=
         [("ripeness", "perfect"); ("export_quality", "True"); ("organic", "True")] |};
    {| Product.name := "Basmati Rice"; Product.category := "Grains";
       Product.quantity := 500; Product.quality_grade := "A";
       Product.origin := "Punjab"; Product.base_market_price := 150000;
       Product.seller_min_price := 125000;
       Product.attributes :=
         [("age", "1_year"); ("aroma", "premium"); ("length", "extra_long")] |};
    {| Product.name := "Darjeeling Tea"; Product.category := "Beverages";
       Product.quantity := 50; Product.quality_grade := "Export";
       Product.origin := "West Bengal"; Product.base_market_price := 75000;
       Product.seller_min_price := 60000;
       Product.attributes :=
         [("flush", "second"); ("estate", "premium"); ("processing", "orthodox")] |};
    {| Product.name := "Red Chilli"; Product.category := "Spices";
       Product.quantity := 200; Product.quality_grade := "A";
       Product.origin := "Andhra Pradesh"; Product.base_market_price := 80000;
       Product.seller_min_price := 65000;
       Product.attributes :=
         [("scoville", "25000"); ("moisture", "8%"); ("color", "deep_red")] |};
    {| Product.name := "Cotton"; Product.category := "Textiles";
       Product.quantity := 1000; Product.quality_grade := "B";
       Product.origin := "Gujarat"; Product.base_market_price := 120000;
       Product.seller_min_price := 95000;
       Product.attributes :=
         [("staple_length", "28mm"); ("micronaire", "4.2"); ("strength", "high")] |} ].

Section Start.
Context {F : PyFloat}.

(** [__init__]. *)
Definition init : t AISellerAgent.t :=
  {| current_negotiation := None; seller_agent := None;
     products_catalog := _load_products |}.

(** [start_new_negotiation(product_index, human_budget, seller_personality,
    time_limit)] for a product index that is not negative; [proceed] is
    the answer to the prompt shown when the budget is below the seller's
    minimum, [now] the clock.  [None] stands for the exception raised
    for a personality that is none of the three. *)
Definition start_new_negotiation (self : t AISellerAgent.t) (product_index : nat)
    (human_budget : Z) (seller_personality : string) (time_limit : Z)
    (proceed : bool) (now : Q) : option (t AISellerAgent.t * bool) :=
  match nth_error (products_catalog self) product_index with
  | None => Some (self, false)
  | Some product =>
      if human_budget <=? 0 then Some (self, false)
      else if (human_budget <? Product.seller_min_price product) && negb proceed
      then Some (self, false)
      else
        match AISellerPersonality.lookup seller_personality with
        | None => None
        | Some personality =>
            let agent := {| AISellerAgent.personality := personality |} in
            let opening_price := AISellerAgent.get_opening_offer agent product in
            let n :=
              {| product := product; human_budget := human_budget;
                 seller_current_price := opening_price;
                 human_current_offer := 0; round_number := 1;
                 start_time := now; time_limit := time_limit;
                 conversation_history := [seller_said opening_price];
                 deal_closed := false; final_price := None; winner := None |} in
            Some ({| current_negotiation := Some n; seller_agent := Some agent;
                     products_catalog := products_catalog self |}, true)
        end
  end.
End Start.
End BargainingSystem.

End Negotiation_agent.

(** * Exact arithmetic

    The instance of [PyFloat] in which every operation is exact on the
    rationals, except [fpow], which is cut to 64 binary digits. *)

Module Exact.

(** [int(x)]: truncation toward zero. *)
Definition Qtrunc (x : Q) : Z := Z.quot (Qnum x) (Zpos (Qden x)).

(** The largest [r] below [2 ^ bits + acc] with [r ^ k <= n], found bit
    by bit. *)
Fixpoint root_search (k n : Z) (bits : nat) (acc : Z) : Z :=
  match bits with
  | O => acc
  | Datatypes.S bits' =>
      let c := acc + 2 ^ Z.of_nat bits' in
      if c ^ k <=? n then root_search k n bits' c else root_search k n bits' acc
  end.

Definition floor_root (k n : Z) : Z :=
  root_search k n (Datatypes.S (Z.to_nat (Z.log2 n))) 0.

(** [x ** y] for a base [x >= 0] and an exponent [y > 0], rounded down
    to a multiple of [2 ^ -64]; any other argument gives [0]. *)
Definition Qpow (x y : Q) : Q :=
  if (Qnum x <=? 0) || (Qnum y <=? 0) then 0%Q
  else
    let a := Qnum y in
    let b := Zpos (Qden y) in
    let scaled := (Qnum x ^ a * 2 ^ (64 * b)) / (Zpos (Qden x) ^ a) in
    Qmake (floor_root b scaled) (2 ^ 64).

#[export] Instance arith : PyFloat :=
  {| float := Q;
     of_int := inject_Z;
     lit := fun q => q;
     fadd := Qplus;
     fsub := Qminus;
     fmul := Qmult;
     fdiv := Qdiv;
     fpow := Qpow;
     fleb := Qle_bool;
     fltb := fun x y => negb (Qle_bool y x);
     trunc := Qtrunc |}.
End Exact.

(** * A seller with a firm price

    [ConversationManager] takes any object with the two seller methods.
    This one asks the same price at every turn and never accepts. *)

Module FirmPriceSeller.
Import Ai_negotiation.

Record t : Type := { price : Z }.

Definition get_opening_price (self : t) (product : Product.t) : Z := price self.

Definition respond_to_buyer (self : t) (buyer_offer round_num : Z)
  : raising (t * (Z * bool)) :=
  Ok (self, (price self, false)).
End FirmPriceSeller.

#[export] Instance FirmPriceSeller_is_seller
  : Ai_negotiation.SellerAgent FirmPriceSeller.t :=
  {| Ai_negotiation.get_opening_price := FirmPriceSeller.get_opening_price;
     Ai_negotiation.respond_to_buyer := FirmPriceSeller.respond_to_buyer |}.

(** * The estimate of the seller's minimum, as the specification words it

    Seeded at 0.9 times the first observed seller price; every later
    price [p] replaces the estimate [est] by
    [decay * est + (1 - decay) * (0.85 * p)] with [decay = 0.80], in
    integer-truncated arithmetic: the seed, the candidate [0.85 * p] and
    the blend are each cut to an int.  The recurrence is written with
    the operations of [float] themselves. *)

Module SpecEstimate.
Section Recurrence.
Context {F : PyFloat}.

Definition decay : float := lit (80 # 100).

Definition seed (first : Z) : Z := trunc (of_int first *~ lit (9 # 10)).

Definition blend (est latest : Z) : Z :=
  let candidate := trunc (of_int latest *~ lit (85 # 100)) in
  trunc (decay *~ of_int est +~ (of_int 1 -~ decay) *~ of_int candidate).

Fixpoint estimate_from (est : Z) (later : list Z) : Z :=
  match later with
  | [] => est
  | p :: later' => estimate_from (blend est p) later'
  end.

(** The estimate after the seller prices [observed], oldest first. *)
Definition estimate (observed : list Z) : option Z :=
  match observed with
  | [] => None
  | first :: later => Some (estimate_from (seed first) later)
  end.
End Recurrence.
End SpecEstimate.

(** * Sessions used below *)

Module Scenarios.
Import Ai_negotiation.

(** The product of [run_full_conversation], at a chosen grade. *)
Definition alphonso (grade : string) : Product.t :=
  {| Product.name := "Alphonso Mangoes"; Product.category := "Mangoes";
     Product.quantity := 100; Product.quality_grade := grade;
     Product.origin := "Ratnagiri"; Product.base_market_price := 200000;
     Product.attributes := [("ripeness", "optimal"); ("export_grade", "True")] |}.

(** [YourBuyerAgent("CharmingBuyer")]. *)
Definition charming_buyer : YourBuyerAgent.t :=
  {| YourBuyerAgent.name := "CharmingBuyer"; YourBuyerAgent._state := None |}.

(** [AdvancedSellerAgent(min_price, strategy)]. *)
Definition advanced_seller (min_price : Z) (strategy : string) : AdvancedSellerAgent.t :=
  {| AdvancedSellerAgent.min_price := min_price;
     AdvancedSellerAgent.strategy := strategy;
     AdvancedSellerAgent.rounds_passed := 0 |}.

(** The manager of [run_full_conversation]: budget 190000, seller's
    minimum 160000, balanced strategy. *)
Definition full_conversation
  : ConversationManager.t YourBuyerAgent.t AdvancedSellerAgent.t :=
  ConversationManager.init
    charming_buyer (advanced_seller 160000 "balanced") (alphonso "Export") 190000.

(** The manager a session returns, or [d] when it does not return. *)
Definition returned_or {B S : Type} (d : ConversationManager.t B S)
    (o : outcome (ConversationManager.t B S)) : ConversationManager.t B S :=
  match o with
  | Returned cm => cm
  | _ => d
  end.

(** The manager at the end of [run_full_conversation], in exact
    arithmetic. *)
Definition full_conversation_end
  : ConversationManager.t YourBuyerAgent.t AdvancedSellerAgent.t :=
  Eval vm_compute in
    returned_or full_conversation
      (ConversationManager.start_conversation
         (buyer_class := YourBuyerAgent_is_buyer (F := Exact.arith))
         (seller_class := AdvancedSellerAgent_is_seller (F := Exact.arith))
         10 full_conversation).

(** A grade B lot, a budget of 190000 and a seller who cannot go below
    200000. *)
Definition stubborn_conversation
  : ConversationManager.t YourBuyerAgent.t AdvancedSellerAgent.t :=
  ConversationManager.init
    charming_buyer (advanced_seller 200000 "balanced") (alphonso "B") 190000.

(** The context when the buyer answers in round 5 of
    [stubborn_conversation]. *)
Definition stubborn_round_5 : NegotiationContext.t :=
  {| NegotiationContext.product := alphonso "B";
     NegotiationContext.your_budget := 190000;
     NegotiationContext.current_round := 5;
     NegotiationContext.seller_offers := [300000; 200000; 200000; 200000; 200000];
     NegotiationContext.your_offers := [152000; 176000; 180000; 181000];
     NegotiationContext.messages :=
       [seller; buyer; seller; buyer; seller; buyer; seller; buyer; seller] |}.

(** A seller with the firm price 150000 for the Export lot, facing a
    budget of 190000. *)
Definition firm_conversation : ConversationManager.t YourBuyerAgent.t FirmPriceSeller.t :=
  ConversationManager.init
    charming_buyer {| FirmPriceSeller.price := 150000 |} (alphonso "Export") 190000.

(** [BargainingSystem()] after [start_new_negotiation(0, 200000)]: the
    Alphonso lot against the diplomatic trader, 120 seconds, the clock
    at 0. *)
Definition bargaining_started
  : option (Negotiation_agent.BargainingSystem.t Negotiation_agent.AISellerAgent.t * bool) :=
  Negotiation_agent.BargainingSystem.start_new_negotiation (F := Exact.arith)
    Negotiation_agent.BargainingSystem.init 0%nat 200000 "DIPLOMATIC" 120 true 0%Q.

(** The system of [bargaining_started]. *)
Definition bargaining_open
  : Negotiation_agent.BargainingSystem.t Negotiation_agent.AISellerAgent.t :=
  match bargaining_started with
  | Some (started, _) => started
  | None => Negotiation_agent.BargainingSystem.init
  end.

(** The same system after [human_make_offer(170000)] ten seconds in,
    which the seller accepts. *)
Definition bargaining_closed
  : Negotiation_agent.BargainingSystem.t Negotiation_agent.AISellerAgent.t :=
  match Negotiation_agent.BargainingSystem.human_make_offer
          (seller_class := Negotiation_agent.AISellerAgent_is_seller (F := Exact.arith))
          bargaining_open 170000 10%Q 10%Q with
  | Ok (closed, _) => closed
  | Raise _ => bargaining_open
  end.
End Scenarios.

(** * The steps and the invariants of a session *)

Module Invariants.
Import Ai_negotiation NegotiationContext ConversationManager.

(** The state of the manager once the round counter is advanced and the
    context told about it. *)
Definition enter_round {B S : Type} (cm : ConversationManager.t B S)
  : ConversationManager.t B S :=
  let cm := with_round_number cm (round_number cm + 1) in
  with_context cm (with_current_round (context cm) (round_number cm)).

Section Generic.
Context {B S : Type} {buyer_class : BuyerAgent B} {seller_class : SellerAgent S}.

(** The buyer's move of a round: the agent, the status and the offer. *)
Definition buyer_move (cm : ConversationManager.t B S) : B * (DealStatus * Z) :=
  if round_number cm =? 1
  then let '(b, offer) := generate_opening_offer (buyer_agent cm) (context cm) in
       (b, (ONGOING, offer))
  else respond_to_seller_offer (buyer_agent cm) (context cm)
         (last_offer (seller_offers (context cm))).

(** The manager once the move [(b, (status, offer))] of the buyer is
    recorded. *)
Definition record_buyer (cm : ConversationManager.t B S) (b : B)
    (status : DealStatus) (offer : Z) : ConversationManager.t B S :=
  _add_turn (with_deal_status (with_buyer_agent (enter_round cm) b) status)
            buyer (Some offer).

(** The rounds written into the transcript never decrease and lie
    between 0 and the round counter. *)
Definition transcript_ok (cm : ConversationManager.t B S) : Prop :=
  StronglySorted Z.le (map ConversationTurn.round_number (conversation_history cm))
  /\ Forall (fun r => 0 <= r <= round_number cm)
            (map ConversationTurn.round_number (conversation_history cm)).

(** A turn of the buyer or the seller recorded with a status other than
    [ONGOING]: the turn that ended the negotiation. *)
Definition closing_turn (turn : ConversationTurn.t) : Prop :=
  ConversationTurn.speaker turn <> system
  /\ ConversationTurn.deal_status turn <> ONGOING.

(** Either nothing is decided yet, or the transcript has the turn that
    decided. *)
Definition undecided_or_closed (cm : ConversationManager.t B S) : Prop :=
  (deal_status cm = ONGOING /\ final_price cm = None)
  \/ Exists closing_turn (conversation_history cm).

(** The invariant of the loop behind C6. *)
Definition session_invariant (cm : ConversationManager.t B S) : Prop :=
  0 <= round_number cm <= max_rounds
  /\ transcript_ok cm
  /\ undecided_or_closed cm.

End Generic.

(** The invariant of the loop behind C1: the budget and the seller's
    minimum stay what they were; while the negotiation is open there is
    no final price and, from round 1 on, the seller's last offer is at
    or above its minimum; once accepted, the final price lies between
    the seller's minimum and the budget. *)
Definition price_invariant (floor budget : Z)
    (cm : ConversationManager.t YourBuyerAgent.t AdvancedSellerAgent.t) : Prop :=
  your_budget (context cm) = budget
  /\ AdvancedSellerAgent.min_price (seller_agent cm) = floor
  /\ 0 <= round_number cm
  /\ ((deal_status cm = ONGOING /\ final_price cm = None
       /\ (1 <= round_number cm ->
           exists p, last_offer (seller_offers (context cm)) = Some p /\ floor <= p))
      \/ (deal_status cm = ACCEPTED
          /\ exists p, final_price cm = Some p /\ floor <= p <= budget)).

(** The invariant of the loop behind C3: nothing is accepted and every
    turn of the transcript was recorded [ONGOING]. *)
Definition no_deal_invariant (floor budget : Z)
    (cm : ConversationManager.t YourBuyerAgent.t AdvancedSellerAgent.t) : Prop :=
  price_invariant floor budget cm
  /\ deal_status cm = ONGOING
  /\ Forall (fun turn => ConversationTurn.deal_status turn = ONGOING)
            (conversation_history cm).
End Invariants.

(** * The estimate of the seller's minimum during a session *)

Module EstimateInvariants.
Import Ai_negotiation NegotiationContext ConversationManager YourBuyerAgent.

(** Every turn of the seller names a price other than 0, the only
    prices [_add_turn] keeps among [seller_offers]. *)
Definition seller_names_prices (h : list ConversationTurn.t) : Prop :=
  Forall (fun t => ConversationTurn.speaker t = seller ->
                   truthy (ConversationTurn.price_offer t) = true) h.

Section Session.
Context {F : PyFloat} {S : Type} {seller_class : SellerAgent S}.

(** The dictionary [_state] of a buyer that was shown the seller prices
    [observed], oldest first, and whose estimate follows the
    recurrence. *)
Definition shown (observed : list Z) : SellerModel :=
  {| seller_history := observed;
     seller_min_est := SpecEstimate.estimate observed;
     times_seen := Z.of_nat (List.length observed) |}.

(** The invariant of the loop behind C8, for a buyer named [n] and a
    seller that opened at [opening]: before the first round the buyer
    has no [_state]; from then on it was shown every offer of the seller
    but the opening one and, unless the buyer has just accepted it, the
    latest one. *)
Definition estimate_invariant (n : string) (opening : Z)
    (cm : ConversationManager.t YourBuyerAgent.t S) : Prop :=
  seller_names_prices (conversation_history cm) ->
  name (buyer_agent cm) = n
  /\ ((round_number cm = 0 /\ deal_status cm = ONGOING
       /\ _state (buyer_agent cm) = None
       /\ seller_offers (context cm) = [opening])
      \/ exists observed,
           _state (buyer_agent cm) = Some (shown observed)
           /\ Z.of_nat (List.length observed) = round_number cm - 1
           /\ ((deal_status cm = ACCEPTED
                /\ seller_offers (context cm) = opening :: observed)
               \/ exists latest,
                    seller_offers (context cm) = (opening :: observed ++ [latest])%list)).
End Session.
End EstimateInvariants.

(** * [Ai_negotiation.py]: the analysis of a transcript *)

Module Ai_negotiation_analysis.
Import Ai_negotiation.

(** [DealStatus.value]. *)
Definition DealStatus_value (d : DealStatus) : string :=
  match d with
  | ONGOING => "ongoing"
  | ACCEPTED => "accepted"
  | REJECTED => "rejected"
  | TIMEOUT => "timeout"
  end.

Definition Speaker_eqb (a b : Speaker) : bool :=
  match a, b with
  | buyer, buyer | seller, seller | system, system => true
  | _, _ => false
  end.

(** ** [ConversationAnalyzer] *)

Module ConversationAnalyzer.

(** [[t for t in conversation_history if t.speaker == who]]. *)
Definition turns_of (who : Speaker) (conversation_history : list ConversationTurn.t)
  : list ConversationTurn.t :=
  filter (fun t => Speaker_eqb (ConversationTurn.speaker t) who) conversation_history.

(** [[t.price_offer for t in turns if t.price_offer]]. *)
Fixpoint prices (turns : list ConversationTurn.t) : list Z :=
  match turns with
  | [] => []
  | t :: turns' =>
      match ConversationTurn.price_offer t with
      | Some p => if truthy (Some p) then p :: prices turns' else prices turns'
      | None => prices turns'
      end
  end.

(** The entry ["price_movements"] of an analysis. *)
Record PriceMovements {F : PyFloat} : Type := {
  buyer_opening : option Z;
  buyer_final : option Z;
  seller_opening : option Z;
  seller_final : option Z;
  convergence_rate : float
}.

(** The analysis without its entry ["communication_patterns"], which is
    computed from the message texts. *)
Record Analysis {F : PyFloat} : Type := {
  total_rounds : Z;
  deal_outcome : string;
  price_movements : PriceMovements
}.

Section Methods.
Context {F : PyFloat}.

(** [min(a, b)] and [max(a, b)] on two floats: the first argument unless
    the second is strictly smaller, or strictly larger. *)
Definition float_min (a b : float) : float := if b <~ a then b else a.
Definition float_max (a b : float) : float := if a <~ b then b else a.

Definition _calculate_convergence (buyer_prices seller_prices : list Z) : float :=
  if (Z.of_nat (List.length buyer_prices) <? 2)
     || (Z.of_nat (List.length seller_prices) <? 2)
  then lit 0
  else
    let initial_gap := Z.abs (hd 0 seller_prices - hd 0 buyer_prices) in
    let final_gap := Z.abs (last seller_prices 0 - last buyer_prices 0) in
    if initial_gap =? 0 then lit 1
    else
      let convergence := of_int 1 -~ true_div final_gap initial_gap in
      float_max (lit 0) (float_min (lit 1) convergence).

Definition analyze_conversation (conversation_history : list ConversationTurn.t)
  : Analysis :=
  let buyer_turns := turns_of buyer conversation_history in
  let seller_turns := turns_of seller conversation_history in
  let buyer_prices := prices buyer_turns in
  let seller_prices := prices seller_turns in
  {| total_rounds :=
       Z.of_nat (List.length
                   (filter (fun t => negb (Speaker_eqb (ConversationTurn.speaker t) system))
                           conversation_history)) / 2;
     deal_outcome :=
       match conversation_history with
       | [] => "unknown"
       | t :: _ =>
           DealStatus_value
             (ConversationTurn.deal_status (last conversation_history t))
       end;
     price_movements :=
       {| buyer_opening := head buyer_prices;
          buyer_final := last_offer buyer_prices;
          seller_opening := head seller_prices;
          seller_final := last_offer seller_prices;
          convergence_rate := _calculate_convergence buyer_prices seller_prices |} |}.
End Methods.
End ConversationAnalyzer.

(** ** The transcript against the context *)

Module TranscriptInvariants.
Import Ai_negotiation NegotiationContext ConversationManager ConversationAnalyzer.

(** The number of turns of the buyer and the seller. *)
Definition non_system (h : list ConversationTurn.t) : Z :=
  Z.of_nat (List.length
              (filter (fun t => negb (Speaker_eqb (ConversationTurn.speaker t) system)) h)).

(** What a turn with the price [p] adds to a list of offers of the
    context. *)
Definition offers_of (p : option Z) : list Z :=
  match p with
  | Some v => if truthy (Some v) then [v] else []
  | None => []
  end.

(** The transcript and the context tell the same story: the prices of
    the buyer's and of the seller's turns are the offers of the context,
    there is one message for each turn, the last turn carries the status
    of the manager, and the buyer and the seller took two turns for each
    round and one more. *)
Definition transcript_agrees {B S : Type} (cm : ConversationManager.t B S) : Prop :=
  prices (turns_of buyer (conversation_history cm)) = your_offers (context cm)
  /\ prices (turns_of seller (conversation_history cm)) = seller_offers (context cm)
  /\ List.length (messages (context cm)) = List.length (conversation_history cm)
  /\ (exists t, last (map Some (conversation_history cm)) None = Some t
                /\ ConversationTurn.deal_status t = deal_status cm)
  /\ 2 * round_number cm <= non_system (conversation_history cm) <= 2 * round_number cm + 1
  /\ (deal_status cm = ONGOING ->
      non_system (conversation_history cm) = 2 * round_number cm + 1).
End TranscriptInvariants.
End Ai_negotiation_analysis.

(** * How a session returns *)

Module SessionInvariants.
Import Ai_negotiation NegotiationContext ConversationManager Invariants.
Import Ai_negotiation_analysis TranscriptInvariants.

Section Generic.
Context {B S : Type} {buyer_class : BuyerAgent B} {seller_class : SellerAgent S}.

(** A seller that answers every offer: in a state [I] holds of,
    [respond_to_buyer] returns whatever it is offered, and leaves the
    seller in a state [I] holds of. *)
Definition seller_answers (I : S -> Prop) : Prop :=
  forall (s : S) (buyer_offer round_num : Z),
    I s ->
    exists s' price accepted,
      respond_to_buyer s buyer_offer round_num = Ok (s', (price, accepted)) /\ I s'.

(** The invariant of the loop from its first pass on: a round was run,
    and the transcript is in order and agrees with the context. *)
Definition running (cm : ConversationManager.t B S) : Prop :=
  1 <= round_number cm
  /\ session_invariant cm
  /\ transcript_agrees cm.
End Generic.

(** The turn [start_conversation] adds when ten rounds have brought no
    decision. *)
Definition timeout_turn : ConversationTurn.t :=
  {| ConversationTurn.speaker := system;
     ConversationTurn.price_offer := None;
     ConversationTurn.round_number := max_rounds;
     ConversationTurn.deal_status := TIMEOUT |}.
End SessionInvariants.

(** * [Ai_negotiation.py]: the log of sessions *)

Module Ai_negotiation_log.
Import Ai_negotiation Ai_negotiation_analysis.

Module ConversationLogger.

(** An entry of ["conversation"], without its text. *)
Record Entry : Type := {
  speaker : Speaker;
  price : option Z;
  round : Z
}.

Record ProductData : Type := {
  name : string;
  quality : string;
  quantity : Z;
  market_price : Z
}.

Record Setup : Type := {
  buyer_budget : Z;
  buyer_agent : string;
  seller_strategy : string
}.

Record Results : Type := {
  deal_status : string;
  final_price : option Z;
  rounds_completed : Z;
  buyer_savings : Z
}.

(** The data of a session; [timestamp] is the number [n] of the text
    [Session_n]. *)
Record SessionData {F : PyFloat} : Type := {
  timestamp : Z;
  product : ProductData;
  negotiation_setup : Setup;
  results : Results;
  analysis : ConversationAnalyzer.Analysis;
  conversation : list Entry
}.

Record t {F : PyFloat} : Type := { session_logs : list SessionData }.

Section Methods.
Context {F : PyFloat}.

(** [__init__]. *)
Definition init : t := {| session_logs := [] |}.

(** [log_session(conversation_manager, conversation_history)] for a
    manager of [YourBuyerAgent] and [AdvancedSellerAgent], which have
    the attributes [name] and [strategy]. *)
Definition log_session (self : t)
    (conversation_manager : ConversationManager.t YourBuyerAgent.t AdvancedSellerAgent.t)
    (conversation_history : list ConversationTurn.t) : t :=
  let analysis := ConversationAnalyzer.analyze_conversation conversation_history in
  let session_data :=
    {| timestamp := Z.of_nat (List.length (session_logs self)) + 1;
       product :=
         {| name := Product.name (ConversationManager.product conversation_manager);
            quality :=
              Product.quality_grade (ConversationManager.product conversation_manager);
            quantity := Product.quantity (ConversationManager.product conversation_manager);
            market_price :=
              Product.base_market_price
                (ConversationManager.product conversation_manager) |};
       negotiation_setup :=
         {| buyer_budget := ConversationManager.buyer_budget conversation_manager;
            buyer_agent :=
              YourBuyerAgent.name (ConversationManager.buyer_agent conversation_manager);
            seller_strategy :=
              AdvancedSellerAgent.strategy
                (ConversationManager.seller_agent conversation_manager) |};
       results :=
         {| deal_status :=
              DealStatus_value (ConversationManager.deal_status conversation_manager);
            final_price := ConversationManager.final_price conversation_manager;
            rounds_completed := ConversationManager.round_number conversation_manager;
            buyer_savings :=
              match ConversationManager.final_price conversation_manager with
              | Some p =>
                  if truthy (Some p)
                  then ConversationManager.buyer_budget conversation_manager - p
                  else 0
              | None => 0
              end |};
       analysis := analysis;
       conversation :=
         map (fun turn =>
                {| speaker := ConversationTurn.speaker turn;
                   price := ConversationTurn.price_offer turn;
                   round := ConversationTurn.round_number turn |})
             conversation_history |} in
  {| session_logs := session_logs self ++ [session_data] |}.
End Methods.
End ConversationLogger.
End Ai_negotiation_log.

(** * [Ai_negotiation.py]: a deal before the last rounds *)

Module DealInvariants.
Import Ai_negotiation NegotiationContext ConversationManager Invariants.

(** The invariant of the loop when the seller's minimum is at most the
    buyer's opening offer: the negotiation is open in a round before the
    eighth with the seller's last offer at or above its minimum, or it
    is accepted, in the eighth round at the latest, at a price between
    the seller's minimum and the budget. *)
Definition early_deal_invariant (floor : Z) (product : Product.t) (budget : Z)
    (cm : ConversationManager.t YourBuyerAgent.t AdvancedSellerAgent.t) : Prop :=
  NegotiationContext.product (context cm) = product
  /\ your_budget (context cm) = budget
  /\ AdvancedSellerAgent.min_price (seller_agent cm) = floor
  /\ 0 <= round_number cm
  /\ ((deal_status cm = ONGOING /\ final_price cm = None /\ round_number cm <= 7
       /\ (1 <= round_number cm ->
           exists p, last_offer (seller_offers (context cm)) = Some p /\ floor <= p))
      \/ (deal_status cm = ACCEPTED /\ 1 <= round_number cm <= 8
          /\ exists p, final_price cm = Some p /\ floor <= p <= budget)).
End DealInvariants.

(** * [Ai_negotiation.py]: the conversation templates *)

Module Ai_negotiation_templates.
Import Ai_negotiation.

(** [str.lower] on the ASCII letters, the letters of the keys of
    [products_db]. *)
Definition lower_ascii (c : ascii) : ascii :=
  let n := nat_of_ascii c in
  if (65 <=? n)%nat && (n <=? 90)%nat then ascii_of_nat (n + 32) else c.

Fixpoint lower (s : string) : string :=
  match s with
  | EmptyString => EmptyString
  | String c s' => String (lower_ascii c) (lower s')
  end.

(** [s.replace(" ", "_")]. *)
Fixpoint spaces_to_underscores (s : string) : string :=
  match s with
  | EmptyString => EmptyString
  | String c s' =>
      String (if Ascii.eqb c " " then "_"%char else c) (spaces_to_underscores s')
  end.

(** [d.get(key)] on a dictionary given by its items. *)
Fixpoint get {A : Type} (d : list (string * A)) (key : string) : option A :=
  match d with
  | [] => None
  | (k, v) :: d' => if String.eqb k key then Some v else get d' key
  end.

Definition alphonso_mangoes (quality : string) : Product.t :=
  {| Product.name := "Alphonso Mangoes"; Product.category := "Mangoes";
     Product.quantity := 100; Product.quality_grade := quality;
     Product.origin := "Ratnagiri"; Product.base_market_price := 180000;
     Product.attributes := [("export_grade", "True")] |}.

Definition products_db (quality : string) : list (string * Product.t) :=
  [ ("alphonso_mangoes", alphonso_mangoes quality);
    ("kesar_mangoes",
     {| Product.name := "Kesar Mangoes"; Product.category := "Mangoes";
        Product.quantity := 150; Product.quality_grade := quality;
        Product.origin := "Gujarat"; Product.base_market_price := 150000;
        Product.attributes := [("export_grade", "False")] |});
    ("basmati_rice",
     {| Product.name := "Basmati Rice"; Product.category := "Rice";
        Product.quantity := 200; Product.quality_grade := quality;
        Product.origin := "Punjab"; Product.base_market_price := 120000;
        Product.attributes := [("aging", "12_months")] |});
    ("black_pepper",
     {| Product.name := "Black Pepper"; Product.category := "Spices";
        Product.quantity := 50; Product.quality_grade := quality;
        Product.origin := "Kerala"; Product.base_market_price := 250000;
        Product.attributes := [("moisture_content", "10%")] |});
    ("cashews",
     {| Product.name := "Cashews"; Product.category := "Nuts";
        Product.quantity := 75; Product.quality_grade := quality;
        Product.origin := "Karnataka"; Product.base_market_price := 300000;
        Product.attributes := [("size_grade", "W240")] |}) ].

Section Scenario.
Context {F : PyFloat}.

(** [create_conversation_scenario(product_name, quality,
    scenario_difficulty)], giving the product, the buyer's budget and
    the seller's minimum. *)
Definition create_conversation_scenario
    (product_name quality scenario_difficulty : string) : Product.t * Z * Z :=
  let db := products_db quality in
  let product :=
    match get db (spaces_to_underscores (lower product_name)) with
    | Some product => product
    | None => alphonso_mangoes quality
    end in
  let market := Product.base_market_price product in
  let '(buyer_budget, seller_min) :=
    if String.eqb scenario_difficulty "easy"
    then (int_mul market (lit (13 # 10)), int_mul market (lit (75 # 100)))
    else if String.eqb scenario_difficulty "medium"
    then (int_mul market (lit (11 # 10)), int_mul market (lit (85 # 100)))
    else if String.eqb scenario_difficulty "hard"
    then (int_mul market (lit (95 # 100)), int_mul market (lit (88 # 100)))
    else (int_mul market (lit 1), int_mul market (lit (80 # 100))) in
  (product, buyer_budget, seller_min).

(** Scaling a non-negative int by the larger of two literals between 0
    and 2 truncates to the larger int; as [scale_mono_law], it holds for
    exact arithmetic and for IEEE binary64. *)
Definition scale_mono_wide_law : Prop :=
  forall (m : Z) (c d : Q),
    0 <= m -> (0 <= c)%Q -> (c <= d)%Q -> (d <= 2)%Q ->
    int_mul m (lit c) <= int_mul m (lit d).
End Scenario.
End Ai_negotiation_templates.

(** * [Ai_negotiation.py]: the interactive mode *)

Module Ai_negotiation_interactive.
Import Ai_negotiation.

(** ** Price patterns

    A character of an input line, as far as the price patterns and
    [int] tell characters apart: the rupee sign, a decimal digit with
    its value, a comma, white space, or anything else. *)
Inductive symbol : Type :=
| Rupee
| Digit (d : nat)
| Comma
| Space
| Other.

Definition is_rupee (c : symbol) : bool :=
  match c with Rupee => true | _ => false end.
Definition is_digit (c : symbol) : bool :=
  match c with Digit _ => true | _ => false end.
Definition is_comma (c : symbol) : bool :=
  match c with Comma => true | _ => false end.
Definition is_space (c : symbol) : bool :=
  match c with Space => true | _ => false end.

(** One step of a pattern: a class of characters repeated between
    [at_least] and [at_most] times, greedily, inside the group of the
    pattern or not. *)
Record item : Type := {
  accepted : symbol -> bool;
  at_least : nat;
  at_most : option nat;
  in_group : bool
}.

Definition once (cls : symbol -> bool) (grouped : bool) : item :=
  {| accepted := cls; at_least := 1; at_most := Some 1%nat; in_group := grouped |}.
Definition from (n : nat) (cls : symbol -> bool) (grouped : bool) : item :=
  {| accepted := cls; at_least := n; at_most := None; in_group := grouped |}.

(** The length of the longest run of [cls] at the head of [s], up to
    [cap]. *)
Fixpoint run (cls : symbol -> bool) (cap : option nat) (s : list symbol) : nat :=
  match s with
  | c :: s' =>
      if cls c
      then match cap with
           | Some O => O
           | Some (Datatypes.S n) => Datatypes.S (run cls (Some n) s')
           | None => Datatypes.S (run cls None s')
           end
      else O
  | [] => O
  end.

(** Try [it] on [k] characters, then on fewer, until the rest of the
    pattern matches; the result is the text of the group. *)
Fixpoint backtrack (rest : list symbol -> option (list symbol)) (it : item)
    (s : list symbol) (k : nat) : option (list symbol) :=
  if (k <? at_least it)%nat then None
  else
    match rest (skipn k s) with
    | Some g => Some ((if in_group it then firstn k s else []) ++ g)%list
    | None =>
        match k with
        | O => None
        | Datatypes.S k' => backtrack rest it s k'
        end
    end.

(** A match of the pattern at the head of [s]. *)
Fixpoint match_here (pattern : list item) (s : list symbol) : option (list symbol) :=
  match pattern with
  | [] => Some []
  | it :: pattern' =>
      backtrack (match_here pattern') it s (run (accepted it) (at_most it) s)
  end.

(** [re.search(pattern, text)], giving [match.group(1)]. *)
Fixpoint search (pattern : list item) (text : list symbol) : option (list symbol) :=
  match match_here pattern text with
  | Some g => Some g
  | None =>
      match text with
      | [] => None
      | _ :: text' => search pattern text'
      end
  end.

Definition digit_or_comma (c : symbol) : bool := is_digit c || is_comma c.

(** The three patterns: digits and commas after a rupee sign and any
    white space, four digits or more, and digits around one comma. *)
Definition rupee_pattern : list item :=
  [ once is_rupee false; from 0 is_space false; from 1 digit_or_comma true ].
Definition long_number_pattern : list item := [ from 4 is_digit true ].
Definition comma_pattern : list item :=
  [ from 1 is_digit true; once is_comma true; from 1 is_digit true ].

Definition price_patterns : list (list item) :=
  [ rupee_pattern; long_number_pattern; comma_pattern ].

(** [g.replace(",", "")]. *)
Definition without_commas (g : list symbol) : list symbol :=
  filter (fun c => negb (is_comma c)) g.

Fixpoint digits_value (acc : Z) (g : list symbol) : option Z :=
  match g with
  | [] => Some acc
  | Digit d :: g' => digits_value (10 * acc + Z.of_nat d) g'
  | _ :: _ => None
  end.

(** [int(g)] on a string of digits; [None] stands for [ValueError],
    raised on the empty string.  Python raises [ValueError] also on a
    string of more than [max_str_digits] digits, which is not modelled:
    [int_of_digits] is all of [int] on the lines [within_digit_limit]
    below, and on a line of more digits the code may raise where the
    model reads a price. *)
Definition int_of_digits (g : list symbol) : option Z :=
  match g with
  | [] => None
  | _ :: _ => digits_value 0 g
  end.

(** [sys.get_int_max_str_digits()], as Python sets it. *)
Definition max_str_digits : nat := 4300.

(** A line that cannot bring [int] beyond that limit: it has at most
    [max_str_digits] digits in all. *)
Definition within_digit_limit (text : list symbol) : Prop :=
  (List.length (filter is_digit text) <= max_str_digits)%nat.

Inductive extraction : Type :=
| Price (p : Z)
| NoPrice
| ValueError.

Fixpoint first_price (patterns : list (list item)) (text : list symbol) : extraction :=
  match patterns with
  | [] => NoPrice
  | pattern :: patterns' =>
      match search pattern text with
      | Some g =>
          match int_of_digits (without_commas g) with
          | Some p => Price p
          | None => ValueError
          end
      | None => first_price patterns' text
      end
  end.

Definition _extract_price_from_input (text : list symbol) : extraction :=
  first_price price_patterns text.

(** The text itself and what is left of it from each later position. *)
Fixpoint tails (text : list symbol) : list (list symbol) :=
  text :: match text with
          | [] => []
          | _ :: text' => tails text'
          end.

(** No run of four digits anywhere in the text. *)
Definition no_four_digits (text : list symbol) : bool :=
  forallb (fun s => (run is_digit None s <? 4)%nat) (tails text).

(** The value of digits given from the last one. *)
Definition value_from_last (l : list nat) : Z :=
  fold_right (fun d acc => Z.of_nat d + 10 * acc) 0 l.

(** The decimal digits of [n], the last one first. *)
Fixpoint digits_from_last (fuel : nat) (n : Z) : list nat :=
  match fuel with
  | O => []
  | Datatypes.S fuel' =>
      Z.to_nat (n mod 10)
      :: (if n <? 10 then [] else digits_from_last fuel' (n / 10))
  end.

(** The digits with a comma after every third, counted from the last
    digit; [seen] digits stand since the last comma. *)
Fixpoint group_from_last (l : list nat) (seen : nat) : list symbol :=
  match l with
  | [] => []
  | d :: l' =>
      if (seen =? 3)%nat
      then Comma :: Digit d :: group_from_last l' 1
      else Digit d :: group_from_last l' (Datatypes.S seen)
  end.

(** The text [f"₹{n:,}"] in which the program prints a price [n >= 0]. *)
Definition rupees (n : Z) : list symbol :=
  Rupee
  :: rev (group_from_last
            (digits_from_last (Datatypes.S (Z.to_nat (Z.log2 n))) n) 0).

(** ** [InteractiveNegotiation] *)

Module InteractiveNegotiation.

(** The attribute [conversation_history] is never read or written after
    [__init__] and is left out. *)
Record t {S : Type} : Type := {
  ai_agent : S;
  product : Product.t;
  human_budget : Z;
  round_number : Z;
  human_offers : list Z;
  ai_offers : list Z
}.
Arguments t : clear implicits.

(** A line of input, stripped: whether it is [quit], [exit] or [q] in
    any case, and its characters. *)
Record line : Type := {
  says_quit : bool;
  text : list symbol
}.

(** How the loop was left. *)
Inductive ending : Type :=
| DealClosed (price : Z)
| EndedByUser
| RoundsUsedUp.

Inductive failure : Type :=
| EOFError
| PriceValueError
| SellerRaised (e : exn).

(** The session once over: the object, how the loop was left and whether
    the notice of a timeout was printed; or the exception raised. *)
Inductive session {S : Type} : Type :=
| Ended (self : t S) (how : ending) (timed_out_notice : bool)
| Failed (e : failure).
Arguments session : clear implicits.

Section Methods.
Context {S : Type} {seller_class : SellerAgent S}.

Definition init (ai_agent : S) (product : Product.t) (human_budget : Z) : t S :=
  {| ai_agent := ai_agent; product := product; human_budget := human_budget;
     round_number := 0; human_offers := []; ai_offers := [] |}.

Definition with_ai_agent (self : t S) (a : S) : t S :=
  {| ai_agent := a; product := product self; human_budget := human_budget self;
     round_number := round_number self; human_offers := human_offers self;
     ai_offers := ai_offers self |}.

Definition with_round_number (self : t S) (r : Z) : t S :=
  {| ai_agent := ai_agent self; product := product self;
     human_budget := human_budget self;
     round_number := r; human_offers := human_offers self;
     ai_offers := ai_offers self |}.

Definition with_human_offers (self : t S) (l : list Z) : t S :=
  {| ai_agent := ai_agent self; product := product self;
     human_budget := human_budget self;
     round_number := round_number self; human_offers := l;
     ai_offers := ai_offers self |}.

Definition with_ai_offers (self : t S) (l : list Z) : t S :=
  {| ai_agent := ai_agent self; product := product self;
     human_budget := human_budget self;
     round_number := round_number self; human_offers := human_offers self;
     ai_offers := l |}.

(** The [while] loop of [start_interactive_session] on the lines still
    to come; each pass reads one line. *)
Fixpoint negotiation_rounds (inputs : list line) (self : t S)
  : t S * (ending + failure) :=
  if round_number self <? 10
  then
    let self := with_round_number self (round_number self + 1) in
    match inputs with
    | [] => (self, inr EOFError)
    | human_input :: inputs' =>
        if says_quit human_input then (self, inl EndedByUser)
        else
          match _extract_price_from_input (text human_input) with
          | ValueError => (self, inr PriceValueError)
          | NoPrice => negotiation_rounds inputs' self
          | Price human_price =>
              if human_budget self <? human_price
              then negotiation_rounds inputs' self
              else
                let self :=
                  with_human_offers self (human_offers self ++ [human_price]) in
                match respond_to_buyer (ai_agent self) human_price
                        (round_number self) with
                | Raise e => (self, inr (SellerRaised e))
                | Ok (a, (ai_counter, ai_accepts)) =>
                    let self := with_ai_agent self a in
                    if ai_accepts : bool
                    then (self, inl (DealClosed human_price))
                    else negotiation_rounds inputs'
                           (with_ai_offers self (ai_offers self ++ [ai_counter]))
                end
          end
    end
  else (self, inl RoundsUsedUp).

Definition start_interactive_session (inputs : list line) (self : t S) : session S :=
  let ai_price := get_opening_price (ai_agent self) (product self) in
  let self := with_ai_offers self (ai_offers self ++ [ai_price]) in
  match negotiation_rounds inputs self with
  | (self, inl how) => Ended self how (10 <=? round_number self)
  | (_, inr e) => Failed e
  end.
End Methods.

End InteractiveNegotiation.

(** ** Sessions used below *)

Module InteractiveScenarios.
Import InteractiveNegotiation.

(** A line that is no command to stop. *)
Definition says (characters : list symbol) : line :=
  {| says_quit := false; text := characters |}.

(** A number written with the digits [l]. *)
Definition number (l : list nat) : list symbol := map Digit l.

(** The product of the interactive mode of the main program. *)
Definition mangoes_A : Product.t :=
  {| Product.name := "Alphonso Mangoes"; Product.category := "Mangoes";
     Product.quantity := 100; Product.quality_grade := "A";
     Product.origin := "Ratnagiri"; Product.base_market_price := 180000;
     Product.attributes := [("ripeness", "optimal"); ("export_grade", "True")] |}.

(** The session of the main program: the seller's minimum is 140000 and
    the human's budget 170000. *)
Definition main_session : InteractiveNegotiation.t AdvancedSellerAgent.t :=
  InteractiveNegotiation.init (S := AdvancedSellerAgent.t)
    (Scenarios.advanced_seller 140000 "balanced") mangoes_A 170000.

(** Five lines: ₹120000, 500, a remark with 145000, ₹150000 and
    ₹165000. *)
Definition five_lines : list line :=
  [ says (Rupee :: number [1; 2; 0; 0; 0; 0]%nat);
    says (number [5; 0; 0]%nat);
    says (Other :: Space :: number [1; 4; 5; 0; 0; 0]%nat);
    says (Rupee :: number [1; 5; 0; 0; 0; 0]%nat);
    says (Rupee :: number [1; 6; 5; 0; 0; 0]%nat) ].

(** The session after [five_lines], in exact arithmetic: a deal at
    165000 in round 5, the line 500 having used up round 2. *)
Definition main_session_end : InteractiveNegotiation.t AdvancedSellerAgent.t :=
  {| ai_agent := {| AdvancedSellerAgent.min_price := 140000;
                    AdvancedSellerAgent.strategy := "balanced";
                    AdvancedSellerAgent.rounds_passed := 5 |};
     product := mangoes_A;
     human_budget := 170000;
     round_number := 5;
     human_offers := [120000; 145000; 150000; 165000];
     ai_offers := [270000; 140000; 159500; 165000] |}.
End InteractiveScenarios.
End Ai_negotiation_interactive.

(** * [negotiation_agent.py]: the command line *)

Module Negotiation_agent_cli.
Import Negotiation_agent NegotiationState BargainingSystem.

(** One pass of the loop as the environment sees it: the clock when the
    pass begins, the words of the line typed ([input().strip().lower()
    .split()]), and the clocks read by [human_make_offer] and by the
    seller should the line be an offer. *)
Record event : Type := {
  clock : Q;
  parts : list string;
  offer_clock : Q;
  seller_clock : Q
}.

(** How [run_negotiation_loop] is left: the loop ends, [input] raises
    [EOFError], or a call into the system raises. *)
Inductive loop_end {S : Type} : Type :=
| Finished (system : BargainingSystem.t S)
| EndOfInput (system : BargainingSystem.t S)
| Crashed (e : exn).
Arguments loop_end : clear implicits.

Section Loop.
Context {S : Type} {seller_class : HumanSeller S}.

(** [int(s)] of Python, [None] standing for [ValueError]. *)
Variable int_of_str : string -> option Z.

(** What a call into the system leaves for the next pass; the [bool] it
    returns is not looked at. *)
Definition after_call (c : raising (BargainingSystem.t S * bool))
    (next : BargainingSystem.t S -> loop_end S) : loop_end S :=
  match c with
  | Ok (system, _) => next system
  | Raise e => Crashed e
  end.

(** [run_negotiation_loop(system)] on the events still to come;
    [eof_clock] is the clock of the pass in which the input is at its
    end.  The commands [status], [history] and [help] only print. *)
Fixpoint run_negotiation_loop (events : list event) (eof_clock : Q)
    (system : BargainingSystem.t S) : loop_end S :=
  match current_negotiation system with
  | None => Finished system
  | Some n =>
      if deal_closed n then Finished system
      else
        let now := match events with
                   | [] => eof_clock
                   | ev :: _ => clock ev
                   end in
        let elapsed := (now - start_time n)%Q in
        if Qle_bool (inject_Z (time_limit n)) elapsed
        then
          match _end_negotiation system "timeout" None with
          | Ok system => Finished system
          | Raise e => Crashed e
          end
        else
          match events with
          | [] => EndOfInput system
          | ev :: events' =>
              let next := run_negotiation_loop events' eof_clock in
              match parts ev with
              | [] => next system
              | command :: arguments =>
                  if String.eqb command "offer"
                  then
                    match arguments with
                    | [] => next system
                    | amount :: _ =>
                        match int_of_str amount with
                        | Some amount =>
                            after_call
                              (human_make_offer system amount
                                 (offer_clock ev) (seller_clock ev))
                              next
                        | None => next system
                        end
                    end
                  else if String.eqb command "accept"
                  then after_call (accept_seller_offer system) next
                  else if String.eqb command "reject"
                  then after_call (reject_and_exit system) next
                  else next system
              end
          end
  end.
End Loop.

(** The invariant of a negotiation of [BargainingSystem]: the product
    and the budget stay, the seller's price is at or above its minimum,
    a negotiation won by the human is closed at a price between the
    seller's minimum and the budget, and the history holds the seller's
    opening, two entries for each round after the first, and one more
    entry when the human accepted the seller's price. *)
Definition negotiation_invariant (product : Product.t) (budget : Z)
    (n : NegotiationState.t) : Prop :=
  NegotiationState.product n = product
  /\ human_budget n = budget
  /\ Product.seller_min_price product <= seller_current_price n
  /\ 1 <= round_number n
  /\ 2 * round_number n - 1 <= Z.of_nat (List.length (conversation_history n))
     <= 2 * round_number n
  /\ (deal_closed n = false ->
      winner n = None /\ final_price n = None
      /\ Z.of_nat (List.length (conversation_history n)) = 2 * round_number n - 1)
  /\ (winner n = Some "human" ->
      deal_closed n = true
      /\ exists p, final_price n = Some p
                   /\ Product.seller_min_price product <= p <= budget).

(** A product the invariant can be kept for: its minimum price is
    positive and at most its market price, which [float] holds
    exactly. *)
Definition sound_product (product : Product.t) : Prop :=
  0 < Product.seller_min_price product
  /\ Product.seller_min_price product <= Product.base_market_price product
  /\ Product.base_market_price product < 2 ^ 53.

(** A system in the middle of a negotiation that keeps the invariant. *)
Definition system_invariant (product : Product.t) (budget : Z)
    (system : BargainingSystem.t AISellerAgent.t) : Prop :=
  exists n agent,
    current_negotiation system = Some n
    /\ seller_agent system = Some agent
    /\ negotiation_invariant product budget n.

Section Laws.
Context {F : PyFloat}.

(** An int below [2 ^ 53], which [float] holds exactly, scaled by a
    literal between 1 and 2 does not truncate below itself. *)
Definition scale_ge_law : Prop :=
  forall (m : Z) (c : Q),
    0 <= m < 2 ^ 53 -> (1 <= c)%Q -> (c <= 2)%Q -> m <= int_mul m (lit c).
End Laws.

(** ** Lines used below *)

(** A reader of amounts that knows 170000 and 250000 only. *)
Definition reads_two_amounts (s : string) : option Z :=
  if String.eqb s "170000" then Some 170000
  else if String.eqb s "250000" then Some 250000
  else None.

(** The decimal text of [10 ^ 400], and a reader of amounts that knows
    this one only. *)
Fixpoint zeros (n : nat) : string :=
  match n with
  | O => ""
  | Datatypes.S n' => String "0" (zeros n')
  end.

Definition ten_to_the_400 : string := String "1" (zeros 400).

Definition reads_huge_amount (s : string) : option Z :=
  if String.eqb s ten_to_the_400 then Some (10 ^ 400) else None.

(** A line typed [seconds] after the start, every clock of the pass
    reading the same. *)
Definition typed (seconds : Z) (words : list string) : event :=
  {| clock := inject_Z seconds; parts := words;
     offer_clock := inject_Z seconds; seller_clock := inject_Z seconds |}.

(** An offer above the budget of 200000, a word that is no command, an
    offer without a number, and the offer of 170000. *)
Definition four_lines : list event :=
  [ typed 5 ["offer"; "250000"];
    typed 8 ["please"];
    typed 9 ["offer"; "plenty"];
    typed 10 ["offer"; "170000"; "final"] ].
End Negotiation_agent_cli.

(** * [in.py]

    The file of [SmartBargainingSystem]; [in] being a keyword, its
    module is [In_py].  As in [negotiation_agent.py], readings of
    [time.time()] are inputs.  The texts the seller speaks, also those
    asked of the language model, are presentation; the entries of a
    history are those of [negotiation_agent.py]. *)

Module In_py.
Import Negotiation_agent.

Module Product.
Record t : Type := {
  name : string;
  category : string;
  quantity : Z;
  quality_grade : string;
  origin : string;
  base_market_price : Z;
  seller_min_price : Z;
  attributes : list (string * string);
  description : string
}.
End Product.

Module NegotiationState.
Record t : Type := {
  product : Product.t;
  human_budget : Z;
  seller_current_price : Z;
  human_current_offer : Z;
  round_number : Z;
  start_time : Q;
  time_limit : Z;
  conversation_history : list Message;
  deal_closed : bool;
  final_price : option Z;
  winner : option string;
  personality_revealed : bool
}.

Definition with_seller_current_price (s : t) (v : Z) : t :=
  {| product := product s; human_budget := human_budget s; seller_current_price := v;
     human_current_offer := human_current_offer s; round_number := round_number s;
     start_time := start_time s; time_limit := time_limit s;
     conversation_history := conversation_history s; deal_closed := deal_closed s;
     final_price := final_price s; winner := winner s;
     personality_revealed := personality_revealed s |}.

Definition with_human_current_offer (s : t) (v : Z) : t :=
  {| product := product s; human_budget := human_budget s;
     seller_current_price := seller_current_price s; human_current_offer := v;
     round_number := round_number s; start_time := start_time s;
     time_limit := time_limit s; conversation_history := conversation_history s;
     deal_closed := deal_closed s; final_price := final_price s;
     winner := winner s; personality_revealed := personality_revealed s |}.

Definition with_round_number (s : t) (v : Z) : t :=
  {| product := product s; human_budget := human_budget s;
     seller_current_price := seller_current_price s;
     human_current_offer := human_current_offer s; round_number := v;
     start_time := start_time s; time_limit := time_limit s;
     conversation_history := conversation_history s; deal_closed := deal_closed s;
     final_price := final_price s; winner := winner s;
     personality_revealed := personality_revealed s |}.

Definition with_conversation_history (s : t) (v : list Message) : t :=
  {| product := product s; human_budget := human_budget s;
     seller_current_price := seller_current_price s;
     human_current_offer := human_current_offer s; round_number := round_number s;
     start_time := start_time s; time_limit := time_limit s;
     conversation_history := v; deal_closed := deal_closed s;
     final_price := final_price s; winner := winner s;
     personality_revealed := personality_revealed s |}.

Definition with_deal_closed (s : t) (v : bool) : t :=
  {| product := product s; human_budget := human_budget s;
     seller_current_price := seller_current_price s;
     human_current_offer := human_current_offer s; round_number := round_number s;
     start_time := start_time s; time_limit := time_limit s;
     conversation_history := conversation_history s; deal_closed := v;
     final_price := final_price s; winner := winner s;
     personality_revealed := personality_revealed s |}.

Definition with_final_price (s : t) (v : option Z) : t :=
  {| product := product s; human_budget := human_budget s;
     seller_current_price := seller_current_price s;
     human_current_offer := human_current_offer s; round_number := round_number s;
     start_time := start_time s; time_limit := time_limit s;
     conversation_history := conversation_history s; deal_closed := deal_closed s;
     final_price := v; winner := winner s;
     personality_revealed := personality_revealed s |}.

Definition with_personality_revealed (s : t) (v : bool) : t :=
  {| product := product s; human_budget := human_budget s;
     seller_current_price := seller_current_price s;
     human_current_offer := human_current_offer s; round_number := round_number s;
     start_time := start_time s; time_limit := time_limit s;
     conversation_history := conversation_history s; deal_closed := deal_closed s;
     final_price := final_price s; winner := winner s;
     personality_revealed := v |}.
End NegotiationState.

(** ** [AIPersonalities] and [SmartAISeller] *)

Module AIPersonalities.
(** The entries of a personality that are not texts. *)
Record t : Type := {
  name : string;
  opening_multiplier : Q;
  min_concession : Q;
  max_concession : Q;
  timeout_pressure : bool
}.

Definition AGGRESSIVE_TRADER : t :=
  {| name := "Aggressive Market Trader"; opening_multiplier := 155 # 100;
     min_concession := 2 # 100; max_concession := 8 # 100;
     timeout_pressure := true |}.

Definition DIPLOMATIC_MERCHANT : t :=
  {| name := "Diplomatic Merchant"; opening_multiplier := 135 # 100;
     min_concession := 4 # 100; max_concession := 12 # 100;
     timeout_pressure := false |}.

Definition CUNNING_STRATEGIST : t :=
  {| name := "Cunning Market Strategist"; opening_multiplier := 145 # 100;
     min_concession := 1 # 100; max_concession := 15 # 100;
     timeout_pressure := true |}.

(** [getattr(AIPersonalities, personality_key)]; [None] stands for
    [AttributeError]. *)
Definition lookup (personality_key : string) : option t :=
  if String.eqb personality_key "AGGRESSIVE_TRADER" then Some AGGRESSIVE_TRADER
  else if String.eqb personality_key "DIPLOMATIC_MERCHANT" then Some DIPLOMATIC_MERCHANT
  else if String.eqb personality_key "CUNNING_STRATEGIST" then Some CUNNING_STRATEGIST
  else None.
End AIPersonalities.

Module SmartAISeller.
Import NegotiationState.

(** The attribute [ai_client] only words the messages, and
    [negotiation_memory] is never used. *)
Record t : Type := { personality : AIPersonalities.t }.

(** [len(l) >= 2 and l[-1] < l[-2]]. *)
Definition falling (l : list Z) : bool :=
  match rev l with
  | x :: y :: _ => x <? y
  | _ => false
  end.

Section Methods.
Context {F : PyFloat}.

Definition get_opening_offer (self : t) (product : Product.t) : Z :=
  int_mul (Product.base_market_price product)
          (lit (AIPersonalities.opening_multiplier (personality self))).

(** The concession rate of [_calculate_smart_counter]. *)
Definition base_rate (self : t) (state : NegotiationState.t) (time_remaining : Q)
  : float :=
  let rate := lit (2 # 100) +~ of_int (round_number state) *~ lit (15 # 1000) in
  let most := lit (AIPersonalities.max_concession (personality self)) in
  let rate := if most <~ rate then most else rate in
  let rate := if negb (Qle_bool 60 time_remaining) then rate *~ lit (15 # 10) else rate in
  if String.eqb (AIPersonalities.name (personality self)) "Cunning Market Strategist"
  then
    let recent_offers :=
      AISellerAgent.human_offers (AISellerAgent.last_n 3 (conversation_history state)) in
    if AISellerAgent.rising recent_offers then rate *~ lit (7 # 10)
    else if falling recent_offers then rate *~ lit (13 # 10)
    else rate
  else rate.

Definition _calculate_smart_counter (self : t) (state : NegotiationState.t)
    (human_offer : Z) (time_remaining : Q) : Z :=
  let current_price := seller_current_price state in
  let gap := current_price - human_offer in
  let concession := Z.max 2000 (trunc (of_int gap *~ base_rate self state time_remaining)) in
  Z.max (Product.seller_min_price (product state)) (current_price - concession).

(** [respond_to_offer(state, human_offer, human_message)]; [now] is the
    clock the seller reads. *)
Definition respond_to_offer (self : t) (state : NegotiationState.t)
    (human_offer : Z) (now : Q) : DealStatus * Z :=
  let product := product state in
  let time_remaining := (inject_Z (time_limit state) - (now - start_time state))%Q in
  if of_int (Product.seller_min_price product) *~ lit (108 # 100) <=~ of_int human_offer
  then (ACCEPTED, human_offer)
  else if negb (Qle_bool 15 time_remaining)
  then
    if Product.seller_min_price product <=? human_offer
    then (ACCEPTED, human_offer)
    else (ONGOING,
          Z.max (Product.seller_min_price product)
                (int_mul human_offer (lit (102 # 100))))
  else (ONGOING, _calculate_smart_counter self state human_offer time_remaining).
End Methods.
End SmartAISeller.

(** ** [ProductCatalog] *)

Module ProductCatalog.
Definition get_products : list Product.t :=
  [ {| Product.name := "Alphonso Mangoes"; Product.category := "Premium Fruits";
       Product.quantity := 100; Product.quality_grade := "Export A+";
       Product.origin := "Ratnagiri, Maharashtra";
       Product.base_market_price := 220000; Product.seller_min_price := 175000;
       Product.attributes :=
         [("ripeness", "perfect"); ("certification", "organic"); ("harvest", "2024")];
       Product.description :=
         "The king of mangoes - premium export quality with perfect sweetness" |};
    {| Product.name := "Basmati Rice"; Product.category := "Premium Grains";
       Product.quantity := 500; Product.quality_grade := "1121 Extra Long";
       Product.origin := "Punjab";
       Product.base_market_price := 180000; Product.seller_min_price := 145000;
       Product.attributes :=
         [("age", "2_years"); ("length", "8.2mm"); ("aroma", "premium")];
       Product.description :=
         "Aged premium basmati with exceptional aroma and extra-long grains" |};
    {| Product.name := "Darjeeling Tea"; Product.category := "Premium Beverages";
       Product.quantity := 50; Product.quality_grade := "FTGFOP1";
       Product.origin := "Darjeeling Hills";
       Product.base_market_price := 95000; Product.seller_min_price := 76000;
       Product.attributes :=
         [("flush", "second"); ("estate", "Makaibari"); ("altitude", "7000ft")];
       Product.description := "Finest second flush Darjeeling with muscatel flavor" |};
    {| Product.name := "Kashmir Saffron"; Product.category := "Premium Spices";
       Product.quantity := 10; Product.quality_grade := "Mongra Grade I";
       Product.origin := "Kashmir Valley";
       Product.base_market_price := 450000; Product.seller_min_price := 380000;
       Product.attributes :=
         [("crocin", "250+"); ("purity", "99.9%"); ("threads", "premium")];
       Product.description := "World's finest saffron with highest crocin content" |};
    {| Product.name := "Kashmiri Walnuts"; Product.category := "Premium Dry Fruits";
       Product.quantity := 200; Product.quality_grade := "Jumbo";
       Product.origin := "Kashmir";
       Product.base_market_price := 160000; Product.seller_min_price := 130000;
       Product.attributes :=
         [("size", "jumbo"); ("oil_content", "65%"); ("harvest", "fresh")];
       Product.description :=
         "Premium jumbo walnuts with high oil content and rich flavor" |} ].
End ProductCatalog.

(** ** [SmartBargainingSystem] *)

Module SmartBargainingSystem.
Import NegotiationState.

Record t : Type := {
  current_negotiation : option NegotiationState.t;
  ai_seller : option SmartAISeller.t;
  products : list Product.t
}.

Definition with_current_negotiation (self : t) (n : NegotiationState.t) : t :=
  {| current_negotiation := Some n; ai_seller := ai_seller self;
     products := products self |}.

(** [__init__]. *)
Definition init : t :=
  {| current_negotiation := None; ai_seller := None;
     products := ProductCatalog.get_products |}.

(** How [start_negotiation] is left: it returns, the program exits in
    the constructor of the seller's client, or it raises. *)
Inductive start : Type :=
| Started (self : t) (result : bool)
| SystemExit
| StartRaised (e : exn).

(** The three display methods read [self.ai_seller.personality]. *)
Definition shown_personality (self : t) : raising unit :=
  match ai_seller self with
  | Some _ => Ok tt
  | None => Raise AttributeError
  end.

Section Methods.
Context {F : PyFloat}.

(** [start_negotiation(product_index, budget, time_limit)] for a
    product index that is not negative.  [proceed] is the answer to the
    prompt shown when the budget is below the seller's minimum,
    [selected_personality] what [random.choice(personalities)] returns,
    [client_ready] whether the constructor of [SmartLlamaClient] returns
    rather than calling [sys.exit], and [now] the clock. *)
Definition start_negotiation (self : t) (product_index : nat) (budget : Z)
    (time_limit : Z) (proceed : bool) (selected_personality : string)
    (client_ready : bool) (now : Q) : start :=
  match nth_error (products self) product_index with
  | None => Started self false
  | Some product =>
      if (budget <? Product.seller_min_price product) && negb proceed
      then Started self false
      else
        match AIPersonalities.lookup selected_personality with
        | None => StartRaised AttributeError
        | Some personality =>
            if client_ready
            then
              let seller := {| SmartAISeller.personality := personality |} in
              let opening_price := SmartAISeller.get_opening_offer seller product in
              let n :=
                {| product := product; human_budget := budget;
                   seller_current_price := opening_price;
                   human_current_offer := 0; round_number := 1;
                   start_time := now; time_limit := time_limit;
                   conversation_history := [seller_said opening_price];
                   deal_closed := false; final_price := None; winner := None;
                   personality_revealed := false |} in
              Started {| current_negotiation := Some n; ai_seller := Some seller;
                         products := products self |} true
            else SystemExit
        end
  end.

(** [_end_negotiation(result, final_price)].  The screen of a deal,
    [_display_success_results], divides [market_savings] by the market
    price and then names the seller's personality; the screens of a
    timeout and of a rejection name the personality.  [winner] is not
    assigned. *)
Definition _end_negotiation (self : t) (result : string) (final_price : option Z)
  : raising t :=
  match current_negotiation self with
  | None => Ok self
  | Some n =>
      let n := with_deal_closed n true in
      let n := with_final_price n final_price in
      let self := with_current_negotiation self n in
      if String.eqb result "deal" && truthy final_price
      then
        let market_savings :=
          Product.base_market_price (product n)
          - match final_price with Some p => p | None => 0 end in
        if Product.base_market_price (product n) =? 0
        then Raise ZeroDivisionError
        else if quotient_overflows market_savings (Product.base_market_price (product n))
        then Raise OverflowError
        else _ <- shown_personality self ;; Ok self
      else if String.eqb result "timeout"
      then _ <- shown_personality self ;; Ok self
      else if String.eqb result "rejected"
      then _ <- shown_personality self ;; Ok self
      else Ok self
  end.

(** [_display_ai_response]: from round 3 on the personality is revealed,
    once. *)
Definition _display_ai_response (self : t) (n : NegotiationState.t)
  : raising NegotiationState.t :=
  if (3 <=? round_number n) && negb (personality_revealed n)
  then _ <- shown_personality self ;; Ok (with_personality_revealed n true)
  else Ok n.

(** [make_human_offer(offer_amount)]; [now] is the clock read by the
    method and [now_seller] the clock read by the seller's response. *)
Definition make_human_offer (self : t) (offer_amount : Z) (now now_seller : Q)
  : raising (t * bool) :=
  match current_negotiation self with
  | None => Ok (self, false)
  | Some n =>
      if deal_closed n then Ok (self, false)
      else
        let elapsed := (now - start_time n)%Q in
        if Qle_bool (inject_Z (time_limit n)) elapsed
        then self <- _end_negotiation self "timeout" None ;; Ok (self, false)
        else if human_budget n <? offer_amount then Ok (self, false)
        else if offer_amount <=? 0 then Ok (self, false)
        else
          let n := with_human_current_offer n offer_amount in
          let n := with_round_number n (round_number n + 1) in
          let n := with_conversation_history n
                     (conversation_history n ++ [human_said offer_amount]) in
          match ai_seller self with
          | None => Raise AttributeError
          | Some seller =>
              let '(status, seller_price) :=
                SmartAISeller.respond_to_offer seller n offer_amount now_seller in
              let n := with_seller_current_price n seller_price in
              let n := with_conversation_history n
                         (conversation_history n ++ [seller_said seller_price]) in
              n <- _display_ai_response self n ;;
              let self := with_current_negotiation self n in
              if DealStatus_eqb status ACCEPTED
              then self <- _end_negotiation self "deal" (Some seller_price) ;;
                   Ok (self, true)
              else Ok (self, true)
          end
  end.

Definition accept_seller_offer (self : t) : raising (t * bool) :=
  match current_negotiation self with
  | Some n =>
      if deal_closed n then Ok (self, false)
      else
        let final_price := seller_current_price n in
        if human_budget n <? final_price then Ok (self, false)
        else
          let n := with_conversation_history n
                     (conversation_history n ++ [human_said final_price]) in
          let self := with_current_negotiation self n in
          _ <- (if personality_revealed n then Ok tt else shown_personality self) ;;
          self <- _end_negotiation self "deal" (Some final_price) ;; Ok (self, true)
  | None => Ok (self, false)
  end.

Definition reject_negotiation (self : t) : raising (t * bool) :=
  match current_negotiation self with
  | Some _ =>
      _ <- shown_personality self ;;
      self <- _end_negotiation self "rejected" None ;; Ok (self, true)
  | None => Ok (self, false)
  end.

(** [show_status]: it changes nothing and names the personality once it
    is revealed. *)
Definition show_status (self : t) : raising unit :=
  match current_negotiation self with
  | None => Ok tt
  | Some n => if personality_revealed n then shown_personality self else Ok tt
  end.
End Methods.
End SmartBargainingSystem.

(** ** The command line *)

Import SmartBargainingSystem NegotiationState Negotiation_agent_cli.

(** How [run_negotiation] is left: the negotiation is closed, a command
    returned [False], the input is at its end, or a call raises. *)
Inductive session : Type :=
| Closed (system : SmartBargainingSystem.t)
| Stopped (system : SmartBargainingSystem.t)
| InputEnded (system : SmartBargainingSystem.t)
| Raised (e : exn).

Section CommandLine.
Context {F : PyFloat}.

(** [int(s)] of Python, [None] standing for [ValueError]. *)
Variable int_of_str : string -> option Z.

(** [parse_command(command, system)] on the words of the command;
    [now] and [now_seller] are the clocks an offer reads. *)
Definition parse_command (parts : list string) (system : SmartBargainingSystem.t)
    (now now_seller : Q) : raising (SmartBargainingSystem.t * bool) :=
  match parts with
  | [] => Ok (system, true)
  | cmd :: arguments =>
      if String.eqb cmd "offer"
      then
        match arguments with
        | [] => Ok (system, true)
        | amount :: _ =>
            match int_of_str amount with
            | Some amount => make_human_offer system amount now now_seller
            | None => Ok (system, true)
            end
        end
      else if String.eqb cmd "accept"
      then accept_seller_offer system
      else if String.eqb cmd "reject" || String.eqb cmd "quit" || String.eqb cmd "exit"
      then reject_negotiation system
      else if String.eqb cmd "status"
      then _ <- show_status system ;; Ok (system, true)
      else Ok (system, true)
  end.

(** [run_negotiation(system)] on the events still to come; [eof_clock]
    is the clock of the pass in which the input is at its end.  A
    [KeyboardInterrupt] is not modelled. *)
Fixpoint run_negotiation (events : list event) (eof_clock : Q)
    (system : SmartBargainingSystem.t) : session :=
  match current_negotiation system with
  | None => Closed system
  | Some n =>
      if deal_closed n then Closed system
      else
        let now := match events with
                   | [] => eof_clock
                   | ev :: _ => clock ev
                   end in
        let elapsed := (now - start_time n)%Q in
        if Qle_bool (inject_Z (time_limit n)) elapsed
        then
          match _end_negotiation system "timeout" None with
          | Ok system => Closed system
          | Raise e => Raised e
          end
        else
          match events with
          | [] => InputEnded system
          | ev :: events' =>
              match parts ev with
              | [] => run_negotiation events' eof_clock system
              | _ :: _ =>
                  match parse_command (parts ev) system
                          (offer_clock ev) (seller_clock ev) with
                  | Ok (system, true) => run_negotiation events' eof_clock system
                  | Ok (system, false) => Stopped system
                  | Raise e => Raised e
                  end
              end
          end
  end.
End CommandLine.

(** The invariant of a negotiation of [SmartBargainingSystem]: the
    product and the budget stay, the seller's price is at or above its
    minimum, [winner] is never set, an open negotiation has no final
    price, a final price lies between the seller's minimum and the
    budget, and the history holds the seller's opening, two entries for
    each round after the first, and one more entry when the human
    accepted the seller's price. *)
Definition negotiation_invariant (product : Product.t) (budget : Z)
    (n : NegotiationState.t) : Prop :=
  NegotiationState.product n = product
  /\ human_budget n = budget
  /\ Product.seller_min_price product <= seller_current_price n
  /\ 1 <= round_number n
  /\ winner n = None
  /\ 2 * round_number n - 1 <= Z.of_nat (List.length (conversation_history n))
     <= 2 * round_number n
  /\ (deal_closed n = false ->
      final_price n = None
      /\ Z.of_nat (List.length (conversation_history n)) = 2 * round_number n - 1)
  /\ (forall p, final_price n = Some p ->
                deal_closed n = true
                /\ Product.seller_min_price product <= p <= budget).

(** A product the invariant can be kept for. *)
Definition sound_product (product : Product.t) : Prop :=
  0 < Product.seller_min_price product
  /\ Product.seller_min_price product <= Product.base_market_price product
  /\ Product.base_market_price product < 2 ^ 53.

(** A system in the middle of a negotiation that keeps the invariant. *)
Definition system_invariant (product : Product.t) (budget : Z)
    (system : SmartBargainingSystem.t) : Prop :=
  exists n seller,
    current_negotiation system = Some n
    /\ ai_seller system = Some seller
    /\ negotiation_invariant product budget n.

(** ** Sessions used below *)

Module SmartScenarios.

(** [SmartBargainingSystem()] after [start_negotiation(0, 200000)]: the
    Alphonso lot against the diplomatic merchant, 120 seconds, the clock
    at 0, in exact arithmetic. *)
Definition smart_started : start :=
  start_negotiation (F := Exact.arith) init 0%nat 200000 120 true
    "DIPLOMATIC_MERCHANT" true 0%Q.

(** The system of [smart_started]. *)
Definition smart_open : SmartBargainingSystem.t :=
  match smart_started with
  | Started started _ => started
  | _ => init
  end.

(** The negotiation of [smart_open] as the seller sees it when it
    answers a first offer of 170000. *)
Definition smart_round_2 : NegotiationState.t :=
  {| product :=
       {| Product.name := "Alphonso Mangoes"; Product.category := "Premium Fruits";
          Product.quantity := 100; Product.quality_grade := "Export A+";
          Product.origin := "Ratnagiri, Maharashtra";
          Product.base_market_price := 220000; Product.seller_min_price := 175000;
          Product.attributes :=
            [("ripeness", "perfect"); ("certification", "organic"); ("harvest", "2024")];
          Product.description :=
            "The king of mangoes - premium export quality with perfect sweetness" |};
     human_budget := 200000;
     seller_current_price := 297000;
     human_current_offer := 170000;
     round_number := 2;
     start_time := 0;
     time_limit := 120;
     conversation_history := [seller_said 297000; human_said 170000];
     deal_closed := false;
     final_price := None;
     winner := None;
     personality_revealed := false |}.
End SmartScenarios.
End In_py.

(** * [new_bargain_platform.py]: the test bench

    [Product], [NegotiationContext] and [DealStatus] are declared as in
    [Ai_negotiation.py]; a message of the context is kept as its
    role. *)

Module New_bargain_platform.
Import Ai_negotiation NegotiationContext.

(** [BaseBuyerAgent]: what the test bench calls on the buyer under test;
    the agent may change its own attributes, so each method returns the
    agent too.  The seller's price is always an int here. *)
Class BaseBuyerAgent (B : Type) : Type := {
  generate_opening_offer : B -> NegotiationContext.t -> B * Z;
  respond_to_seller_offer : B -> NegotiationContext.t -> Z -> B * (DealStatus * Z)
}.

(** ** The template buyer of [bb.py] and [ExampleSimpleAgent] *)

Module TemplateBuyer.
(** [bb.py]'s [YourBuyerAgent]: only its name, which it never reads. *)
Record t : Type := { name : string }.

Section Methods.
Context {F : PyFloat}.

(** [bb.py], [respond_to_seller_offer]. *)
Definition respond_to_seller_offer (context : NegotiationContext.t) (seller_price : Z)
  : DealStatus * Z :=
  if (seller_price <=? your_budget context)
     && (of_int seller_price
         <=~ of_int (Product.base_market_price (product context)) *~ lit (85 # 100))
  then (ACCEPTED, seller_price)
  else
    let counter_offer :=
      if 8 <=? current_round context
      then Z.min (int_mul seller_price (lit (95 # 100))) (your_budget context)
      else Z.min (int_mul seller_price (lit (90 # 100))) (your_budget context) in
    (ONGOING, counter_offer).
End Methods.
End TemplateBuyer.

Module ExampleSimpleAgent.
Record t : Type := { name : string }.

Section Methods.
Context {F : PyFloat}.

Definition generate_opening_offer (context : NegotiationContext.t) : Z :=
  let opening :=
    int_mul (Product.base_market_price (product context)) (lit (6 # 10)) in
  Z.min opening (your_budget context).

Definition respond_to_seller_offer (context : NegotiationContext.t) (seller_price : Z)
  : DealStatus * Z :=
  if (seller_price <=? your_budget context)
     && (of_int seller_price
         <=~ of_int (Product.base_market_price (product context)) *~ lit (85 # 100))
  then (ACCEPTED, seller_price)
  else
    let last_offer := last (your_offers context) 0 in
    let counter := Z.min (int_mul last_offer (lit (11 # 10))) (your_budget context) in
    if of_int seller_price *~ lit (95 # 100) <=~ of_int counter
    then (ONGOING, Z.min (seller_price - 1000) (your_budget context))
    else (ONGOING, counter).
End Methods.
End ExampleSimpleAgent.

#[export] Instance TemplateBuyer_is_buyer {F : PyFloat} : BaseBuyerAgent TemplateBuyer.t :=
  {| generate_opening_offer :=
       fun self context => (self, bb.YourBuyerAgent.generate_opening_offer context);
     respond_to_seller_offer :=
       fun self context seller_price =>
         (self, TemplateBuyer.respond_to_seller_offer context seller_price) |}.

#[export] Instance ExampleSimpleAgent_is_buyer {F : PyFloat}
  : BaseBuyerAgent ExampleSimpleAgent.t :=
  {| generate_opening_offer :=
       fun self context => (self, ExampleSimpleAgent.generate_opening_offer context);
     respond_to_seller_offer :=
       fun self context seller_price =>
         (self, ExampleSimpleAgent.respond_to_seller_offer context seller_price) |}.

(** ** [MockSellerAgent] *)

Module MockSellerAgent.
(** The attribute [personality] is never read. *)
Record t : Type := { min_price : Z }.

Section Methods.
Context {F : PyFloat}.

Definition get_opening_price (self : t) (product : Product.t) : Z :=
  int_mul (Product.base_market_price product) (lit (15 # 10)).

Definition respond_to_buyer (self : t) (buyer_offer round_num : Z) : Z * bool :=
  if of_int (min_price self) *~ lit (11 # 10) <=~ of_int buyer_offer
  then (buyer_offer, true)
  else if 8 <=? round_num
  then (Z.max (min_price self) (int_mul buyer_offer (lit (105 # 100))), false)
  else (Z.max (min_price self) (int_mul buyer_offer (lit (115 # 100))), false).
End Methods.
End MockSellerAgent.

(** ** [run_negotiation_test] *)

(** The dictionary [run_negotiation_test] returns. *)
Record TestResult {F : PyFloat} : Type := {
  deal_made : bool;
  final_price : option Z;
  rounds : Z;
  savings : Z;
  savings_pct : float;
  below_market_pct : float;
  conversation : list Speaker
}.

Section Bench.
Context {F : PyFloat} {B : Type} {buyer_class : BaseBuyerAgent B}.

(** The passes of the [for] loop over the round numbers still to come;
    the result is the buyer, the context, and the final price when a
    deal is made. *)
Fixpoint negotiation_rounds (round_nums : list Z) (buyer_agent : B)
    (seller : MockSellerAgent.t) (context : NegotiationContext.t) (seller_price : Z)
  : B * NegotiationContext.t * option Z :=
  match round_nums with
  | [] => (buyer_agent, context, None)
  | round_num :: round_nums' =>
      let context := with_current_round context (round_num + 1) in
      let '(buyer_agent, (status, buyer_offer)) :=
        if round_num =? 0
        then let '(b, offer) := generate_opening_offer buyer_agent context in
             (b, (ONGOING, offer))
        else respond_to_seller_offer buyer_agent context seller_price in
      let context := with_your_offers context (your_offers context ++ [buyer_offer]) in
      let context := with_messages context (messages context ++ [buyer]) in
      if DealStatus_eqb status ACCEPTED
      then (buyer_agent, context, Some seller_price)
      else
        let '(seller_price, seller_accepts) :=
          MockSellerAgent.respond_to_buyer seller buyer_offer round_num in
        if seller_accepts : bool
        then (buyer_agent, with_messages context (messages context ++ [Ai_negotiation.seller]),
              Some buyer_offer)
        else
          let context :=
            with_seller_offers context (seller_offers context ++ [seller_price]) in
          let context := with_messages context (messages context ++ [Ai_negotiation.seller]) in
          negotiation_rounds round_nums' buyer_agent seller context seller_price
  end.

(** [range(10)]. *)
Definition range_10 : list Z := [0; 1; 2; 3; 4; 5; 6; 7; 8; 9].

(** [run_negotiation_test(buyer_agent, product, buyer_budget,
    seller_min)].  The two percentages of a deal divide by the budget
    and by the market price. *)
Definition run_negotiation_test (buyer_agent : B) (product : Product.t)
    (buyer_budget seller_min : Z) : raising TestResult :=
  let seller := {| MockSellerAgent.min_price := seller_min |} in
  let context :=
    {| product := product; your_budget := buyer_budget; current_round := 0;
       seller_offers := []; your_offers := []; messages := [] |} in
  let seller_price := MockSellerAgent.get_opening_price seller product in
  let context := with_seller_offers context (seller_offers context ++ [seller_price]) in
  let context := with_messages context (messages context ++ [Ai_negotiation.seller]) in
  let '(_, context, outcome) :=
    negotiation_rounds range_10 buyer_agent seller context seller_price in
  match outcome with
  | Some price =>
      if buyer_budget =? 0 then Raise ZeroDivisionError
      else if Product.base_market_price product =? 0 then Raise ZeroDivisionError
      else
        Ok {| deal_made := true; final_price := Some price;
              rounds := current_round context;
              savings := buyer_budget - price;
              savings_pct := true_div (buyer_budget - price) buyer_budget *~ of_int 100;
              below_market_pct :=
                true_div (Product.base_market_price product - price)
                         (Product.base_market_price product) *~ of_int 100;
              conversation := messages context |}
  | None =>
      Ok {| deal_made := false; final_price := None;
            rounds := current_round context;
            savings := 0; savings_pct := of_int 0; below_market_pct := of_int 0;
            conversation := messages context |}
  end.

(** The contract of [BaseBuyerAgent]: an offer is at most the budget,
    and a seller's price is accepted only within the budget. *)
Definition keeps_to_budget : Prop :=
  forall (self : B) (context : NegotiationContext.t),
    snd (generate_opening_offer self context) <= your_budget context
    /\ forall seller_price : Z,
         let '(_, (status, offer)) :=
           respond_to_seller_offer self context seller_price in
         if DealStatus_eqb status ACCEPTED
         then seller_price <= your_budget context
         else offer <= your_budget context.
End Bench.

(** ** Sessions used below *)

(** The lot and the first scenario of [test_your_agent]: a budget of
    250000 against a minimum of 185000. *)
Definition alphonso_mango : Product.t :=
  {| Product.name := "Alphonso Mangoes"; Product.category := "Premium Mangoes";
     Product.quantity := 100; Product.quality_grade := "Export";
     Product.origin := "Ratnagiri"; Product.base_market_price := 220000;
     Product.attributes :=
       [("ripeness", "optimal"); ("export_grade", "True");
        ("certification", "organic"); ("harvest_season", "peak")] |}.
End New_bargain_platform.

(** * Properties *)

(** ** The laws hold in exact arithmetic *)

Module ExactLaws.
Import Exact.

Lemma Qtrunc_mono (x y : Q) : (x <= y)%Q -> Qtrunc x <= Qtrunc y.
Proof.
  destruct x as [p q], y as [r s]. unfold Qle, Qtrunc. simpl. intro H.
  rewrite <- (Z.quot_mul_cancel_r p (Zpos q) (Zpos s)) by lia.
  rewrite <- (Z.quot_mul_cancel_r r (Zpos s) (Zpos q)) by lia.
  rewrite (Z.mul_comm (Zpos s) (Zpos q)).
  apply Z.quot_le_mono; lia.
Qed.

Lemma quotient_sign : quotient_sign_law.
Proof.
  intros a b [cn cd] Ha Hb Hc. unfold true_div. simpl.
  destruct b as [ | b | b ]; try lia.
  unfold Qle in Hc. simpl in Hc.
  unfold Qle_bool, Qdiv, Qmult, Qinv. simpl.
  apply Z.leb_gt. nia.
Qed.

Lemma scale_mono : scale_mono_law.
Proof.
  intros m [cn cd] [dn dd] Hm _ Hcd _. unfold int_mul. simpl. apply Qtrunc_mono.
  unfold Qle in Hcd. unfold Qle. simpl in Hcd. simpl. nia.
Qed.

Lemma scale_up : scale_up_law.
Proof.
  intros m h [cn cd] Hm Hc Hh. simpl.
  unfold Qle in Hc. simpl in Hc.
  unfold Qle_bool, Qmult. simpl.
  apply Z.leb_gt. nia.
Qed.

(** In exact arithmetic, on prices that are not negative, truncating the
    candidate [0.85 * latest] before the blend changes nothing: the
    blend is the truncation of
    [decay * est + (1 - decay) * (0.85 * latest)]. *)
Lemma blend_truncation_immaterial (est latest : Z) :
  0 <= est -> 0 <= latest ->
  SpecEstimate.blend (F := Exact.arith) est latest
  = Qtrunc ((80 # 100) * inject_Z est
            + (1 - (80 # 100)) * ((85 # 100) * inject_Z latest))%Q.
Proof.
  intros He Hl. unfold SpecEstimate.blend, SpecEstimate.decay, int_mul.
  cbn [trunc fadd fmul fsub of_int lit Exact.arith].
  change (inject_Z 1 - (80 # 100))%Q with (20 # 100)%Q.
  change (1 - (80 # 100))%Q with (20 # 100)%Q.
  unfold Qtrunc, Qplus, Qmult, inject_Z; cbn [Qnum Qden].
  repeat match goal with
         | |- context [Z.pos ?p] =>
             let q := eval vm_compute in p in
             progress change (Z.pos p) with (Z.pos q)
         end.
  assert (H0 : 0 <= latest * 85 ÷ 100) by (apply Z.quot_pos; lia).
  rewrite (Z.quot_div_nonneg (latest * 85)) in H0 |- * by lia.
  rewrite !Z.quot_div_nonneg by lia.
  Z.div_mod_to_equations. lia.
Qed.
End ExactLaws.

(** ** The buyer agent *)

Module BuyerProofs.
Import Ai_negotiation NegotiationContext YourBuyerAgent.

Section Generic.
Context {F : PyFloat}.

Lemma bounds_ordered (c : NegotiationContext.t) :
  fst (_bounds c) <= snd (_bounds c) /\ snd (_bounds c) <= your_budget c.
Proof. unfold _bounds. simpl. lia. Qed.

Lemma clamped_counter_le_budget (c : NegotiationContext.t) (sp : Z) :
  clamped_counter c sp <= your_budget c.
Proof.
  unfold clamped_counter. destruct (_bounds c) as [opening walkaway]. lia.
Qed.

Lemma counter_offer_le_budget (c : NegotiationContext.t) (sp : Z) :
  counter_offer c sp <= your_budget c.
Proof.
  unfold counter_offer. pose proof (clamped_counter_le_budget c sp).
  destruct (clamped_counter c sp =? last_my c); simpl; [ | lia ].
  destruct (clamped_counter c sp + MIN_STEP <=? your_budget c) eqn:E; lia.
Qed.

Lemma nudge_le_budget (c : NegotiationContext.t) : nudge c <= your_budget c.
Proof.
  unfold nudge. pose proof (bounds_ordered c).
  destruct (_bounds c) as [opening walkaway]. simpl in *. lia.
Qed.

Lemma opening_le_budget (self : YourBuyerAgent.t) (c : NegotiationContext.t) :
  snd (generate_opening_offer self c) <= your_budget c.
Proof.
  unfold generate_opening_offer. pose proof (bounds_ordered c).
  destruct (_bounds c) as [opening walkaway]. simpl in *. lia.
Qed.

Lemma accepts_within_budget (c : NegotiationContext.t) (est : option Z) (sp : Z) :
  accepts c est sp = true -> sp <= your_budget c.
Proof.
  unfold accepts. destruct (_bounds c) as [opening walkaway].
  destruct est; rewrite ?orb_true_iff, ?andb_true_iff; lia.
Qed.

(** What [respond_to_seller_offer] returns: an acceptance of the seller's
    price, within budget, or a counter-offer with [ONGOING]. *)
Lemma respond_cases (self : YourBuyerAgent.t) (c : NegotiationContext.t)
    (seller_price : option Z) :
  let r := snd (respond_to_seller_offer self c seller_price) in
  (exists sp, seller_price = Some sp /\ r = (ACCEPTED, sp) /\ sp <= your_budget c)
  \/ (exists sp, seller_price = Some sp /\ r = (ONGOING, counter_offer c sp))
  \/ (seller_price = None /\ r = (ONGOING, nudge c)).
Proof.
  unfold respond_to_seller_offer. destruct seller_price as [sp | ]; simpl.
  - match goal with |- context [accepts c ?e sp] => destruct (accepts c e sp) eqn:E end.
    + left. exists sp. simpl. eauto using accepts_within_budget.
    + right. left. exists sp. simpl. auto.
  - right. right. auto.
Qed.

Lemma respond_le_budget (self : YourBuyerAgent.t) (c : NegotiationContext.t)
    (seller_price : option Z) :
  snd (snd (respond_to_seller_offer self c seller_price)) <= your_budget c.
Proof.
  destruct (respond_cases self c seller_price)
    as [(sp & _ & -> & H) | [(sp & _ & ->) | (_ & ->)]]; simpl.
  - exact H.
  - apply counter_offer_le_budget.
  - apply nudge_le_budget.
Qed.

(** A counter-offer is not below the previous offer as long as the
    previous offer is not above the walk-away bound. *)
Lemma counter_offer_ge_previous (c : NegotiationContext.t) (sp : Z) :
  last_my c <= snd (_bounds c) -> last_my c <= counter_offer c sp.
Proof.
  intro Hw. pose proof (bounds_ordered c) as [_ Hb].
  assert (Hc : last_my c <= clamped_counter c sp).
  { unfold clamped_counter. destruct (_bounds c) as [opening walkaway].
    simpl in Hw, Hb. lia. }
  unfold counter_offer, MIN_STEP.
  destruct ((clamped_counter c sp =? last_my c)
            && (clamped_counter c sp + 1000 <=? your_budget c)); lia.
Qed.

(** *** The minimum increment *)

(** C7 (amended).  For every non-accepting response to a numeric seller
    price: when the clamped counter-offer equals the buyer's previous
    offer and the increment fits the budget, the buyer returns the
    previous offer plus [MIN_STEP]; whenever the increment fits the
    budget the returned price differs from the previous offer; and the
    previous offer is repeated exactly when the clamped counter-offer
    equals it and the budget leaves no room for [MIN_STEP]. *)
Theorem minimum_increment_when_budget_allows
    (self self' : YourBuyerAgent.t) (c : NegotiationContext.t) (sp p : Z) :
  respond_to_seller_offer self c (Some sp) = (self', (ONGOING, p)) ->
  (clamped_counter c sp = last_my c ->
   last_my c + MIN_STEP <= your_budget c -> p = last_my c + MIN_STEP)
  /\ (last_my c + MIN_STEP <= your_budget c -> p <> last_my c)
  /\ (p = last_my c <->
      clamped_counter c sp = last_my c /\ your_budget c < last_my c + MIN_STEP).
Proof.
  intro H.
  assert (Hp : p = counter_offer c sp).
  { destruct (respond_cases self c (Some sp))
      as [(x & Hx & E & _) | [(x & Hx & E) | (Hx & E)]];
      rewrite H in E; simpl in E; congruence. }
  subst p. unfold counter_offer, MIN_STEP.
  destruct (clamped_counter c sp =? last_my c) eqn:E1;
    destruct (clamped_counter c sp + 1000 <=? your_budget c) eqn:E2; simpl;
    rewrite ?Z.eqb_eq, ?Z.eqb_neq, ?Z.leb_le, ?Z.leb_gt in *; lia.
Qed.

(** *** The opening offer *)

Lemma opening_below_walkaway_multiplier (grade : string) :
  (_quality_opening_multiplier grade <= _quality_walkaway_multiplier grade)%Q.
Proof.
  unfold _quality_opening_multiplier, _quality_walkaway_multiplier.
  destruct (contains "EXPORT" (upper grade)); [ discriminate | ].
  destruct (String.eqb (upper grade) "A"); [ discriminate | ].
  destruct (String.eqb (upper grade) "B"); discriminate.
Qed.

Lemma walkaway_multiplier_at_most_one (grade : string) :
  (_quality_walkaway_multiplier grade <= 1)%Q.
Proof.
  unfold _quality_walkaway_multiplier.
  destruct (contains "EXPORT" (upper grade)); [ discriminate | ].
  destruct (String.eqb (upper grade) "A"); [ discriminate | ].
  destruct (String.eqb (upper grade) "B"); discriminate.
Qed.

Lemma opening_multiplier_range (grade : string) :
  (6 # 10 <= _quality_opening_multiplier grade)%Q
  /\ (_quality_opening_multiplier grade <= 85 # 100)%Q
  /\ (_quality_opening_multiplier grade < 1)%Q.
Proof.
  unfold _quality_opening_multiplier.
  destruct (contains "EXPORT" (upper grade)); [ repeat split; discriminate || reflexivity | ].
  destruct (String.eqb (upper grade) "A"); [ repeat split; discriminate || reflexivity | ].
  destruct (String.eqb (upper grade) "B"); repeat split; discriminate || reflexivity.
Qed.

(** C9.  For a product whose base market price is not negative, the
    opening offer of [YourBuyerAgent] is the market price multiplied by
    the opening fraction of the quality grade and truncated, clamped to
    the budget; the fraction lies in [0.6, 0.85], is below 1 and differs
    between the grades (Export, A, B, any other); the template agent of
    [bb.py] opens at the fixed fraction 0.75, clamped to the budget. *)
Theorem opening_offer_is_clamped_market_fraction
    (mono : scale_mono_law) (self : YourBuyerAgent.t) (c : NegotiationContext.t) :
  0 <= Product.base_market_price (product c) ->
  let market := Product.base_market_price (product c) in
  let fraction := _quality_opening_multiplier (Product.quality_grade (product c)) in
  snd (generate_opening_offer self c)
    = Z.min (int_mul market (lit fraction)) (your_budget c)
  /\ snd (generate_opening_offer self c) <= your_budget c
  /\ ((6 # 10 <= fraction)%Q /\ (fraction <= 85 # 100)%Q /\ (fraction < 1)%Q)
  /\ (_quality_opening_multiplier "Export" = 82 # 100
      /\ _quality_opening_multiplier "A" = 80 # 100
      /\ _quality_opening_multiplier "B" = 76 # 100
      /\ _quality_opening_multiplier "C" = 78 # 100)
  /\ bb.YourBuyerAgent.generate_opening_offer c
       = Z.min (int_mul market (lit (75 # 100))) (your_budget c)
  /\ bb.YourBuyerAgent.generate_opening_offer c <= your_budget c.
Proof.
  intros Hm market fraction.
  pose proof (opening_multiplier_range (Product.quality_grade (product c)))
    as (Hlow & _ & _).
  assert (Hnonneg :
    (0 <= _quality_opening_multiplier (Product.quality_grade (product c)))%Q)
    by (eapply Qle_trans; [ | exact Hlow ]; discriminate).
  pose proof (mono market _ _ Hm Hnonneg
                (opening_below_walkaway_multiplier
                   (Product.quality_grade (product c)))
                (walkaway_multiplier_at_most_one
                   (Product.quality_grade (product c)))) as Hle.
  repeat split.
  - unfold generate_opening_offer, _bounds. simpl.
    fold market fraction. fold market in Hle. fold fraction in Hle. lia.
  - apply opening_le_budget.
  - apply opening_multiplier_range.
  - apply opening_multiplier_range.
  - apply opening_multiplier_range.
  - unfold bb.YourBuyerAgent.generate_opening_offer. lia.
Qed.

(** *** The estimate of the seller's minimum *)

(** The dictionary after a run of prices: the estimate is that of the
    recurrence. *)
Lemma update_model_run (prices : list Z) :
  forall s : SellerModel,
    fold_left update_model prices s
    = {| seller_history := seller_history s ++ prices;
         seller_min_est :=
           match seller_min_est s with
           | Some est =>
               Some (SpecEstimate.estimate_from est prices)
           | None => SpecEstimate.estimate prices
           end;
         times_seen := times_seen s + Z.of_nat (List.length prices) |}.
Proof.
  induction prices as [ | p prices IH ]; intros [h e n]; simpl fold_left.
  - simpl. rewrite app_nil_r, Z.add_0_r. destruct e; reflexivity.
  - rewrite IH. cbn [update_model seller_history seller_min_est times_seen].
    rewrite <- app_assoc. simpl app.
    replace (n + 1 + Z.of_nat (List.length prices))
      with (n + Z.of_nat (List.length (p :: prices)))
      by (cbn [List.length]; lia).
    destruct e; reflexivity.
Qed.

Lemma update_agent_run (prices : list Z) (n : string) (s : SellerModel) :
  fold_left _update_seller_model prices {| name := n; _state := Some s |}
  = {| name := n; _state := Some (fold_left update_model prices s) |}.
Proof.
  revert s. induction prices as [ | p prices IH ]; intro s; simpl.
  - reflexivity.
  - unfold _update_seller_model at 2. simpl. apply IH.
Qed.
End Generic.

(** C7 at a concrete response: the buyer stands at its walk-away price
    180000 with a budget of 190000, so the increment is forced. *)
Lemma minimum_increment_witness :
  let c := {| product :=
                {| Product.name := "Alphonso Mangoes"; Product.category := "Mangoes";
                   Product.quantity := 100; Product.quality_grade := "B";
                   Product.origin := "Ratnagiri";
                   Product.base_market_price := 200000;
                   Product.attributes := [] |};
              your_budget := 190000; current_round := 4;
              seller_offers := [300000; 200000; 200000; 200000];
              your_offers := [152000; 176000; 180000];
              messages := [] |} in
  let p := 181000 in
  (clamped_counter (F := Exact.arith) c 200000 = last_my (F := Exact.arith) c ->
   last_my (F := Exact.arith) c + MIN_STEP <= your_budget c ->
   p = last_my (F := Exact.arith) c + MIN_STEP)
  /\ (last_my (F := Exact.arith) c + MIN_STEP <= your_budget c ->
      p <> last_my (F := Exact.arith) c)
  /\ (p = last_my (F := Exact.arith) c <->
      clamped_counter (F := Exact.arith) c 200000 = last_my (F := Exact.arith) c
      /\ your_budget c < last_my (F := Exact.arith) c + MIN_STEP).
Proof.
  intros c p.
  apply (minimum_increment_when_budget_allows (F := Exact.arith)
           {| name := "CharmingBuyer"; _state := None |}
           (fst (respond_to_seller_offer (F := Exact.arith)
                   {| name := "CharmingBuyer"; _state := None |} c (Some 200000)))
           c 200000 p).
  vm_compute. reflexivity.
Defined.

(** C7 as stated fails: with a budget of 150000 the opening offer is the
    budget itself, the increment does not fit, and the buyer answers the
    seller's 165000 with its previous offer, 150000, again. *)
Lemma repeated_offer_at_budget :
  let c := {| product :=
                {| Product.name := "Alphonso Mangoes"; Product.category := "Mangoes";
                   Product.quantity := 100; Product.quality_grade := "Export";
                   Product.origin := "Ratnagiri";
                   Product.base_market_price := 200000;
                   Product.attributes := [] |};
              your_budget := 150000; current_round := 2;
              seller_offers := [300000; 165000];
              your_offers := [150000];
              messages := [seller; buyer; seller] |} in
  snd (respond_to_seller_offer (F := Exact.arith)
         {| name := "CharmingBuyer"; _state := Some fresh_state |} c (Some 165000))
  = (ONGOING, 150000)
  /\ last_my (F := Exact.arith) c = 150000.
Proof. vm_compute. split; reflexivity. Qed.

(** C9 at the product of [run_full_conversation]: 200000 at grade
    Export opens at 164000. *)
Lemma opening_offer_witness :
  let c := {| product :=
                {| Product.name := "Alphonso Mangoes"; Product.category := "Mangoes";
                   Product.quantity := 100; Product.quality_grade := "Export";
                   Product.origin := "Ratnagiri";
                   Product.base_market_price := 200000;
                   Product.attributes := [("ripeness", "optimal")] |};
              your_budget := 190000; current_round := 1;
              seller_offers := [300000]; your_offers := [];
              messages := [seller] |} in
  snd (generate_opening_offer (F := Exact.arith)
         {| name := "CharmingBuyer"; _state := None |} c) = 164000
  /\ bb.YourBuyerAgent.generate_opening_offer (F := Exact.arith) c = 150000.
Proof.
  intro c.
  destruct (opening_offer_is_clamped_market_fraction (F := Exact.arith)
              ExactLaws.scale_mono {| name := "CharmingBuyer"; _state := None |} c)
    as (H1 & _ & _ & _ & H2 & _).
  - vm_compute. discriminate.
  - rewrite H1, H2. vm_compute. split; reflexivity.
Defined.
End BuyerProofs.

(** ** The conversation manager *)

Module ManagerProofs.
Import Ai_negotiation NegotiationContext ConversationManager Invariants.

Section Generic.
Context {B S : Type} {buyer_class : BuyerAgent B} {seller_class : SellerAgent S}.

(** The three ways through the body of the loop: the buyer accepts, the
    seller accepts, the seller counters. *)
Lemma loop_body_shape (cm cm' : ConversationManager.t B S) :
  loop_body cm = Ok cm' ->
  exists b status offer,
    buyer_move (enter_round cm) = (b, (status, offer))
    /\ let cmB := record_buyer cm b status offer in
       (status = ACCEPTED
        /\ cm' = with_final_price cmB
                   (match last_offer (seller_offers (context cmB)) with
                    | Some p => Some p
                    | None => Some offer
                    end))
       \/ (status <> ACCEPTED
           /\ exists s price accepted,
               respond_to_buyer (seller_agent cm) offer (round_number cm + 1)
               = Ok (s, (price, accepted))
               /\ cm' = if accepted : bool
                        then _add_turn
                               (with_final_price
                                  (with_deal_status (with_seller_agent cmB s) ACCEPTED)
                                  (Some offer))
                               seller (Some price)
                        else _add_turn (with_seller_agent cmB s) seller (Some price)).
Proof.
  unfold loop_body, buyer_move, record_buyer, enter_round.
  cbn [round_number with_context with_round_number].
  set (cm1 := with_context _ _).
  assert (Hb :
    (if round_number cm + 1 =? 1
     then let '(b, offer) := generate_opening_offer (buyer_agent cm1) (context cm1) in
          (with_deal_status (with_buyer_agent cm1 b) ONGOING, offer)
     else let '(b, (status, offer)) :=
            respond_to_seller_offer (buyer_agent cm1) (context cm1)
              (last_offer (seller_offers (context cm1))) in
          (with_deal_status (with_buyer_agent cm1 b) status, offer))
    = let '(b, (status, offer)) :=
        (if round_number cm + 1 =? 1
         then let '(b, offer) :=
                generate_opening_offer (buyer_agent cm1) (context cm1) in
              (b, (ONGOING, offer))
         else respond_to_seller_offer (buyer_agent cm1) (context cm1)
                (last_offer (seller_offers (context cm1)))) in
      (with_deal_status (with_buyer_agent cm1 b) status, offer)).
  { destruct (round_number cm + 1 =? 1).
    - destruct (generate_opening_offer _ _) as [b offer]. reflexivity.
    - reflexivity. }
  rewrite Hb. clear Hb.
  destruct (if round_number cm + 1 =? 1 then _ else _) as [b [status offer]].
  intro H. exists b, status, offer. split; [ reflexivity | ].
  cbv zeta.
  destruct (DealStatus_eqb
              (deal_status (_add_turn (with_deal_status (with_buyer_agent cm1 b) status)
                              buyer (Some offer))) ACCEPTED) eqn:E.
  - left. split; [ destruct status; (reflexivity || discriminate) | congruence ].
  - right. split; [ destruct status; (discriminate || congruence) | ].
    change (round_number
              (_add_turn (with_deal_status (with_buyer_agent cm1 b) status)
                 buyer (Some offer))) with (round_number cm + 1) in H.
    change (seller_agent
              (_add_turn (with_deal_status (with_buyer_agent cm1 b) status)
                 buyer (Some offer))) with (seller_agent cm) in H.
    destruct (respond_to_buyer (seller_agent cm) offer (round_number cm + 1))
      as [ [s [price accepted]] | e ]; simpl in H; try discriminate.
    exists s, price, accepted. split; [ reflexivity | ].
    destruct accepted; congruence.
Qed.

Lemma loop_body_round (cm cm' : ConversationManager.t B S) :
  loop_body cm = Ok cm' -> round_number cm' = round_number cm + 1.
Proof.
  intro H. destruct (loop_body_shape cm cm' H) as (b & status & offer & _ & Hc).
  destruct Hc as [(_ & ->) | (_ & s & price & [ | ] & _ & ->)]; reflexivity.
Qed.

(** The loop leaves the budget and the product of the manager alone. *)
Lemma loop_body_frame (cm cm' : ConversationManager.t B S) :
  loop_body cm = Ok cm' ->
  buyer_budget cm' = buyer_budget cm
  /\ ConversationManager.product cm' = ConversationManager.product cm.
Proof.
  intro H. destruct (loop_body_shape cm cm' H) as (b & status & offer & _ & Hc).
  destruct Hc as [(_ & ->) | (_ & s & price & [ | ] & _ & ->)]; split; reflexivity.
Qed.

(** An invariant of the body of the loop holds when the loop is left. *)
Lemma loop_invariant (P : ConversationManager.t B S -> Prop) :
  (forall cm cm', P cm -> loop_test cm = true -> loop_body cm = Ok cm' -> P cm') ->
  forall (fuel : nat) (cm cm' : ConversationManager.t B S),
    P cm -> negotiation_loop fuel cm = Returned cm' ->
    P cm' /\ loop_test cm' = false.
Proof.
  intros Hstep fuel. induction fuel as [ | fuel IH ]; intros cm cm' HP H; simpl in H.
  - destruct (loop_test cm) eqn:E; [ discriminate | ].
    injection H as <-. auto.
  - destruct (loop_test cm) eqn:E.
    + destruct (loop_body cm) as [cm1 | e ] eqn:E1; try discriminate.
      eapply IH; [ | exact H ]. eapply Hstep; eassumption.
    + injection H as <-. auto.
Qed.

(** Ten passes are enough: the loop never runs out of fuel once the fuel
    covers the rounds that are left. *)
Lemma loop_terminates (fuel : nat) :
  forall cm : ConversationManager.t B S,
    (Z.to_nat (max_rounds - round_number cm) <= fuel)%nat ->
    negotiation_loop fuel cm <> OutOfFuel.
Proof.
  unfold max_rounds.
  induction fuel as [ | fuel IH ]; intros cm Hf; simpl.
  - destruct (loop_test cm) eqn:E; [ | discriminate ].
    unfold loop_test, max_rounds in E. apply andb_prop in E. destruct E as [_ E].
    apply Z.ltb_lt in E. lia.
  - destruct (loop_test cm) eqn:E; [ | discriminate ].
    unfold loop_test, max_rounds in E. apply andb_prop in E. destruct E as [_ E].
    apply Z.ltb_lt in E.
    destruct (loop_body cm) as [cm1 | e ] eqn:E1; try discriminate.
    apply IH. rewrite (loop_body_round _ _ E1). lia.
Qed.

(** More fuel than needed changes nothing. *)
Lemma loop_fuel_irrelevant (fuel : nat) :
  forall (cm cm' : ConversationManager.t B S),
    negotiation_loop fuel cm = Returned cm' ->
    negotiation_loop (Datatypes.S fuel) cm = Returned cm'.
Proof.
  induction fuel as [ | fuel IH ]; intros cm cm' H.
  - simpl in H |- *. destruct (loop_test cm); [ discriminate | exact H ].
  - change (negotiation_loop (Datatypes.S fuel) cm)
      with (if loop_test cm
            then match loop_body cm with
                 | Ok self' => negotiation_loop fuel self'
                 | Raise e => Raised e
                 end
            else Returned cm) in H.
    change (negotiation_loop (Datatypes.S (Datatypes.S fuel)) cm)
      with (if loop_test cm
            then match loop_body cm with
                 | Ok self' => negotiation_loop (Datatypes.S fuel) self'
                 | Raise e => Raised e
                 end
            else Returned cm).
    destruct (loop_test cm); [ | exact H ].
    destruct (loop_body cm) as [cm1 | e ]; [ apply IH; exact H | exact H ].
Qed.

(** *** The transcript *)

Lemma sorted_snoc (l : list Z) (x : Z) :
  StronglySorted Z.le l -> Forall (fun r => r <= x) l -> StronglySorted Z.le (l ++ [x]).
Proof.
  induction 1 as [ | a l Hs IH Ha ]; intro Hl; simpl.
  - repeat constructor.
  - inversion Hl; subst. constructor; [ auto | ].
    apply Forall_app. split; [ exact Ha | repeat constructor; assumption ].
Qed.

Lemma transcript_ok_add_turn (cm : ConversationManager.t B S)
    (who : Speaker) (p : option Z) :
  0 <= round_number cm -> transcript_ok cm -> transcript_ok (_add_turn cm who p).
Proof.
  intros Hr [Hs Hb]. unfold transcript_ok, _add_turn.
  cbn [conversation_history round_number with_context with_conversation_history].
  rewrite map_app. cbn [map ConversationTurn.round_number]. split.
  - apply sorted_snoc; [ exact Hs | ].
    eapply Forall_impl; [ | exact Hb ]. simpl. intros; lia.
  - apply Forall_app. split; [ exact Hb | repeat constructor; lia ].
Qed.

Lemma transcript_ok_weaken (cm cm1 : ConversationManager.t B S) :
  conversation_history cm1 = conversation_history cm ->
  round_number cm <= round_number cm1 ->
  transcript_ok cm -> transcript_ok cm1.
Proof.
  intros Hh Hr [Hs Hb]. unfold transcript_ok. rewrite Hh. split; [ exact Hs | ].
  eapply Forall_impl; [ | exact Hb ]. simpl. intros; lia.
Qed.

Lemma loop_body_transcript (cm cm' : ConversationManager.t B S) :
  0 <= round_number cm -> transcript_ok cm ->
  loop_body cm = Ok cm' -> transcript_ok cm'.
Proof.
  intros Hr Hok H.
  destruct (loop_body_shape cm cm' H) as (b & status & offer & _ & Hc).
  assert (HB : transcript_ok (record_buyer cm b status offer)).
  { unfold record_buyer. apply transcript_ok_add_turn; [ simpl; lia | ].
    eapply transcript_ok_weaken; [ | | exact Hok ]; simpl; [ reflexivity | lia ]. }
  assert (HrB : round_number (record_buyer cm b status offer) = round_number cm + 1)
    by reflexivity.
  destruct Hc as [(_ & ->) | (_ & s & price & [ | ] & _ & ->)].
  - eapply transcript_ok_weaken; [ | | exact HB ]; simpl; [ reflexivity | lia ].
  - apply transcript_ok_add_turn; [ simpl; lia | ].
    eapply transcript_ok_weaken; [ | | exact HB ]; simpl; [ reflexivity | lia ].
  - apply transcript_ok_add_turn; [ simpl; lia | ].
    eapply transcript_ok_weaken; [ | | exact HB ]; simpl; [ reflexivity | lia ].
Qed.

(** *** How a session ends *)

Lemma loop_body_undecided_or_closed (cm cm' : ConversationManager.t B S) :
  undecided_or_closed cm -> loop_test cm = true ->
  loop_body cm = Ok cm' -> undecided_or_closed cm'.
Proof.
  intros HK Ht H.
  destruct (loop_body_shape cm cm' H) as (b & status & offer & _ & Hc).
  unfold record_buyer, _add_turn in Hc. cbv zeta in Hc.
  destruct HK as [(Hs & Hf) | Hex].
  - destruct Hc as [(-> & ->) | (Hn & s & price & [ | ] & _ & ->)].
    + right. simpl. apply Exists_app. right. constructor. split; simpl; discriminate.
    + right. unfold _add_turn. simpl. apply Exists_app. right. constructor.
      split; simpl; discriminate.
    + unfold _add_turn.
      destruct status; try congruence.
      * left. simpl. auto.
      * right. simpl. rewrite <- app_assoc. apply Exists_app. right. constructor.
        split; simpl; discriminate.
      * right. simpl. rewrite <- app_assoc. apply Exists_app. right. constructor.
        split; simpl; discriminate.
  - right.
    destruct Hc as [(_ & ->) | (_ & s & price & [ | ] & _ & ->)];
      unfold _add_turn; simpl; rewrite <- ?app_assoc; apply Exists_app; left; exact Hex.
Qed.

Lemma loop_body_session_invariant (cm cm' : ConversationManager.t B S) :
  session_invariant cm -> loop_test cm = true ->
  loop_body cm = Ok cm' -> session_invariant cm'.
Proof.
  intros (Hr & Hok & HK) Ht H. unfold session_invariant.
  pose proof Ht as Ht'. unfold loop_test in Ht'. apply andb_prop in Ht'.
  destruct Ht' as [_ Hlt]. apply Z.ltb_lt in Hlt.
  rewrite (loop_body_round _ _ H). repeat split; try lia.
  - eapply loop_body_transcript; [ | exact Hok | exact H ]. lia.
  - pose proof (loop_body_transcript cm cm' ltac:(lia) Hok H) as [_ Hb].
    exact Hb.
  - eapply loop_body_undecided_or_closed; eassumption.
Qed.
End Generic.

(** *** The fields of a manager *)

Lemma add_turn_your_budget {B S : Type} (cm : ConversationManager.t B S)
    (who : Speaker) (p : option Z) :
  your_budget (context (_add_turn cm who p)) = your_budget (context cm).
Proof.
  unfold _add_turn. destruct who, p as [v | ]; simpl; try reflexivity;
    destruct (negb (v =? 0)); reflexivity.
Qed.

Lemma add_turn_buyer_seller_offers {B S : Type} (cm : ConversationManager.t B S)
    (p : option Z) :
  seller_offers (context (_add_turn cm buyer p)) = seller_offers (context cm).
Proof.
  unfold _add_turn. destruct p as [v | ]; simpl; try reflexivity;
    destruct (negb (v =? 0)); reflexivity.
Qed.

Lemma add_turn_seller_offers {B S : Type} (cm : ConversationManager.t B S) (v : Z) :
  v <> 0 ->
  seller_offers (context (_add_turn cm seller (Some v)))
  = (seller_offers (context cm) ++ [v])%list.
Proof.
  intro Hv. unfold _add_turn. simpl.
  destruct (v =? 0) eqn:E; [ apply Z.eqb_eq in E; contradiction | reflexivity ].
Qed.

Lemma add_turn_round_number {B S : Type} (cm : ConversationManager.t B S)
    (who : Speaker) (p : option Z) :
  round_number (_add_turn cm who p) = round_number cm.
Proof. reflexivity. Qed.

Lemma add_turn_deal_status {B S : Type} (cm : ConversationManager.t B S)
    (who : Speaker) (p : option Z) :
  deal_status (_add_turn cm who p) = deal_status cm.
Proof. reflexivity. Qed.

Lemma add_turn_final_price {B S : Type} (cm : ConversationManager.t B S)
    (who : Speaker) (p : option Z) :
  final_price (_add_turn cm who p) = final_price cm.
Proof. reflexivity. Qed.

Lemma add_turn_seller_agent {B S : Type} (cm : ConversationManager.t B S)
    (who : Speaker) (p : option Z) :
  seller_agent (_add_turn cm who p) = seller_agent cm.
Proof. reflexivity. Qed.

Lemma add_turn_history {B S : Type} (cm : ConversationManager.t B S)
    (who : Speaker) (p : option Z) :
  conversation_history (_add_turn cm who p)
  = (conversation_history cm
     ++ [ {| ConversationTurn.speaker := who;
             ConversationTurn.price_offer := p;
             ConversationTurn.round_number := round_number cm;
             ConversationTurn.deal_status := deal_status cm |} ])%list.
Proof. reflexivity. Qed.

Create Rewrite HintDb manager.
Hint Rewrite @add_turn_your_budget @add_turn_buyer_seller_offers
  @add_turn_round_number @add_turn_deal_status @add_turn_final_price
  @add_turn_seller_agent @add_turn_history : manager.

(** Read the fields of a manager built by [_add_turn] and the setters. *)
Ltac fields :=
  unfold record_buyer, enter_round;
  repeat (autorewrite with manager;
          cbn [context with_final_price with_deal_status with_seller_agent
               with_buyer_agent with_context with_round_number
               with_conversation_history seller_agent buyer_agent round_number
               deal_status final_price conversation_history
               with_current_round your_budget seller_offers your_offers
               current_round]).

(** *** [YourBuyerAgent] against [AdvancedSellerAgent] *)

Section Concrete.
Context {F : PyFloat}.

Lemma last_offer_snoc (l : list Z) (p : Z) : last_offer (l ++ [p]) = Some p.
Proof. unfold last_offer. rewrite map_app. simpl. apply last_last. Qed.

(** The seller's answer: with a positive minimum price it raises
    nothing, names a price at or above its minimum, and accepts only at
    the buyer's offer. *)
Lemma seller_answer (Hsign : quotient_sign_law)
    (self : AdvancedSellerAgent.t) (buyer_offer round_num : Z) :
  0 < AdvancedSellerAgent.min_price self ->
  exists self' price accepted,
    AdvancedSellerAgent.respond_to_buyer self buyer_offer round_num
    = Ok (self', (price, accepted))
    /\ AdvancedSellerAgent.min_price self' = AdvancedSellerAgent.min_price self
    /\ AdvancedSellerAgent.min_price self <= price
    /\ (accepted = true -> price = buyer_offer).
Proof.
  intro Hm. unfold AdvancedSellerAgent.respond_to_buyer.
  cbn [AdvancedSellerAgent.min_price AdvancedSellerAgent.with_rounds_passed
       AdvancedSellerAgent.strategy].
  destruct (AdvancedSellerAgent.min_price self =? 0) eqn:E0;
    [ apply Z.eqb_eq in E0; lia | ].
  destruct (AdvancedSellerAgent.rates (AdvancedSellerAgent.strategy self))
    as [threshold rate] eqn:Er.
  assert (Hthr : (1 # 100 <= threshold)%Q).
  { unfold AdvancedSellerAgent.rates in Er.
    destruct (String.eqb _ "aggressive");
      [ | destruct (String.eqb _ "conservative") ];
      injection Er as <- <-; discriminate. }
  match goal with
  | |- context [if ?c then _ else _] => destruct c eqn:Eacc
  end.
  - eexists _, _, _. split; [ reflexivity | ]. simpl.
    split; [ reflexivity | ]. split; [ | reflexivity ].
    apply orb_prop in Eacc. destruct Eacc as [Eacc | Eacc].
    + destruct (Z_le_gt_dec (AdvancedSellerAgent.min_price self) buyer_offer) as [ | Hlt ];
        [ assumption | ].
      rewrite (Hsign (buyer_offer - AdvancedSellerAgent.min_price self)
                 (AdvancedSellerAgent.min_price self) threshold) in Eacc
        by (assumption || lia).
      discriminate.
    + apply andb_prop in Eacc. destruct Eacc as [_ Eacc]. apply Z.leb_le in Eacc.
      exact Eacc.
  - eexists _, _, _. split; [ reflexivity | ]. simpl.
    split; [ reflexivity | ]. split; [ | discriminate ].
    destruct (9 <=? round_num); [ lia | ].
    destruct (7 <=? round_num); lia.
Qed.

(** With a minimum price of 0 the seller's profit margin divides by
    zero. *)
Lemma seller_raises_at_zero_floor
    (self : AdvancedSellerAgent.t) (buyer_offer round_num : Z) :
  AdvancedSellerAgent.min_price self = 0 ->
  AdvancedSellerAgent.respond_to_buyer self buyer_offer round_num
  = Raise ZeroDivisionError.
Proof.
  intro H0. unfold AdvancedSellerAgent.respond_to_buyer. simpl. rewrite H0.
  reflexivity.
Qed.

(** The buyer's move in a round: it continues or accepts, its price is
    within budget, and it accepts only the seller's last offer, never in
    round 1. *)
Lemma buyer_move_cases
    (cm : ConversationManager.t YourBuyerAgent.t AdvancedSellerAgent.t)
    (b : YourBuyerAgent.t) (status : DealStatus) (offer : Z) :
  buyer_move cm = (b, (status, offer)) ->
  offer <= your_budget (context cm)
  /\ (status = ONGOING
      \/ (status = ACCEPTED /\ round_number cm <> 1
          /\ last_offer (seller_offers (context cm)) = Some offer)).
Proof.
  unfold buyer_move. destruct (round_number cm =? 1) eqn:E1.
  - change (@generate_opening_offer _ YourBuyerAgent_is_buyer)
      with YourBuyerAgent.generate_opening_offer.
    intro H.
    pose proof (BuyerProofs.opening_le_budget (buyer_agent cm) (context cm)) as Hle.
    destruct (YourBuyerAgent.generate_opening_offer _ _) as [b0 o].
    injection H as <- <- <-. simpl in Hle. split; [ exact Hle | left; reflexivity ].
  - change (@respond_to_seller_offer _ YourBuyerAgent_is_buyer)
      with YourBuyerAgent.respond_to_seller_offer.
    intro H. apply Z.eqb_neq in E1.
    pose proof (BuyerProofs.respond_le_budget (buyer_agent cm) (context cm)
                  (last_offer (seller_offers (context cm)))) as Hle.
    destruct (BuyerProofs.respond_cases (buyer_agent cm) (context cm)
                (last_offer (seller_offers (context cm))))
      as [(sp & Hsp & Hr & _) | [(sp & _ & Hr) | (_ & Hr)]];
      rewrite H in Hr, Hle; simpl in Hr, Hle; injection Hr as -> ->; auto.
Qed.

Lemma loop_body_price_invariant (Hsign : quotient_sign_law) (floor budget : Z)
    (cm cm' : ConversationManager.t YourBuyerAgent.t AdvancedSellerAgent.t) :
  0 < floor ->
  price_invariant floor budget cm -> loop_test cm = true ->
  loop_body cm = Ok cm' -> price_invariant floor budget cm'.
Proof.
  intros Hfloor (Hbud & Hmin & Hround & Hst) Ht H.
  unfold loop_test in Ht. apply andb_prop in Ht. destruct Ht as [Hong _].
  destruct Hst as [(_ & Hfin & Hlast) | (Hacc & _)];
    [ | rewrite Hacc in Hong; discriminate ].
  destruct (loop_body_shape cm cm' H) as (b & status & offer & Hmove & Hc).
  destruct (buyer_move_cases _ _ _ _ Hmove) as [Hle Hstatus].
  change (your_budget (context (enter_round cm))) with (your_budget (context cm)) in Hle.
  change (round_number (enter_round cm)) with (round_number cm + 1) in Hstatus.
  change (seller_offers (context (enter_round cm)))
    with (seller_offers (context cm)) in Hstatus.
  rewrite Hbud in Hle.
  unfold price_invariant.
  destruct Hc as [(-> & ->) | (Hn & s & price & accepted & Hresp & ->)].
  - destruct Hstatus as [ | (_ & Hr1 & Hoffer)]; [ discriminate | ].
    destruct (Hlast ltac:(lia)) as (p & Hp & Hfp).
    rewrite Hp in Hoffer. injection Hoffer as ->.
    fields. rewrite Hp.
    split; [ assumption | ]. split; [ assumption | ]. split; [ lia | ].
    right. split; [ reflexivity | ]. exists offer. split; [ reflexivity | lia ].
  - destruct Hstatus as [-> | (-> & _)]; [ | congruence ].
    destruct (seller_answer Hsign (seller_agent cm) offer (round_number cm + 1)
                ltac:(lia)) as (s0 & price0 & acc0 & Hans & Hmin' & Hprice & Hacc).
    change (@respond_to_buyer _ AdvancedSellerAgent_is_seller)
      with AdvancedSellerAgent.respond_to_buyer in Hresp.
    rewrite Hans in Hresp. injection Hresp as <- <- <-.
    rewrite Hmin in Hmin', Hprice.
    destruct acc0.
    + specialize (Hacc eq_refl). subst price0. fields.
      split; [ assumption | ]. split; [ assumption | ]. split; [ lia | ].
      right. split; [ reflexivity | ]. exists offer. split; [ reflexivity | lia ].
    + fields. rewrite add_turn_seller_offers by lia. fields.
      split; [ assumption | ]. split; [ assumption | ]. split; [ lia | ].
      left. split; [ reflexivity | ]. split; [ assumption | ].
      intros _. exists price0. rewrite last_offer_snoc. split; [ reflexivity | lia ].
Qed.

(** The body of the loop raises nothing when the seller's minimum is
    positive. *)
Lemma loop_body_returns (Hsign : quotient_sign_law)
    (cm : ConversationManager.t YourBuyerAgent.t AdvancedSellerAgent.t) :
  0 < AdvancedSellerAgent.min_price (seller_agent cm) ->
  exists cm', loop_body cm = Ok cm'.
Proof.
  intro Hfloor. unfold loop_body.
  match goal with
  | |- context [let '(self, buyer_offer) := ?m in _] =>
      destruct m as [cmB offer] eqn:Em
  end.
  destruct (DealStatus_eqb _ ACCEPTED); [ eexists; reflexivity | ].
  assert (Hs : AdvancedSellerAgent.min_price (seller_agent (_add_turn cmB buyer (Some offer)))
               = AdvancedSellerAgent.min_price (seller_agent cm)).
  { rewrite add_turn_seller_agent.
    cbn [round_number with_round_number with_context] in Em.
    destruct (round_number cm + 1 =? 1).
    - destruct (generate_opening_offer _ _) as [b o]. injection Em as <- _. reflexivity.
    - destruct (respond_to_seller_offer _ _ _) as [b [st o]].
      injection Em as <- _. reflexivity. }
  destruct (seller_answer Hsign (seller_agent (_add_turn cmB buyer (Some offer)))
              offer (round_number (_add_turn cmB buyer (Some offer)))
              ltac:(lia)) as (s0 & price0 & acc0 & Hans & _).
  change (@respond_to_buyer _ AdvancedSellerAgent_is_seller)
    with AdvancedSellerAgent.respond_to_buyer.
  rewrite Hans. simpl. destruct acc0; eexists; reflexivity.
Qed.

(** With a positive minimum price the loop returns once the fuel covers
    the rounds that are left. *)
Lemma priced_loop_returns (Hsign : quotient_sign_law) (floor budget : Z) (fuel : nat) :
  0 < floor ->
  forall cm : ConversationManager.t YourBuyerAgent.t AdvancedSellerAgent.t,
    price_invariant floor budget cm ->
    (Z.to_nat (max_rounds - round_number cm) <= fuel)%nat ->
    exists cm', negotiation_loop fuel cm = Returned cm'.
Proof.
  intro Hfloor. induction fuel as [ | fuel IH ]; intros cm Hinv Hf.
  - pose proof (loop_terminates 0 cm Hf) as Hterm. simpl in Hterm |- *.
    destruct (loop_test cm); [ congruence | eexists; reflexivity ].
  - simpl. destruct (loop_test cm) eqn:Et; [ | eexists; reflexivity ].
    destruct (loop_body_returns Hsign cm) as [cm1 E1].
    { destruct Hinv as (_ & -> & _). exact Hfloor. }
    rewrite E1. apply IH.
    + eapply loop_body_price_invariant; eassumption.
    + rewrite (loop_body_round _ _ E1). unfold max_rounds in Hf |- *. lia.
Qed.

(** C1.  With a positive minimum price of the seller: the buyer's
    opening offer and every price it returns are at most its budget; the
    seller accepts only the buyer's offer and every price it accepts or
    counters with is at least its minimum; a session that ends
    [ACCEPTED] has a final price between the seller's minimum and the
    buyer's budget, while any other session has none; and for a product
    whose market price is not 0 the session does end, given fuel for ten
    passes. *)
Theorem final_price_between_floor_and_budget
    (Hsign : quotient_sign_law) (seller0 : AdvancedSellerAgent.t) :
  0 < AdvancedSellerAgent.min_price seller0 ->
  (forall (self : YourBuyerAgent.t) (c : NegotiationContext.t) (sp : option Z),
      snd (YourBuyerAgent.generate_opening_offer self c) <= your_budget c
      /\ snd (snd (YourBuyerAgent.respond_to_seller_offer self c sp)) <= your_budget c)
  /\ (forall (buyer_offer round_num : Z) (self' : AdvancedSellerAgent.t)
             (price : Z) (accepted : bool),
         AdvancedSellerAgent.respond_to_buyer seller0 buyer_offer round_num
         = Ok (self', (price, accepted)) ->
         AdvancedSellerAgent.min_price seller0 <= price
         /\ (accepted = true -> price = buyer_offer))
  /\ (forall (buyer0 : YourBuyerAgent.t) (product : Product.t) (budget : Z)
             (fuel : nat)
             (cm : ConversationManager.t YourBuyerAgent.t AdvancedSellerAgent.t),
         start_conversation fuel (init buyer0 seller0 product budget) = Returned cm ->
         (deal_status cm = ACCEPTED ->
          exists p, final_price cm = Some p
                    /\ AdvancedSellerAgent.min_price seller0 <= p <= budget)
         /\ (deal_status cm <> ACCEPTED -> final_price cm = None))
  /\ (forall (buyer0 : YourBuyerAgent.t) (product : Product.t) (budget : Z)
             (fuel : nat),
         Product.base_market_price product <> 0 -> (10 <= fuel)%nat ->
         exists cm,
           start_conversation fuel (init buyer0 seller0 product budget) = Returned cm).
Proof.
  intro Hfloor. split; [ | split; [ | split ] ].
  - intros self c sp. split.
    + apply BuyerProofs.opening_le_budget.
    + apply BuyerProofs.respond_le_budget.
  - intros buyer_offer round_num self' price accepted H.
    destruct (seller_answer Hsign seller0 buyer_offer round_num Hfloor)
      as (s0 & price0 & acc0 & Hans & _ & Hprice & Hacc).
    rewrite Hans in H. injection H as <- <- <-. auto.
  - intros buyer0 product budget fuel cm H.
    unfold start_conversation in H.
    set (cm1 := _add_turn (init buyer0 seller0 product budget) seller _) in H.
    assert (H1 : price_invariant (AdvancedSellerAgent.min_price seller0) budget cm1).
    { unfold price_invariant, cm1. fields. simpl.
      split; [ reflexivity | ]. split; [ reflexivity | ]. split; [ lia | ].
      left. split; [ reflexivity | ]. split; [ reflexivity | ]. lia. }
    destruct (negotiation_loop fuel cm1) as [cmL | e | ] eqn:EL; try discriminate.
    destruct (loop_invariant
                (price_invariant (AdvancedSellerAgent.min_price seller0) budget)
                (fun a b => loop_body_price_invariant Hsign _ _ a b Hfloor)
                fuel cm1 cmL H1 EL) as [(_ & _ & _ & Hst) _].
    destruct (_print_final_summary _) as [ [] | e ]; [ | discriminate ].
    destruct Hst as [(Hong & Hfin & _) | (Hacc & p & Hp & Hrange)].
    + rewrite Hong in H. simpl in H. injection H as <-. fields.
      split; [ discriminate | ]. intros _. exact Hfin.
    + rewrite Hacc in H. simpl in H. injection H as <-.
      split; [ intros _; exists p; auto | congruence ].
  - intros buyer0 product budget fuel Hmarket Hfuel.
    unfold start_conversation.
    set (cm1 := _add_turn (init buyer0 seller0 product budget) seller _).
    assert (H1 : price_invariant (AdvancedSellerAgent.min_price seller0) budget cm1).
    { unfold price_invariant, cm1. fields. simpl.
      split; [ reflexivity | ]. split; [ reflexivity | ]. split; [ lia | ].
      left. split; [ reflexivity | ]. split; [ reflexivity | ]. lia. }
    destruct (priced_loop_returns Hsign _ budget fuel Hfloor cm1 H1) as [cmL EL].
    { unfold max_rounds. simpl. lia. }
    rewrite EL.
    destruct (loop_invariant
                (price_invariant (AdvancedSellerAgent.min_price seller0) budget)
                (fun a b => loop_body_price_invariant Hsign _ _ a b Hfloor)
                fuel cm1 cmL H1 EL) as [(_ & _ & _ & Hst) _].
    destruct (loop_invariant
                (fun cm => buyer_budget cm = budget
                           /\ ConversationManager.product cm = product)
                (fun a b Ha _ Hb =>
                   match loop_body_frame a b Hb with
                   | conj E1 E2 =>
                       conj (eq_trans E1 (proj1 Ha)) (eq_trans E2 (proj2 Ha))
                   end)
                fuel cm1 cmL (conj eq_refl eq_refl) EL) as [(Hbudget & Hproduct) _].
    destruct Hst as [(Hong & _) | (Hacc & p & _ & Hrange)].
    + rewrite Hong. simpl. eexists. reflexivity.
    + rewrite Hacc. simpl. unfold _print_final_summary.
      rewrite Hacc, Hbudget, Hproduct. simpl.
      destruct (budget =? 0) eqn:E0; [ apply Z.eqb_eq in E0; lia | ].
      destruct (Product.base_market_price product =? 0) eqn:E1;
        [ apply Z.eqb_eq in E1; contradiction | ].
      eexists. reflexivity.
Qed.

(** *** A budget below the seller's minimum *)

Lemma loop_body_no_deal (Hsign : quotient_sign_law) (floor budget : Z)
    (cm cm' : ConversationManager.t YourBuyerAgent.t AdvancedSellerAgent.t) :
  0 < floor -> budget < floor ->
  no_deal_invariant floor budget cm -> loop_test cm = true ->
  loop_body cm = Ok cm' -> no_deal_invariant floor budget cm'.
Proof.
  intros Hfloor Hlow (Hinv & Hong & Hall) Ht H.
  pose proof (loop_body_price_invariant Hsign floor budget cm cm' Hfloor Hinv Ht H)
    as Hinv'.
  split; [ exact Hinv' | ].
  destruct Hinv' as (_ & _ & _ & [(Hong' & _ & _) | (_ & p & _ & Hrange)]); [ | lia ].
  split; [ exact Hong' | ].
  destruct (loop_body_shape cm cm' H) as (b & status & offer & _ & Hc).
  destruct Hc as [(-> & ->) | (_ & s & price & [ | ] & _ & ->)];
    revert Hong'; fields; intro Hong'; try discriminate.
  subst status. rewrite <- app_assoc. apply Forall_app. split; [ exact Hall | ].
  repeat constructor.
Qed.

Lemma no_deal_loop (Hsign : quotient_sign_law) (floor budget : Z) (fuel : nat) :
  0 < floor -> budget < floor ->
  forall cm : ConversationManager.t YourBuyerAgent.t AdvancedSellerAgent.t,
    no_deal_invariant floor budget cm ->
    round_number cm <= max_rounds ->
    (Z.to_nat (max_rounds - round_number cm) <= fuel)%nat ->
    exists cm',
      negotiation_loop fuel cm = Returned cm'
      /\ no_deal_invariant floor budget cm'
      /\ round_number cm' = max_rounds.
Proof.
  intros Hfloor Hlow. unfold max_rounds.
  induction fuel as [ | fuel IH ]; intros cm Hinv Hr Hf.
  - exists cm. simpl. unfold loop_test, max_rounds.
    replace (round_number cm <? 10) with false by (symmetry; apply Z.ltb_ge; lia).
    rewrite andb_false_r. repeat split; try apply Hinv. lia.
  - simpl. destruct (loop_test cm) eqn:Et.
    + pose proof Et as Et'. unfold loop_test, max_rounds in Et'.
      apply andb_prop in Et'. destruct Et' as [_ Hlt]. apply Z.ltb_lt in Hlt.
      destruct Hinv as (Hp & Hrest).
      destruct (loop_body_returns Hsign cm) as [cm1 E1].
      { destruct Hp as (_ & -> & _). exact Hfloor. }
      rewrite E1.
      pose proof (loop_body_round _ _ E1) as Hr1.
      apply IH.
      * eapply loop_body_no_deal; try eassumption. split; assumption.
      * lia.
      * lia.
    + exists cm. split; [ reflexivity | ]. split; [ exact Hinv | ].
      destruct Hinv as (_ & Hong & _).
      unfold loop_test, max_rounds in Et. rewrite Hong in Et. simpl in Et.
      apply Z.ltb_ge in Et. lia.
Qed.

(** C3.  When the buyer's budget is strictly below the seller's
    (positive) minimum price, the session returns, with fuel for ten
    passes, timed out after ten rounds: its status is [TIMEOUT], it has
    no final price, and every turn of the two agents in its transcript
    was recorded [ONGOING], so no side accepted at any round. *)
Theorem no_acceptance_when_budget_below_floor
    (Hsign : quotient_sign_law)
    (buyer0 : YourBuyerAgent.t) (seller0 : AdvancedSellerAgent.t)
    (product : Product.t) (budget : Z) (fuel : nat) :
  0 < AdvancedSellerAgent.min_price seller0 ->
  budget < AdvancedSellerAgent.min_price seller0 ->
  (10 <= fuel)%nat ->
  exists cm,
    start_conversation fuel (init buyer0 seller0 product budget) = Returned cm
    /\ deal_status cm = TIMEOUT
    /\ final_price cm = None
    /\ round_number cm = max_rounds
    /\ Forall (fun turn =>
                 ConversationTurn.deal_status turn <> ACCEPTED
                 /\ (ConversationTurn.speaker turn <> system ->
                     ConversationTurn.deal_status turn = ONGOING))
              (conversation_history cm).
Proof.
  intros Hfloor Hlow Hfuel. unfold start_conversation.
  set (cm1 := _add_turn (init buyer0 seller0 product budget) seller _).
  assert (H1 : no_deal_invariant (AdvancedSellerAgent.min_price seller0) budget cm1).
  { unfold no_deal_invariant, price_invariant, cm1. fields. simpl.
    split; [ | split; [ reflexivity | repeat constructor ] ].
    split; [ reflexivity | ]. split; [ reflexivity | ]. split; [ lia | ].
    left. split; [ reflexivity | ]. split; [ reflexivity | ]. lia. }
  destruct (no_deal_loop Hsign _ budget fuel Hfloor Hlow cm1 H1)
    as (cmL & EL & (Hinv & Hong & Hall) & Hten).
  { unfold max_rounds. simpl. lia. }
  { unfold max_rounds. simpl. lia. }
  rewrite EL, Hong. simpl. eexists. split; [ reflexivity | ].
  destruct Hinv as (_ & _ & _ & [(_ & Hfin & _) | (Hacc & _)]); [ | congruence ].
  fields. repeat split; try assumption.
  apply Forall_app. split.
  - eapply Forall_impl; [ | exact Hall ]. simpl. intros turn ->.
    split; [ discriminate | reflexivity ].
  - repeat constructor; simpl; [ discriminate | congruence ].
Qed.
End Concrete.

(** *** The seller's offer against the round target *)

Section AnySeller.
Context {F : PyFloat} {S : Type} {seller_class : SellerAgent S}.

(** C4 (amended).  In round 1 the buyer's move is its opening offer,
    recorded [ONGOING], whatever the seller opened with.  In any later
    round, when the seller's latest offer is at or below the buyer's
    round target for that round and within budget, the pass through the
    loop returns with the negotiation [ACCEPTED] at that seller price,
    in that round, and the loop is left. *)
Theorem accepts_seller_price_at_round_target
    (cm : ConversationManager.t YourBuyerAgent.t S) (sp : Z) :
  (round_number cm + 1 = 1 ->
   snd (buyer_move (enter_round cm))
   = (ONGOING,
      snd (YourBuyerAgent.generate_opening_offer
             (buyer_agent cm) (context (enter_round cm)))))
  /\ (round_number cm + 1 <> 1 ->
      last_offer (seller_offers (context cm)) = Some sp ->
      sp <= YourBuyerAgent.round_target (context (enter_round cm)) ->
      sp <= your_budget (context cm) ->
      exists cm',
        loop_body cm = Ok cm'
        /\ deal_status cm' = ACCEPTED
        /\ final_price cm' = Some sp
        /\ round_number cm' = round_number cm + 1
        /\ loop_test cm' = false).
Proof.
  split.
  - intro H1. unfold buyer_move.
    change (round_number (enter_round cm)) with (round_number cm + 1).
    rewrite H1. change (1 =? 1) with true. cbv iota.
    change (@generate_opening_offer _ YourBuyerAgent_is_buyer)
      with YourBuyerAgent.generate_opening_offer.
    change (buyer_agent (enter_round cm)) with (buyer_agent cm).
    destruct (YourBuyerAgent.generate_opening_offer _ _) as [b offer]. reflexivity.
  - intros Hr Hlast Htarget Hbudget.
    assert (Hmove : snd (buyer_move (enter_round cm)) = (ACCEPTED, sp)).
    { unfold buyer_move.
      change (round_number (enter_round cm)) with (round_number cm + 1).
      apply Z.eqb_neq in Hr. rewrite Hr.
      change (seller_offers (context (enter_round cm)))
        with (seller_offers (context cm)).
      rewrite Hlast.
      change (@respond_to_seller_offer _ YourBuyerAgent_is_buyer)
        with YourBuyerAgent.respond_to_seller_offer.
      unfold YourBuyerAgent.respond_to_seller_offer.
      match goal with
      | |- context [YourBuyerAgent.accepts ?c ?e sp] =>
          assert (Ha : YourBuyerAgent.accepts c e sp = true)
      end.
      { unfold YourBuyerAgent.accepts.
        destruct (YourBuyerAgent._bounds _) as [opening walkaway].
        apply Z.leb_le in Htarget.
        change (your_budget (context (enter_round cm)))
          with (your_budget (context cm)).
        apply Z.leb_le in Hbudget.
        rewrite Htarget, Hbudget. simpl. rewrite orb_true_r. reflexivity. }
      rewrite Ha. reflexivity. }
    unfold loop_body.
    cbn [round_number with_context with_round_number].
    fold (enter_round cm).
    apply Z.eqb_neq in Hr. rewrite Hr.
    unfold buyer_move in Hmove.
    change (round_number (enter_round cm)) with (round_number cm + 1) in Hmove.
    rewrite Hr in Hmove.
    destruct (respond_to_seller_offer _ _ _) as [b [status offer]].
    simpl in Hmove. injection Hmove as -> ->.
    rewrite add_turn_deal_status. simpl DealStatus_eqb. cbv iota.
    eexists. split; [ reflexivity | ].
    rewrite add_turn_buyer_seller_offers.
    cbn [context with_deal_status with_buyer_agent enter_round with_context
         with_round_number with_current_round seller_offers].
    rewrite Hlast. fields. auto.
Qed.
End AnySeller.

(** *** Concrete sessions, in exact arithmetic *)

Section Sessions.
Import Scenarios.
#[local] Existing Instance Exact.arith.

(** C4 as stated fails.  A seller opens at the firm price 150000, below
    the buyer's round-1 target of 164000 and within the budget of
    190000; yet after round 1 the negotiation is still [ONGOING], the
    buyer having offered 164000, and the session ends [ACCEPTED] at
    150000 only in round 2. *)
Lemma opening_offer_below_target_not_accepted_in_round_1 :
  let cm1 := _add_turn firm_conversation seller (Some 150000) in
  get_opening_price (seller_agent firm_conversation) (ConversationManager.product firm_conversation)
  = 150000
  /\ 150000 <= YourBuyerAgent.round_target (context (enter_round cm1))
  /\ 150000 <= your_budget (context cm1)
  /\ match loop_body cm1 with
     | Ok cm2 =>
         round_number cm2 = 1 /\ deal_status cm2 = ONGOING
         /\ final_price cm2 = None /\ your_offers (context cm2) = [164000]
     | Raise _ => False
     end
  /\ match start_conversation 10 firm_conversation with
     | Returned cm =>
         round_number cm = 2 /\ deal_status cm = ACCEPTED
         /\ final_price cm = Some 150000
     | _ => False
     end.
Proof. vm_compute. repeat split; discriminate. Qed.

(** C4 (amended) at round 2 of the same session: the firm price 150000
    is below the round-2 target and the pass ends [ACCEPTED] at it. *)
Lemma accepts_seller_price_witness :
  let cm := returned_or firm_conversation
              (match loop_body (_add_turn firm_conversation seller (Some 150000)) with
               | Ok cm2 => Returned cm2
               | Raise e => Raised e
               end) in
  exists cm',
    loop_body cm = Ok cm'
    /\ deal_status cm' = ACCEPTED
    /\ final_price cm' = Some 150000
    /\ round_number cm' = round_number cm + 1
    /\ loop_test cm' = false.
Proof.
  intro cm.
  apply (proj2 (accepts_seller_price_at_round_target cm 150000)).
  - vm_compute. discriminate.
  - vm_compute. reflexivity.
  - vm_compute. discriminate.
  - vm_compute. discriminate.
Defined.

(** C10 fails on the code.  In [stubborn_conversation] the buyer
    reaches its walk-away price 180000 in round 3, is pushed to 181000
    by the minimum increment in round 4, and in round 5 answers the
    seller's 200000 with 180000, below its own previous offer 181000;
    the two prices then alternate until the session times out. *)
Theorem offer_falls_below_previous_offer :
  YourBuyerAgent.last_my stubborn_round_5 = 181000
  /\ snd (YourBuyerAgent.respond_to_seller_offer
            {| YourBuyerAgent.name := "CharmingBuyer";
               YourBuyerAgent._state :=
                 Some {| YourBuyerAgent.seller_history := [200000; 200000; 200000];
                         YourBuyerAgent.seller_min_est := Some 176400;
                         YourBuyerAgent.times_seen := 3 |} |}
            stubborn_round_5 (Some 200000))
     = (ONGOING, 180000)
  /\ match start_conversation 10 stubborn_conversation with
     | Returned cm =>
         deal_status cm = TIMEOUT
         /\ your_offers (context cm)
            = [152000; 176000; 180000; 181000; 180000;
               181000; 180000; 181000; 180000; 181000]
     | _ => False
     end.
Proof. vm_compute. repeat split; reflexivity. Qed.

(** C1 at [run_full_conversation]: the session is accepted at 186000,
    between the seller's 160000 and the buyer's 190000. *)
Lemma final_price_witness :
  exists p, final_price full_conversation_end = Some p /\ 160000 <= p <= 190000.
Proof.
  destruct (final_price_between_floor_and_budget
              ExactLaws.quotient_sign (advanced_seller 160000 "balanced"))
    as (_ & _ & H & _).
  - reflexivity.
  - apply (H charming_buyer (alphonso "Export") 190000 10%nat full_conversation_end).
    + vm_compute. reflexivity.
    + reflexivity.
Defined.

(** C3 at a budget of 150000 against the seller's minimum of 160000. *)
Lemma no_acceptance_witness :
  exists cm,
    start_conversation 10
      (init charming_buyer (advanced_seller 160000 "balanced") (alphonso "Export") 150000)
    = Returned cm
    /\ deal_status cm = TIMEOUT
    /\ final_price cm = None
    /\ round_number cm = max_rounds
    /\ Forall (fun turn =>
                 ConversationTurn.deal_status turn <> ACCEPTED
                 /\ (ConversationTurn.speaker turn <> system ->
                     ConversationTurn.deal_status turn = ONGOING))
              (conversation_history cm).
Proof.
  apply (no_acceptance_when_budget_below_floor ExactLaws.quotient_sign).
  - reflexivity.
  - reflexivity.
  - apply le_n.
Defined.
End Sessions.
End ManagerProofs.

(** ** The bargaining system *)

Module BargainingProofs.
Import Negotiation_agent NegotiationState BargainingSystem.

Section Generic.
Context {S : Type} {seller_class : HumanSeller S}.

(** On a closed negotiation an offer and an acceptance change nothing. *)
Lemma closed_negotiation_ignores_offer_and_acceptance
    (self : BargainingSystem.t S) (n : NegotiationState.t)
    (offer_amount : Z) (now now_seller : Q) :
  current_negotiation self = Some n -> deal_closed n = true ->
  human_make_offer self offer_amount now now_seller = Ok (self, false)
  /\ accept_seller_offer self = Ok (self, false).
Proof.
  intros Hn Hc. unfold human_make_offer, accept_seller_offer.
  rewrite Hn, Hc. auto.
Qed.

(** [reject_and_exit] does not look at [deal_closed]: on any negotiation,
    closed or not, it returns [True], clears the final price and names
    ["no_deal"] the winner. *)
Lemma reject_overwrites_any_negotiation
    (self : BargainingSystem.t S) (n : NegotiationState.t) :
  current_negotiation self = Some n ->
  reject_and_exit self
  = Ok (with_current_negotiation self
          (with_winner (with_final_price (with_deal_closed n true) None)
                       (Some "no_deal")),
        true).
Proof.
  intro Hn. unfold reject_and_exit, _end_negotiation. rewrite Hn. reflexivity.
Qed.

End Generic.

Section BothSystems.
Context {F : PyFloat} {S : Type} {seller_class : HumanSeller S}.

(** C5 (amended).  A human offer that is non-positive or exceeds the
    budget, in [negotiation_agent.py] and in [in.py] alike: without a
    negotiation, on a closed negotiation, and on an open one whose time
    limit has not elapsed, the call returns [False] and leaves the whole
    system unchanged, so that nothing is appended to the history and the
    round number, the current offers and the closing fields stay as they
    were.  On an open negotiation whose time limit has elapsed, however,
    the same call returns [False] after ending the negotiation as a
    timeout: [deal_closed] becomes [True] and [final_price] is [None];
    [negotiation_agent.py] also names ["timeout"] the winner, while
    [in.py] leaves [winner] as it was (and raises [AttributeError]
    should there be no seller to name on the screen of the timeout); the
    history, the round number and the offers stay as they were. *)
Theorem invalid_offer_is_not_recorded
    (budget offer_amount : Z) (now now_seller : Q) :
  offer_amount <= 0 \/ budget < offer_amount ->
  (forall self : BargainingSystem.t S,
      match current_negotiation self with
      | None => human_make_offer self offer_amount now now_seller = Ok (self, false)
      | Some n =>
          human_budget n = budget ->
          (deal_closed n = true ->
           human_make_offer self offer_amount now now_seller = Ok (self, false))
          /\ (deal_closed n = false ->
              (now - start_time n < inject_Z (time_limit n))%Q ->
              human_make_offer self offer_amount now now_seller = Ok (self, false))
          /\ (deal_closed n = false ->
              (inject_Z (time_limit n) <= now - start_time n)%Q ->
              human_make_offer self offer_amount now now_seller
              = Ok (with_current_negotiation self
                      (with_winner (with_final_price (with_deal_closed n true) None)
                                   (Some "timeout")),
                    false))
      end)
  /\ (forall smart : In_py.SmartBargainingSystem.t,
        match In_py.SmartBargainingSystem.current_negotiation smart with
        | None =>
            In_py.SmartBargainingSystem.make_human_offer smart offer_amount now now_seller
            = Ok (smart, false)
        | Some n =>
            In_py.NegotiationState.human_budget n = budget ->
            (In_py.NegotiationState.deal_closed n = true ->
             In_py.SmartBargainingSystem.make_human_offer smart offer_amount now now_seller
             = Ok (smart, false))
            /\ (In_py.NegotiationState.deal_closed n = false ->
                (now - In_py.NegotiationState.start_time n
                 < inject_Z (In_py.NegotiationState.time_limit n))%Q ->
                In_py.SmartBargainingSystem.make_human_offer smart offer_amount
                  now now_seller
                = Ok (smart, false))
            /\ (In_py.NegotiationState.deal_closed n = false ->
                (inject_Z (In_py.NegotiationState.time_limit n)
                 <= now - In_py.NegotiationState.start_time n)%Q ->
                In_py.SmartBargainingSystem.make_human_offer smart offer_amount
                  now now_seller
                = match In_py.SmartBargainingSystem.ai_seller smart with
                  | Some _ =>
                      Ok (In_py.SmartBargainingSystem.with_current_negotiation smart
                            (In_py.NegotiationState.with_final_price
                               (In_py.NegotiationState.with_deal_closed n true) None),
                          false)
                  | None => Raise AttributeError
                  end)
        end).
Proof.
  intro Hbad. split.
  - intro self. unfold human_make_offer.
    destruct (current_negotiation self) as [n | ] eqn:Hn; [ | reflexivity ].
    intro Hbudget. split; [ | split ].
    + intros ->. reflexivity.
    + intros -> Htime.
      destruct (Qle_bool (inject_Z (time_limit n)) (now - start_time n)) eqn:E.
      * apply Qle_bool_iff in E. exfalso. eapply Qlt_not_le; eassumption.
      * destruct (human_budget n <? offer_amount) eqn:E1; [ reflexivity | ].
        destruct (offer_amount <=? 0) eqn:E2; [ reflexivity | ].
        apply Z.ltb_ge in E1. apply Z.leb_gt in E2. lia.
    + intros -> Htime. apply Qle_bool_iff in Htime. rewrite Htime.
      unfold _end_negotiation. rewrite Hn. reflexivity.
  - intro smart. unfold In_py.SmartBargainingSystem.make_human_offer.
    destruct (In_py.SmartBargainingSystem.current_negotiation smart) as [n | ] eqn:Hn;
      [ | reflexivity ].
    intro Hbudget. split; [ | split ].
    + intros ->. reflexivity.
    + intros -> Htime.
      destruct (Qle_bool (inject_Z (In_py.NegotiationState.time_limit n))
                  (now - In_py.NegotiationState.start_time n)) eqn:E.
      * apply Qle_bool_iff in E. exfalso. eapply Qlt_not_le; eassumption.
      * destruct (In_py.NegotiationState.human_budget n <? offer_amount) eqn:E1;
          [ reflexivity | ].
        destruct (offer_amount <=? 0) eqn:E2; [ reflexivity | ].
        apply Z.ltb_ge in E1. apply Z.leb_gt in E2. lia.
    + intros -> Htime. apply Qle_bool_iff in Htime. rewrite Htime.
      unfold In_py.SmartBargainingSystem._end_negotiation. rewrite Hn.
      cbn [String.eqb Ascii.eqb Bool.eqb andb truthy].
      unfold In_py.SmartBargainingSystem.shown_personality.
      cbn [In_py.SmartBargainingSystem.ai_seller
           In_py.SmartBargainingSystem.with_current_negotiation].
      destruct (In_py.SmartBargainingSystem.ai_seller smart); reflexivity.
Qed.
End BothSystems.

Section Seller.
Context {F : PyFloat}.

(** The AI seller never accepts an offer below a positive minimum
    price, and its counter-offer is at or above that minimum. *)
Lemma ai_seller_keeps_floor (Hup : scale_up_law)
    (agent : AISellerAgent.t) (state : NegotiationState.t) (human_offer : Z) (now : Q) :
  0 < Product.seller_min_price (product state) ->
  human_offer < Product.seller_min_price (product state) ->
  fst (AISellerAgent.respond_to_human_offer agent state human_offer now) = ONGOING
  /\ Product.seller_min_price (product state)
     <= snd (AISellerAgent.respond_to_human_offer agent state human_offer now).
Proof.
  intros Hpos Hlow. unfold AISellerAgent.respond_to_human_offer.
  rewrite (Hup _ human_offer (105 # 100) Hpos) by (discriminate || assumption).
  destruct (negb _).
  - destruct (Product.seller_min_price (product state) <=? human_offer) eqn:E.
    + apply Z.leb_le in E. lia.
    + simpl. split; [ reflexivity | lia ].
  - simpl. split; [ reflexivity | lia ].
Qed.

(** With the seller's current price above the budget, the human cannot
    accept it. *)
Lemma acceptance_refused_above_budget
    (self : BargainingSystem.t AISellerAgent.t) (n : NegotiationState.t) :
  current_negotiation self = Some n ->
  human_budget n < seller_current_price n ->
  accept_seller_offer self = Ok (self, false).
Proof.
  intros Hn Hlt. unfold accept_seller_offer. rewrite Hn.
  destruct (deal_closed n); [ reflexivity | ].
  apply Z.ltb_lt in Hlt. rewrite Hlt. reflexivity.
Qed.
End Seller.

Section Sessions.
Import Scenarios In_py.SmartScenarios.
#[local] Existing Instance Exact.arith.

(** C2 fails on the code.  [bargaining_closed] is a negotiation closed
    by a deal at 170000 with the human as winner.  A further offer and a
    further acceptance leave it as it is, but [reject_and_exit], which
    does not test [deal_closed], returns [True] and rewrites the outcome:
    the final price is cleared and the winner becomes ["no_deal"]. *)
Theorem reject_after_deal_rewrites_outcome :
  (exists n,
      current_negotiation bargaining_closed = Some n
      /\ deal_closed n = true /\ final_price n = Some 170000
      /\ winner n = Some "human")
  /\ human_make_offer bargaining_closed 180000 20%Q 20%Q = Ok (bargaining_closed, false)
  /\ accept_seller_offer bargaining_closed = Ok (bargaining_closed, false)
  /\ exists rejected n,
       reject_and_exit bargaining_closed = Ok (rejected, true)
       /\ current_negotiation rejected = Some n
       /\ deal_closed n = true /\ final_price n = None
       /\ winner n = Some "no_deal"
       /\ rejected <> bargaining_closed.
Proof.
  split; [ eexists; split; [ vm_compute; reflexivity | repeat split ] | ].
  split; [ vm_compute; reflexivity | ].
  split; [ vm_compute; reflexivity | ].
  eexists. eexists. split; [ vm_compute; reflexivity | ].
  split; [ vm_compute; reflexivity | ]. repeat split. vm_compute. discriminate.
Qed.

(** C5 as stated fails.  On the open negotiation [bargaining_open] the
    offer [-5], made when the 120 seconds have elapsed, returns [False]
    but closes the negotiation as a timeout. *)
Lemma invalid_offer_after_time_limit_closes :
  (exists n, current_negotiation bargaining_open = Some n
             /\ deal_closed n = false /\ winner n = None)
  /\ exists timed_out n,
       human_make_offer bargaining_open (-5) 120%Q 120%Q = Ok (timed_out, false)
       /\ current_negotiation timed_out = Some n
       /\ deal_closed n = true /\ winner n = Some "timeout"
       /\ timed_out <> bargaining_open.
Proof.
  split; [ eexists; split; [ vm_compute; reflexivity | repeat split ] | ].
  eexists. eexists. split; [ vm_compute; reflexivity | ].
  split; [ vm_compute; reflexivity | ]. repeat split. vm_compute. discriminate.
Qed.

(** In [in.py] the same offer, made when the 120 seconds of [smart_open]
    have elapsed, closes the negotiation too, and leaves [winner]
    unset. *)
Lemma smart_invalid_offer_after_time_limit_closes :
  (exists n, In_py.SmartBargainingSystem.current_negotiation smart_open = Some n
             /\ In_py.NegotiationState.deal_closed n = false
             /\ In_py.NegotiationState.winner n = None)
  /\ exists timed_out n,
       In_py.SmartBargainingSystem.make_human_offer smart_open (-5) 120%Q 120%Q
       = Ok (timed_out, false)
       /\ In_py.SmartBargainingSystem.current_negotiation timed_out = Some n
       /\ In_py.NegotiationState.deal_closed n = true
       /\ In_py.NegotiationState.winner n = None
       /\ timed_out <> smart_open.
Proof.
  split; [ eexists; split; [ vm_compute; reflexivity | repeat split ] | ].
  eexists. eexists. split; [ vm_compute; reflexivity | ].
  split; [ vm_compute; reflexivity | ]. repeat split. vm_compute. discriminate.
Qed.

(** C5 (amended) at the offer [-5] made 30 seconds into
    [bargaining_open] and into [smart_open], both with a budget of
    200000. *)
Lemma invalid_offer_witness :
  human_make_offer bargaining_open (-5) 30%Q 30%Q = Ok (bargaining_open, false)
  /\ In_py.SmartBargainingSystem.make_human_offer smart_open (-5) 30%Q 30%Q
     = Ok (smart_open, false).
Proof.
  destruct (invalid_offer_is_not_recorded (S := AISellerAgent.t) 200000 (-5) 30%Q 30%Q)
    as [Hagent Hsmart].
  - left. discriminate.
  - split.
    + specialize (Hagent bargaining_open).
      destruct (current_negotiation bargaining_open) as [n | ] eqn:E;
        [ | exact Hagent ].
      vm_compute in E. injection E as <-.
      destruct Hagent as (_ & Hopen & _); [ reflexivity | ].
      apply Hopen; reflexivity.
    + specialize (Hsmart smart_open).
      destruct (In_py.SmartBargainingSystem.current_negotiation smart_open)
        as [n | ] eqn:E; [ | exact Hsmart ].
      vm_compute in E. injection E as <-.
      destruct Hsmart as (_ & Hopen & _); [ reflexivity | ].
      apply Hopen; reflexivity.
Defined.
End Sessions.
End BargainingProofs.

(** ** The analysis of a transcript *)

Module AnalyzerProofs.
Import Ai_negotiation NegotiationContext ConversationManager Invariants.
Import Ai_negotiation_analysis ConversationAnalyzer TranscriptInvariants.

Section Generic.
Context {B S : Type} {buyer_class : BuyerAgent B} {seller_class : SellerAgent S}.

Lemma last_map_Some {A : Type} (l : list A) (d : A) :
  l <> [] -> last (map Some l) None = Some (last l d).
Proof.
  induction l as [ | x l IH ]; intro Hl; [ contradiction | ].
  destruct l as [ | y l ]; [ reflexivity | ].
  change (last (map Some (y :: l)) None = Some (last (y :: l) d)).
  apply IH. discriminate.
Qed.

Lemma prices_app (l1 l2 : list ConversationTurn.t) :
  prices (l1 ++ l2) = (prices l1 ++ prices l2)%list.
Proof.
  induction l1 as [ | t l1 IH ]; simpl; [ reflexivity | ].
  destruct (ConversationTurn.price_offer t) as [p | ]; [ | exact IH ].
  destruct (negb (p =? 0)); simpl; congruence.
Qed.

Lemma turns_of_app who (l1 l2 : list ConversationTurn.t) :
  turns_of who (l1 ++ l2) = (turns_of who l1 ++ turns_of who l2)%list.
Proof. apply filter_app. Qed.

Lemma non_system_app (l1 l2 : list ConversationTurn.t) :
  non_system (l1 ++ l2) = non_system l1 + non_system l2.
Proof. unfold non_system. rewrite filter_app, length_app. lia. Qed.

Lemma add_turn_your_offers (cm : ConversationManager.t B S) (who : Speaker) (p : option Z) :
  your_offers (context (_add_turn cm who p))
  = (your_offers (context cm) ++ (if Speaker_eqb who buyer then offers_of p else []))%list.
Proof.
  unfold _add_turn, offers_of.
  destruct who, p as [v | ]; simpl; rewrite ?app_nil_r; try reflexivity;
    destruct (negb (v =? 0)); simpl; rewrite ?app_nil_r; reflexivity.
Qed.

Lemma add_turn_seller_offers_gen (cm : ConversationManager.t B S) (who : Speaker) (p : option Z) :
  seller_offers (context (_add_turn cm who p))
  = (seller_offers (context cm) ++ (if Speaker_eqb who seller then offers_of p else []))%list.
Proof.
  unfold _add_turn, offers_of.
  destruct who, p as [v | ]; simpl; rewrite ?app_nil_r; try reflexivity;
    destruct (negb (v =? 0)); simpl; rewrite ?app_nil_r; reflexivity.
Qed.

Lemma add_turn_messages (cm : ConversationManager.t B S) (who : Speaker) (p : option Z) :
  messages (context (_add_turn cm who p)) = (messages (context cm) ++ [who])%list.
Proof.
  unfold _add_turn.
  destruct who, p as [v | ]; simpl; try reflexivity;
    destruct (negb (v =? 0)); reflexivity.
Qed.

(** One more turn: the three lists keep agreeing, the new turn is the
    last one and carries the status of the manager. *)
Lemma add_turn_agrees (cm : ConversationManager.t B S) (who : Speaker) (p : option Z) :
  prices (turns_of buyer (conversation_history cm)) = your_offers (context cm) ->
  prices (turns_of seller (conversation_history cm)) = seller_offers (context cm) ->
  List.length (messages (context cm)) = List.length (conversation_history cm) ->
  let cm' := _add_turn cm who p in
  prices (turns_of buyer (conversation_history cm')) = your_offers (context cm')
  /\ prices (turns_of seller (conversation_history cm')) = seller_offers (context cm')
  /\ List.length (messages (context cm')) = List.length (conversation_history cm')
  /\ (exists t, last (map Some (conversation_history cm')) None = Some t
                /\ ConversationTurn.deal_status t = deal_status cm')
  /\ non_system (conversation_history cm')
     = non_system (conversation_history cm)
       + (if Speaker_eqb who system then 0 else 1).
Proof.
  intros Hb Hs Hm cm'. unfold cm'.
  rewrite add_turn_your_offers, add_turn_seller_offers_gen, add_turn_messages.
  rewrite ManagerProofs.add_turn_history, ManagerProofs.add_turn_deal_status.
  rewrite !turns_of_app, !prices_app, non_system_app, !length_app, map_app, Hb, Hs, Hm.
  split; [ | split; [ | split; [ | split ] ] ].
  - f_equal. unfold offers_of. destruct who, p as [v | ]; simpl; try reflexivity.
  - f_equal. unfold offers_of. destruct who, p as [v | ]; simpl; try reflexivity.
  - reflexivity.
  - eexists. split; [ apply last_last | reflexivity ].
  - f_equal. destruct who; reflexivity.
Qed.

Lemma loop_body_agrees (cm cm' : ConversationManager.t B S) :
  0 <= round_number cm ->
  transcript_agrees cm -> loop_test cm = true ->
  loop_body cm = Ok cm' -> transcript_agrees cm'.
Proof.
  intros Hr (Hb & Hs & Hm & _ & _ & Hn) Ht H.
  unfold loop_test in Ht. apply andb_prop in Ht. destruct Ht as [Hong _].
  assert (Hst : deal_status cm = ONGOING)
    by (destruct (deal_status cm); (reflexivity || discriminate)).
  specialize (Hn Hst).
  destruct (ManagerProofs.loop_body_shape cm cm' H) as (b & status & offer & _ & Hc).
  unfold record_buyer in Hc. cbv zeta in Hc.
  set (cm0 := with_deal_status (with_buyer_agent (enter_round cm) b) status) in Hc.
  destruct (add_turn_agrees cm0 buyer (Some offer) Hb Hs Hm)
    as (Hb1 & Hs1 & Hm1 & Hl1 & Hn1).
  change (conversation_history cm0) with (conversation_history cm) in Hn1.
  simpl Speaker_eqb in Hn1. cbv iota in Hn1.
  set (cmB := _add_turn cm0 buyer (Some offer)) in *.
  assert (HrB : round_number cmB = round_number cm + 1) by reflexivity.
  destruct Hc as [(-> & ->) | (Hna & s & price & accepted & _ & ->)].
  - unfold transcript_agrees.
    change (conversation_history (with_final_price cmB _)) with (conversation_history cmB).
    change (context (with_final_price cmB _)) with (context cmB).
    change (deal_status (with_final_price cmB _)) with ACCEPTED.
    change (round_number (with_final_price cmB _)) with (round_number cm + 1).
    repeat split; try assumption; try lia; try discriminate.
  - destruct accepted.
    + set (cmS := with_final_price (with_deal_status (with_seller_agent cmB s) ACCEPTED)
                    (Some offer)).
      destruct (add_turn_agrees cmS seller (Some price) Hb1 Hs1 Hm1)
        as (Hb2 & Hs2 & Hm2 & Hl2 & Hn2).
      change (conversation_history cmS) with (conversation_history cmB) in Hn2.
      simpl Speaker_eqb in Hn2. cbv iota in Hn2.
      unfold transcript_agrees.
      change (round_number (_add_turn cmS seller (Some price))) with (round_number cm + 1).
      change (deal_status (_add_turn cmS seller (Some price))) with ACCEPTED.
      repeat split; try assumption; try lia; try discriminate.
    + set (cmS := with_seller_agent cmB s).
      destruct (add_turn_agrees cmS seller (Some price) Hb1 Hs1 Hm1)
        as (Hb2 & Hs2 & Hm2 & Hl2 & Hn2).
      change (conversation_history cmS) with (conversation_history cmB) in Hn2.
      simpl Speaker_eqb in Hn2. cbv iota in Hn2.
      unfold transcript_agrees.
      change (round_number (_add_turn cmS seller (Some price))) with (round_number cm + 1).
      repeat split; try assumption; try lia.
Qed.

Lemma loop_body_round_nonneg (cm cm' : ConversationManager.t B S) :
  0 <= round_number cm /\ transcript_agrees cm -> loop_test cm = true ->
  loop_body cm = Ok cm' -> 0 <= round_number cm' /\ transcript_agrees cm'.
Proof.
  intros [Hr Ha] Ht H. split.
  - rewrite (ManagerProofs.loop_body_round _ _ H). lia.
  - eapply loop_body_agrees; eassumption.
Qed.

(** The transcript a session returns agrees with the context of the
    manager. *)
Lemma returned_transcript_agrees
    (b : B) (s : S) (product : Product.t) (budget : Z) (fuel : nat)
    (cm : ConversationManager.t B S) :
  start_conversation fuel (init b s product budget) = Returned cm ->
  transcript_agrees cm.
Proof.
  intro H. unfold start_conversation in H.
  set (cm0 := init b s product budget) in H.
  assert (H1 : 0 <= round_number
                      (_add_turn cm0 seller
                         (Some (get_opening_price (seller_agent cm0)
                                  (ConversationManager.product cm0))))
               /\ transcript_agrees
                    (_add_turn cm0 seller
                       (Some (get_opening_price (seller_agent cm0)
                                (ConversationManager.product cm0))))).
  { split; [ simpl; lia | ].
    destruct (add_turn_agrees cm0 seller
                (Some (get_opening_price (seller_agent cm0) (ConversationManager.product cm0)))
                eq_refl eq_refl eq_refl) as (Hb & Hs & Hm & Hl & Hn).
    unfold transcript_agrees.
    rewrite ManagerProofs.add_turn_round_number, ManagerProofs.add_turn_deal_status.
    change (round_number cm0) with 0. change (deal_status cm0) with ONGOING.
    change (non_system (conversation_history cm0)) with 0 in Hn.
    simpl Speaker_eqb in Hn. cbv iota in Hn.
    repeat split; try assumption; try lia. }
  set (cm1 := _add_turn cm0 seller _) in *.
  destruct (negotiation_loop fuel cm1) as [cmL | e | ] eqn:EL; try discriminate.
  destruct (ManagerProofs.loop_invariant _ loop_body_round_nonneg fuel cm1 cmL H1 EL)
    as [(HrL & Hb & Hs & Hm & Hl & Hn & Hong) _].
  destruct (_print_final_summary _) as [ [] | e ]; [ | discriminate ].
  injection H as <-.
  destruct (DealStatus_eqb (deal_status cmL) ONGOING) eqn:E.
  - destruct (add_turn_agrees (with_deal_status cmL TIMEOUT) system None Hb Hs Hm)
      as (Hb2 & Hs2 & Hm2 & Hl2 & Hn2).
    change (conversation_history (with_deal_status cmL TIMEOUT))
      with (conversation_history cmL) in Hn2.
    simpl Speaker_eqb in Hn2. cbv iota in Hn2.
    unfold transcript_agrees.
    change (round_number (_add_turn (with_deal_status cmL TIMEOUT) system None))
      with (round_number cmL).
    change (deal_status (_add_turn (with_deal_status cmL TIMEOUT) system None))
      with TIMEOUT.
    repeat split; try assumption; try lia; try discriminate.
  - unfold transcript_agrees. repeat split; assumption || lia.
Qed.

(** The analysis of a transcript that agrees with the manager. *)
Lemma analysis_of_agreeing_transcript {F : PyFloat} (cm : ConversationManager.t B S) :
  transcript_agrees cm ->
  let a := analyze_conversation (conversation_history cm) in
  total_rounds a = round_number cm
  /\ deal_outcome a = DealStatus_value (deal_status cm)
  /\ buyer_opening (price_movements a) = head (your_offers (context cm))
  /\ buyer_final (price_movements a) = last_offer (your_offers (context cm))
  /\ seller_opening (price_movements a) = head (seller_offers (context cm))
  /\ seller_final (price_movements a) = last_offer (seller_offers (context cm)).
Proof.
  intros (Hb' & Hs' & Hm' & (t & Hlast & Hstatus) & Hn' & _).
  cbv zeta. unfold analyze_conversation.
  cbn [total_rounds deal_outcome price_movements buyer_opening buyer_final
       seller_opening seller_final].
  rewrite Hb', Hs'. fold (non_system (conversation_history cm)).
  repeat split; try assumption.
  - symmetry.
    apply Z.div_unique
      with (r := non_system (conversation_history cm) - 2 * round_number cm); lia.
  - destruct (conversation_history cm) as [ | t0 h ] eqn:Eh; [ discriminate | ].
    rewrite <- Hstatus. f_equal. f_equal.
    rewrite (last_map_Some (t0 :: h) t0) in Hlast by discriminate. congruence.
Qed.

(** For every session, whatever the two agents are, the analysis of the
    returned transcript agrees with the manager: [total_rounds] is the
    round counter, [deal_outcome] names the final status, the buyer's
    and the seller's prices found in the transcript are the offers kept
    in the context, and the context has one message per turn. *)
Theorem analysis_agrees_with_manager {F : PyFloat}
    (b : B) (s : S) (product : Product.t) (budget : Z) (fuel : nat)
    (cm : ConversationManager.t B S) :
  start_conversation fuel (init b s product budget) = Returned cm ->
  let a := analyze_conversation (conversation_history cm) in
  total_rounds a = round_number cm
  /\ deal_outcome a = DealStatus_value (deal_status cm)
  /\ prices (turns_of buyer (conversation_history cm)) = your_offers (context cm)
  /\ prices (turns_of seller (conversation_history cm)) = seller_offers (context cm)
  /\ buyer_opening (price_movements a) = head (your_offers (context cm))
  /\ buyer_final (price_movements a) = last_offer (your_offers (context cm))
  /\ seller_opening (price_movements a) = head (seller_offers (context cm))
  /\ seller_final (price_movements a) = last_offer (seller_offers (context cm))
  /\ List.length (messages (context cm)) = List.length (conversation_history cm).
Proof.
  intro H. pose proof (returned_transcript_agrees _ _ _ _ _ _ H) as Hagrees.
  destruct (analysis_of_agreeing_transcript cm Hagrees)
    as (Hrounds & Houtcome & Hbo & Hbf & Hso & Hsf).
  destruct Hagrees as (Hb & Hs & Hm & _).
  cbv zeta. repeat split; assumption.
Qed.
End Generic.

Section Sessions.
Import Scenarios.
#[local] Existing Instance Exact.arith.

(** The analysis of [run_full_conversation]: three rounds, accepted,
    the buyer from 164000 to 186000, the seller from 300000 to
    186000. *)
Lemma analysis_agrees_witness :
  let a := analyze_conversation (conversation_history full_conversation_end) in
  (total_rounds a = round_number full_conversation_end
   /\ deal_outcome a = DealStatus_value (deal_status full_conversation_end)
   /\ prices (turns_of buyer (conversation_history full_conversation_end))
      = your_offers (context full_conversation_end)
   /\ prices (turns_of seller (conversation_history full_conversation_end))
      = seller_offers (context full_conversation_end)
   /\ buyer_opening (price_movements a) = head (your_offers (context full_conversation_end))
   /\ buyer_final (price_movements a)
      = last_offer (your_offers (context full_conversation_end))
   /\ seller_opening (price_movements a)
      = head (seller_offers (context full_conversation_end))
   /\ seller_final (price_movements a)
      = last_offer (seller_offers (context full_conversation_end))
   /\ List.length (messages (context full_conversation_end))
      = List.length (conversation_history full_conversation_end)).
Proof.
  apply (analysis_agrees_with_manager charming_buyer (advanced_seller 160000 "balanced")
           (alphonso "Export") 190000 10%nat full_conversation_end).
  vm_compute. reflexivity.
Defined.
End Sessions.
End AnalyzerProofs.

(** ** How a session returns *)

Module SessionProofs.
Import Ai_negotiation NegotiationContext ConversationManager Invariants.
Import Ai_negotiation_analysis TranscriptInvariants SessionInvariants.

Section Generic.
Context {B S : Type} {buyer_class : BuyerAgent B} {seller_class : SellerAgent S}.

(** The body of the loop raises only what the seller raises. *)
Lemma loop_body_raises (cm : ConversationManager.t B S) (e : exn) :
  loop_body cm = Raise e ->
  exists buyer_offer,
    respond_to_buyer (seller_agent cm) buyer_offer (round_number cm + 1) = Raise e.
Proof.
  unfold loop_body.
  cbn [round_number with_context with_round_number].
  set (cm1 := with_context _ _).
  destruct (if round_number cm + 1 =? 1 then _ else _) as [cmB offer] eqn:Eb.
  assert (Hs : seller_agent cmB = seller_agent cm /\ round_number cmB = round_number cm + 1).
  { destruct (round_number cm + 1 =? 1).
    - destruct (generate_opening_offer _ _) as [b o]. injection Eb as <- _. split; reflexivity.
    - destruct (respond_to_seller_offer _ _ _) as [b [st o]]. injection Eb as <- _.
      split; reflexivity. }
  destruct Hs as [Hs Hr].
  destruct (DealStatus_eqb _ ACCEPTED); [ discriminate | ].
  change (seller_agent (_add_turn cmB buyer (Some offer))) with (seller_agent cmB).
  change (round_number (_add_turn cmB buyer (Some offer))) with (round_number cmB).
  rewrite Hs, Hr.
  destruct (respond_to_buyer (seller_agent cm) offer (round_number cm + 1))
    as [ [s [price accepted]] | e' ] eqn:E.
  - simpl. destruct accepted; discriminate.
  - simpl. intro H. injection H as <-. exists offer. exact E.
Qed.

Lemma loop_raises (fuel : nat) :
  forall (cm : ConversationManager.t B S) (e : exn),
    negotiation_loop fuel cm = Raised e ->
    exists s buyer_offer round_num, respond_to_buyer s buyer_offer round_num = Raise e.
Proof.
  induction fuel as [ | fuel IH ]; intros cm e H; simpl in H.
  - destruct (loop_test cm); discriminate.
  - destruct (loop_test cm); [ | discriminate ].
    destruct (loop_body cm) as [cm1 | e1 ] eqn:E1.
    + eapply IH. exact H.
    + injection H as <-. destruct (loop_body_raises _ _ E1) as (o & Ho). eauto.
Qed.

(** With a seller that answers, the body of the loop returns. *)
Lemma loop_body_answers (I : S -> Prop) (cm : ConversationManager.t B S) :
  seller_answers I -> I (seller_agent cm) ->
  exists cm', loop_body cm = Ok cm' /\ I (seller_agent cm').
Proof.
  intros Hans HI.
  destruct (loop_body cm) as [cm' | e ] eqn:E.
  - exists cm'. split; [ reflexivity | ].
    destruct (ManagerProofs.loop_body_shape cm cm' E) as (b & status & offer & _ & Hc).
    destruct Hc as [(_ & ->) | (_ & s & price & accepted & Hs & ->)].
    + exact HI.
    + destruct (Hans _ offer (round_number cm + 1) HI) as (s' & p' & a' & Hs' & HI').
      rewrite Hs in Hs'. injection Hs' as -> -> ->.
      destruct a'; exact HI'.
  - destruct (loop_body_raises _ _ E) as (o & Ho).
    destruct (Hans _ o (round_number cm + 1) HI) as (s' & p' & a' & Hs' & _).
    congruence.
Qed.

Lemma loop_answers (I : S -> Prop) (fuel : nat) :
  seller_answers I ->
  forall (cm : ConversationManager.t B S) (e : exn),
    I (seller_agent cm) -> negotiation_loop fuel cm <> Raised e.
Proof.
  intro Hans. induction fuel as [ | fuel IH ]; intros cm e HI; simpl.
  - destruct (loop_test cm); discriminate.
  - destruct (loop_test cm); [ | discriminate ].
    destruct (loop_body_answers I cm Hans HI) as (cm' & -> & HI').
    apply IH. exact HI'.
Qed.

Lemma loop_body_running (cm cm' : ConversationManager.t B S) :
  0 <= round_number cm -> session_invariant cm -> transcript_agrees cm ->
  loop_test cm = true -> loop_body cm = Ok cm' -> running cm'.
Proof.
  intros Hr Hs Ha Ht H. unfold running.
  rewrite (ManagerProofs.loop_body_round _ _ H). split; [ lia | ]. split.
  - eapply ManagerProofs.loop_body_session_invariant; eassumption.
  - eapply AnalyzerProofs.loop_body_agrees; eassumption.
Qed.

Lemma running_step (cm cm' : ConversationManager.t B S) :
  running cm -> loop_test cm = true -> loop_body cm = Ok cm' -> running cm'.
Proof.
  intros (Hr & Hs & Ha) Ht H. apply (loop_body_running cm cm'); try assumption. lia.
Qed.

(** C6.  For every session of the orchestrator, whatever the two agents
    are, given fuel for ten passes.  The loop does not run out of fuel.
    When the session raises, the seller raised, or the summary divided
    by a budget or a market price of 0.  When it returns, at least one
    round was run and the round counter is at most [max_rounds = 10];
    the rounds written into the transcript never decrease and lie
    between 0 and the round counter; the buyer and the seller took two
    turns for each round and one more, or one less when the buyer closed
    the negotiation; the status is no longer [ONGOING]; and either no
    agent closed the negotiation within the ten rounds, and then the
    status is [TIMEOUT], there is no final price, the transcript holds
    the 21 turns of the agents and ends with the turn of the system, or
    the transcript holds the turn of an agent that closed the
    negotiation.  And the session does return when the seller answers
    every offer and neither the budget nor the market price is 0. *)
Theorem rounds_bounded_and_session_returns
    (b : B) (s : S) (product : Product.t) (budget : Z) (fuel : nat) :
  (10 <= fuel)%nat ->
  match start_conversation fuel (init b s product budget) with
  | OutOfFuel => False
  | Raised e =>
      (exists s' buyer_offer round_num,
          respond_to_buyer s' buyer_offer round_num = Raise e)
      \/ (e = ZeroDivisionError
          /\ (budget = 0 \/ Product.base_market_price product = 0))
  | Returned cm =>
      1 <= round_number cm <= max_rounds
      /\ StronglySorted Z.le
           (map ConversationTurn.round_number (conversation_history cm))
      /\ Forall (fun r => 0 <= r <= round_number cm)
           (map ConversationTurn.round_number (conversation_history cm))
      /\ 2 * round_number cm <= non_system (conversation_history cm)
         <= 2 * round_number cm + 1
      /\ deal_status cm <> ONGOING
      /\ ((deal_status cm = TIMEOUT /\ round_number cm = max_rounds
           /\ final_price cm = None
           /\ non_system (conversation_history cm) = 2 * max_rounds + 1
           /\ exists turns, conversation_history cm = (turns ++ [timeout_turn])%list)
          \/ Exists closing_turn (conversation_history cm))
  end
  /\ (forall I : S -> Prop,
        I s -> seller_answers I ->
        budget <> 0 -> Product.base_market_price product <> 0 ->
        exists cm, start_conversation fuel (init b s product budget) = Returned cm).
Proof.
  intro Hfuel. unfold start_conversation.
  set (cm1 := _add_turn (init b s product budget) seller _).
  assert (H1 : session_invariant cm1).
  { unfold session_invariant, max_rounds. repeat split; simpl; try lia.
    all: try (repeat constructor; simpl; lia). }
  assert (A1 : transcript_agrees cm1).
  { destruct (AnalyzerProofs.add_turn_agrees (init b s product budget) seller
                (Some (get_opening_price s product)) eq_refl eq_refl eq_refl)
      as (Hb & Hs & Hm & Hl & Hn).
    change (non_system (conversation_history (init b s product budget))) with 0 in Hn.
    simpl Speaker_eqb in Hn. cbv iota in Hn.
    change (_add_turn (init b s product budget) seller
              (Some (get_opening_price s product))) with cm1 in *.
    unfold transcript_agrees.
    change (round_number cm1) with 0. change (deal_status cm1) with ONGOING.
    repeat split; try assumption; try lia. }
  assert (Hframe : forall cmL,
             negotiation_loop fuel cm1 = Returned cmL ->
             buyer_budget cmL = budget /\ ConversationManager.product cmL = product).
  { intros cmL EL.
    destruct (ManagerProofs.loop_invariant
                (fun cm => buyer_budget cm = budget
                           /\ ConversationManager.product cm = product)
                (fun a c Ha _ Hc =>
                   conj (eq_trans (proj1 (ManagerProofs.loop_body_frame a c Hc)) (proj1 Ha))
                        (eq_trans (proj2 (ManagerProofs.loop_body_frame a c Hc)) (proj2 Ha)))
                fuel cm1 cmL (conj eq_refl eq_refl) EL) as [Hf _]. exact Hf. }
  pose proof (ManagerProofs.loop_terminates fuel cm1) as Hterm.
  assert (Hsummary : forall cm : ConversationManager.t B S,
             buyer_budget cm = budget -> ConversationManager.product cm = product ->
             forall e, _print_final_summary cm = Raise e ->
                       e = ZeroDivisionError
                       /\ (budget = 0 \/ Product.base_market_price product = 0)).
  { intros cm Hb Hp e. unfold _print_final_summary. rewrite Hb, Hp.
    destruct (DealStatus_eqb _ _); [ | discriminate ].
    destruct (budget =? 0) eqn:E0.
    - apply Z.eqb_eq in E0. intro H. injection H as <-. auto.
    - destruct (Product.base_market_price product =? 0) eqn:E2; [ | discriminate ].
      apply Z.eqb_eq in E2. intro H. injection H as <-. auto. }
  split.
  - destruct (negotiation_loop fuel cm1) as [cmL | e | ] eqn:EL.
    + destruct (Hframe cmL eq_refl) as [Hbudget Hproduct].
      (* the first pass *)
      destruct fuel as [ | fuel' ]; [ lia | ].
      assert (Ht1 : loop_test cm1 = true) by reflexivity.
      change (negotiation_loop (Datatypes.S fuel') cm1)
        with (if loop_test cm1
              then match loop_body cm1 with
                   | Ok self' => negotiation_loop fuel' self'
                   | Raise e => Raised e
                   end
              else Returned cm1) in EL.
      rewrite Ht1 in EL.
      destruct (loop_body cm1) as [cm2 | e ] eqn:E2; [ | discriminate ].
      pose proof (loop_body_running cm1 cm2 ltac:(simpl; lia) H1 A1 Ht1 E2) as R2.
      destruct (ManagerProofs.loop_invariant running running_step fuel' cm2 cmL R2 EL)
        as [(Hone & (Hr & (Hs & Hb) & HK) & (_ & _ & _ & _ & Hcount & Hopen)) Hexit].
      unfold loop_test in Hexit.
      destruct (DealStatus_eqb (deal_status cmL) ONGOING) eqn:E.
      * assert (Hong : deal_status cmL = ONGOING)
          by (destruct (deal_status cmL); (reflexivity || discriminate)).
        simpl in Hexit. apply Z.ltb_ge in Hexit.
        assert (Hten : round_number cmL = max_rounds) by lia.
        specialize (Hopen Hong).
        destruct (_print_final_summary _) as [ [] | e ] eqn:Es.
        -- pose proof (ManagerProofs.transcript_ok_add_turn
                         (with_deal_status cmL TIMEOUT) system None
                         ltac:(simpl; lia) (conj Hs Hb)) as [Hs' Hb'].
           assert (Hn : non_system
                          (conversation_history
                             (_add_turn (with_deal_status cmL TIMEOUT) system None))
                        = non_system (conversation_history cmL)).
           { rewrite ManagerProofs.add_turn_history, AnalyzerProofs.non_system_app.
             change (conversation_history (with_deal_status cmL TIMEOUT))
               with (conversation_history cmL).
             unfold non_system at 2. simpl. lia. }
           change (round_number (_add_turn (with_deal_status cmL TIMEOUT) system None))
             with (round_number cmL).
           change (deal_status (_add_turn (with_deal_status cmL TIMEOUT) system None))
             with TIMEOUT.
           change (final_price (_add_turn (with_deal_status cmL TIMEOUT) system None))
             with (final_price cmL).
           rewrite Hn.
           split; [ lia | ]. split; [ exact Hs' | ]. split; [ exact Hb' | ].
           split; [ lia | ]. split; [ discriminate | ].
           destruct HK as [(_ & Hf) | Hex].
           ++ left. split; [ reflexivity | ]. split; [ exact Hten | ].
              split; [ exact Hf | ]. split; [ lia | ].
              exists (conversation_history cmL).
              rewrite ManagerProofs.add_turn_history.
              change (conversation_history (with_deal_status cmL TIMEOUT))
                with (conversation_history cmL).
              change (round_number (with_deal_status cmL TIMEOUT)) with (round_number cmL).
              rewrite Hten. reflexivity.
           ++ right. rewrite ManagerProofs.add_turn_history. apply Exists_app. left.
              exact Hex.
        -- right.
           exact (Hsummary (_add_turn (with_deal_status cmL TIMEOUT) system None)
                    Hbudget Hproduct e Es).
      * destruct (_print_final_summary cmL) as [ [] | e ] eqn:Es.
        -- split; [ lia | ]. split; [ exact Hs | ]. split; [ exact Hb | ].
           split; [ exact Hcount | ].
           split; [ intro Hc; rewrite Hc in E; discriminate | ].
           destruct HK as [(Hc & _) | Hex]; [ | right; exact Hex ].
           rewrite Hc in E. discriminate.
        -- right. exact (Hsummary cmL Hbudget Hproduct e Es).
    + left. eapply loop_raises. exact EL.
    + apply Hterm; [ | reflexivity ]. unfold max_rounds. simpl. lia.
  - intros I HI Hans Hbudget Hmarket.
    destruct (negotiation_loop fuel cm1) as [cmL | e | ] eqn:EL.
    + destruct (Hframe cmL eq_refl) as [Hb Hp].
      match goal with
      | |- exists cm, match _print_final_summary ?c with _ => _ end = _ =>
          destruct (_print_final_summary c) as [ [] | e ] eqn:Es; [ eauto | ];
          assert (Hbc : buyer_budget c = budget /\ ConversationManager.product c = product)
      end.
      { destruct (DealStatus_eqb _ _); split; assumption. }
      destruct (Hsummary _ (proj1 Hbc) (proj2 Hbc) e Es) as (_ & [ | ]); contradiction.
    + exfalso. eapply (loop_answers I fuel Hans cm1 e); [ exact HI | exact EL ].
    + exfalso. apply Hterm; [ | reflexivity ]. unfold max_rounds. simpl. lia.
Qed.
End Generic.

Section Sessions.
Import Scenarios.
#[local] Existing Instance Exact.arith.

(** C6 at [run_full_conversation]: the seller, with a minimum price
    other than 0, answers every offer, and the session returns after
    three rounds. *)
Lemma session_returns_witness :
  exists cm,
    start_conversation 10 full_conversation = Returned cm
    /\ 1 <= round_number cm <= max_rounds
    /\ deal_status cm <> ONGOING.
Proof.
  destruct (rounds_bounded_and_session_returns charming_buyer
              (advanced_seller 160000 "balanced") (alphonso "Export") 190000 10%nat
              (le_n 10)) as [Hcases Hreturns].
  destruct (Hreturns (fun s => AdvancedSellerAgent.min_price s <> 0)) as (cm & Hcm).
  - discriminate.
  - intros s0 offer round_num Hs0.
    unfold respond_to_buyer, AdvancedSellerAgent_is_seller,
      AdvancedSellerAgent.respond_to_buyer.
    cbn [AdvancedSellerAgent.min_price AdvancedSellerAgent.with_rounds_passed].
    destruct (AdvancedSellerAgent.min_price s0 =? 0) eqn:E;
      [ apply Z.eqb_eq in E; contradiction | ].
    destruct (AdvancedSellerAgent.rates _) as [threshold rate].
    destruct (_ || _); eexists _, _, _; (split; [ reflexivity | exact Hs0 ]).
  - discriminate.
  - discriminate.
  - exists cm. split; [ exact Hcm | ].
    change (start_conversation 10 full_conversation) with
      (start_conversation 10
         (init charming_buyer (advanced_seller 160000 "balanced") (alphonso "Export")
            190000)) in Hcm |- *.
    rewrite Hcm in Hcases. destruct Hcases as (Hr & _ & _ & _ & Hd & _). auto.
Defined.
End Sessions.
End SessionProofs.

(** ** The estimate of the seller's minimum during a session *)

Module EstimateProofs.
Import Ai_negotiation NegotiationContext ConversationManager Invariants.
Import YourBuyerAgent EstimateInvariants.
Import ManagerProofs.

Section Session.
Context {F : PyFloat} {S : Type} {seller_class : SellerAgent S}.

Lemma estimate_from_snoc (later : list Z) (p : Z) :
  forall est : Z,
    SpecEstimate.estimate_from est (later ++ [p])
    = SpecEstimate.blend (SpecEstimate.estimate_from est later) p.
Proof.
  induction later as [ | q later IH ]; intro est; [ reflexivity | ].
  simpl. apply IH.
Qed.

(** One more price shown. *)
Lemma shown_snoc (observed : list Z) (p : Z) :
  update_model (shown observed) p = shown (observed ++ [p]).
Proof.
  unfold update_model, shown. cbn [seller_history seller_min_est times_seen].
  f_equal.
  - destruct observed as [ | first later ]; [ reflexivity | ].
    cbn [SpecEstimate.estimate app]. rewrite estimate_from_snoc. reflexivity.
  - rewrite length_app. cbn [List.length]. lia.
Qed.

Lemma names_prices_prefix (h extra : list ConversationTurn.t) :
  seller_names_prices (h ++ extra) -> seller_names_prices h /\ seller_names_prices extra.
Proof. apply Forall_app. Qed.

(** What the buyer's turn leaves of the context and of the manager. *)
Lemma record_buyer_fields (cm : ConversationManager.t YourBuyerAgent.t S)
    (b : YourBuyerAgent.t) (status : DealStatus) (offer : Z) :
  let cmB := record_buyer cm b status offer in
  buyer_agent cmB = b
  /\ seller_offers (context cmB) = seller_offers (context cm)
  /\ round_number cmB = round_number cm + 1
  /\ deal_status cmB = status
  /\ conversation_history cmB
     = (conversation_history cm
        ++ [ {| ConversationTurn.speaker := buyer;
                ConversationTurn.price_offer := Some offer;
                ConversationTurn.round_number := round_number cm + 1;
                ConversationTurn.deal_status := status |} ])%list.
Proof.
  cbv zeta. unfold record_buyer, enter_round.
  rewrite add_turn_buyer_seller_offers, add_turn_history.
  repeat split.
Qed.

(** What the seller's turn adds. *)
Lemma seller_turn_fields (cm : ConversationManager.t YourBuyerAgent.t S) (price : Z) :
  let cmS := _add_turn cm seller (Some price) in
  buyer_agent cmS = buyer_agent cm
  /\ round_number cmS = round_number cm
  /\ deal_status cmS = deal_status cm
  /\ conversation_history cmS
     = (conversation_history cm
        ++ [ {| ConversationTurn.speaker := seller;
                ConversationTurn.price_offer := Some price;
                ConversationTurn.round_number := round_number cm;
                ConversationTurn.deal_status := deal_status cm |} ])%list
  /\ (truthy (Some price) = true ->
      seller_offers (context cmS) = (seller_offers (context cm) ++ [price])%list).
Proof.
  cbv zeta. rewrite add_turn_history. repeat split.
  intro Hp. apply add_turn_seller_offers. simpl in Hp.
  intro E. subst price. discriminate.
Qed.

Lemma loop_body_estimate (n : string) (opening : Z)
    (cm cm' : ConversationManager.t YourBuyerAgent.t S) :
  estimate_invariant n opening cm -> loop_test cm = true ->
  loop_body cm = Ok cm' -> estimate_invariant n opening cm'.
Proof.
  intros HP Ht H Hnamed'.
  destruct (loop_body_shape cm cm' H) as (b & status & offer & Hmove & Hc).
  cbv zeta in Hc.
  destruct (record_buyer_fields cm b status offer) as (HbB & HsB & HrB & HdB & HhB).
  set (cmB := record_buyer cm b status offer) in *.
  (* the transcript so far names prices too *)
  assert (Hnamed : seller_names_prices (conversation_history cm)
                   /\ forall s price accepted,
                        cm' = (if accepted : bool
                               then _add_turn
                                      (with_final_price
                                         (with_deal_status (with_seller_agent cmB s) ACCEPTED)
                                         (Some offer))
                                      seller (Some price)
                               else _add_turn (with_seller_agent cmB s) seller (Some price)) ->
                        truthy (Some price) = true).
  { destruct Hc as [(_ & E) | (_ & s & price & accepted & _ & E)].
    - rewrite E in Hnamed'.
      change (conversation_history (with_final_price cmB _))
        with (conversation_history cmB) in Hnamed'.
      rewrite HhB in Hnamed'. apply names_prices_prefix in Hnamed'.
      split; [ apply Hnamed' | ].
      intros s price accepted E'. exfalso.
      assert (Hlen : List.length (conversation_history cm')
                     = Datatypes.S (List.length (conversation_history cmB))).
      { rewrite E'. destruct accepted; rewrite add_turn_history, length_app;
          simpl; lia. }
      rewrite E in Hlen.
      change (conversation_history (with_final_price cmB _))
        with (conversation_history cmB) in Hlen. lia.
    - assert (Hh : conversation_history cm'
                   = (conversation_history cmB
                      ++ [ {| ConversationTurn.speaker := seller;
                              ConversationTurn.price_offer := Some price;
                              ConversationTurn.round_number := round_number cmB;
                              ConversationTurn.deal_status :=
                                if accepted then ACCEPTED else deal_status cmB |} ])%list).
      { rewrite E. destruct accepted; rewrite add_turn_history; reflexivity. }
      rewrite Hh, HhB in Hnamed'.
      apply names_prices_prefix in Hnamed'. destruct Hnamed' as [Hpre Hlast].
      apply names_prices_prefix in Hpre. split; [ apply Hpre | ].
      intros s' price' accepted' E'.
      assert (Hh' : conversation_history cm'
                    = (conversation_history cmB
                       ++ [ {| ConversationTurn.speaker := seller;
                               ConversationTurn.price_offer := Some price';
                               ConversationTurn.round_number := round_number cmB;
                               ConversationTurn.deal_status :=
                                 if accepted' then ACCEPTED else deal_status cmB |} ])%list).
      { rewrite E'. destruct accepted'; rewrite add_turn_history; reflexivity. }
      rewrite Hh in Hh'. apply app_inv_head in Hh'. injection Hh' as Hprice _.
      subst price'. apply Forall_inv in Hlast. apply Hlast. reflexivity. }
  destruct Hnamed as [Hnamed Hprice].
  destruct (HP Hnamed) as (Hname & Hcases). clear HP.
  (* the buyer's move *)
  assert (Hb : name b = n
               /\ ((round_number cm = 0 /\ status = ONGOING
                    /\ _state b = Some (shown [])
                    /\ seller_offers (context cm) = [opening])
                   \/ exists observed latest,
                        seller_offers (context cm) = (opening :: observed ++ [latest])%list
                        /\ Z.of_nat (List.length observed) = round_number cm - 1
                        /\ _state b = Some (shown (observed ++ [latest]))
                        /\ (status = ACCEPTED \/ status = ONGOING))).
  { unfold buyer_move, enter_round in Hmove.
    cbn [round_number with_context with_round_number context buyer_agent
         with_current_round seller_offers] in Hmove.
    destruct Hcases as [(Hr0 & Hong & Hst & Hso) | (observed & Hst & Hlen & Hso)].
    - rewrite Hr0 in Hmove. cbn [Z.add Z.eqb Pos.eqb] in Hmove.
      change (@Ai_negotiation.generate_opening_offer _ YourBuyerAgent_is_buyer)
        with YourBuyerAgent.generate_opening_offer in Hmove.
      unfold YourBuyerAgent.generate_opening_offer in Hmove.
      destruct (_bounds _) as [o w]. injection Hmove as <- <- _.
      unfold _init_state. rewrite Hst. cbn [name _state].
      split; [ exact Hname | ]. left. auto.
    - destruct Hso as [(Hacc & _) | (latest & Hso)].
      { unfold loop_test in Ht. rewrite Hacc in Ht. discriminate. }
      assert (Hne : (round_number cm + 1 =? 1) = false) by (apply Z.eqb_neq; lia).
      rewrite Hne in Hmove.
      change (@Ai_negotiation.respond_to_seller_offer _ YourBuyerAgent_is_buyer)
        with YourBuyerAgent.respond_to_seller_offer in Hmove.
      rewrite Hso, app_comm_cons, last_offer_snoc in Hmove.
      unfold YourBuyerAgent.respond_to_seller_offer in Hmove.
      assert (Hinit : _init_state (buyer_agent cm) = buyer_agent cm)
        by (unfold _init_state; rewrite Hst; reflexivity).
      rewrite Hinit in Hmove.
      assert (Hupd : _update_seller_model (buyer_agent cm) latest
                     = {| name := n; _state := Some (shown (observed ++ [latest])) |}).
      { unfold _update_seller_model. rewrite Hst, Hname, shown_snoc. reflexivity. }
      rewrite Hupd in Hmove. cbn [_state] in Hmove.
      split.
      + destruct (accepts _ _ _); injection Hmove as <- _ _; reflexivity.
      + right. exists observed, latest. split; [ exact Hso | ]. split; [ exact Hlen | ].
        destruct (accepts _ _ _); injection Hmove as <- <- _; auto. }
  destruct Hb as [Hnb Hb].
  destruct Hc as [(Hacc & E) | (Hnacc & s & price & accepted & _ & E)].
  - (* the buyer accepts *)
    subst cm'. cbn [buyer_agent with_final_price round_number deal_status context].
    rewrite HbB, HsB, HrB, HdB. split; [ exact Hnb | ]. right.
    destruct Hb as [(_ & Hong & _) | (observed & latest & Hso & Hlen & Hst & _)];
      [ congruence | ].
    exists (observed ++ [latest])%list. split; [ exact Hst | ].
    split; [ rewrite length_app; cbn [List.length]; lia | ].
    left. split; [ exact Hacc | ]. rewrite Hso. reflexivity.
  - (* the seller answers *)
    pose proof (Hprice s price accepted E) as Htruthy.
    assert (Hfields : buyer_agent cm' = b
                      /\ round_number cm' = round_number cm + 1
                      /\ seller_offers (context cm')
                         = (seller_offers (context cm) ++ [price])%list).
    { rewrite E. destruct accepted.
      - destruct (seller_turn_fields
                    (with_final_price (with_deal_status (with_seller_agent cmB s) ACCEPTED)
                       (Some offer)) price) as (H1 & H2 & _ & _ & H5).
        rewrite H1, H2, (H5 Htruthy).
        cbn [buyer_agent round_number context with_final_price with_deal_status
             with_seller_agent].
        rewrite HbB, HrB, HsB. auto.
      - destruct (seller_turn_fields (with_seller_agent cmB s) price)
          as (H1 & H2 & _ & _ & H5).
        rewrite H1, H2, (H5 Htruthy).
        cbn [buyer_agent round_number context with_seller_agent].
        rewrite HbB, HrB, HsB. auto. }
    destruct Hfields as (Hfb & Hfr & Hfs). rewrite Hfb, Hfr, Hfs.
    split; [ exact Hnb | ]. right.
    destruct Hb as [(Hr0 & _ & Hst & Hso) | (observed & latest & Hso & Hlen & Hst & _)].
    + exists []. split; [ exact Hst | ]. split; [ simpl; lia | ].
      right. exists price. rewrite Hso. reflexivity.
    + exists (observed ++ [latest])%list. split; [ exact Hst | ].
      split; [ rewrite length_app; cbn [List.length]; lia | ].
      right. exists price. rewrite Hso, <- !app_comm_cons. reflexivity.
Qed.

(** C8 (amended).  The estimate kept by [_update_seller_model] follows
    the recurrence over the prices the buyer is shown: a fresh agent
    shown the prices [prices] one after the other holds them, their
    count and the estimate [SpecEstimate.estimate prices] (none before
    the first price, [int(0.9 * p)] after the first, then
    [int(0.80 * est + (1 - 0.80) * int(0.85 * p))] for each later one);
    [respond_to_seller_offer] shows the agent the price it is given,
    once, and [generate_opening_offer] shows it none.  In a session of
    the manager with any seller whose turns all name a price, the prices
    shown are not all the seller's offers: the buyer that the session
    returns was shown every offer of the seller except the opening one,
    which the manager never passes to it, and except the last one unless
    it is the buyer that closed the negotiation; their number is one
    less than the number of rounds, and the estimate is seeded from the
    seller's second offer. *)
Theorem seller_estimate_follows_recurrence
    (n : string) (s : S) (product : Product.t) (budget : Z) (fuel : nat)
    (cm : ConversationManager.t YourBuyerAgent.t S) (prices : list Z) :
  start_conversation fuel (init {| name := n; _state := None |} s product budget)
  = Returned cm ->
  seller_names_prices (conversation_history cm) ->
  fold_left _update_seller_model prices (_init_state {| name := n; _state := None |})
  = {| name := n;
       _state := Some {| seller_history := prices;
                         seller_min_est := SpecEstimate.estimate prices;
                         times_seen := Z.of_nat (List.length prices) |} |}
  /\ (forall (self : YourBuyerAgent.t) (c : NegotiationContext.t) (sp : Z),
        fst (YourBuyerAgent.respond_to_seller_offer self c (Some sp))
        = _update_seller_model (_init_state self) sp)
  /\ (forall (self : YourBuyerAgent.t) (c : NegotiationContext.t),
        fst (YourBuyerAgent.generate_opening_offer self c) = _init_state self)
  /\ exists observed,
       buyer_agent cm
       = {| name := n;
            _state := Some {| seller_history := observed;
                              seller_min_est := SpecEstimate.estimate observed;
                              times_seen := Z.of_nat (List.length observed) |} |}
       /\ Z.of_nat (List.length observed) = round_number cm - 1
       /\ (seller_offers (context cm) = get_opening_price s product :: observed
           \/ exists latest,
                seller_offers (context cm)
                = (get_opening_price s product :: observed ++ [latest])%list).
Proof.
  intros H Hnamed.
  split; [ | split; [ | split ] ].
  - unfold _init_state. simpl.
    rewrite BuyerProofs.update_agent_run, BuyerProofs.update_model_run. reflexivity.
  - intros self c sp. unfold YourBuyerAgent.respond_to_seller_offer.
    match goal with |- context [accepts c ?e sp] => destruct (accepts c e sp) end;
      reflexivity.
  - intros self c. unfold YourBuyerAgent.generate_opening_offer.
    destruct (_bounds c). reflexivity.
  - unfold start_conversation in H.
    set (opening := get_opening_price s product).
    change (get_opening_price
              (seller_agent (init {| name := n; _state := None |} s product budget))
              (ConversationManager.product
                 (init {| name := n; _state := None |} s product budget)))
      with opening in H.
    set (cm1 := _add_turn _ seller (Some opening)) in H.
    assert (H1 : estimate_invariant n opening cm1).
    { intro Hn1. split; [ reflexivity | ]. left.
      split; [ reflexivity | ]. split; [ reflexivity | ]. split; [ reflexivity | ].
      apply Forall_inv in Hn1.
      destruct (seller_turn_fields (init {| name := n; _state := None |} s product budget)
                  opening) as (_ & _ & _ & _ & H5).
      apply (H5 (Hn1 eq_refl)). }
    destruct (negotiation_loop fuel cm1) as [cmL | e | ] eqn:EL; try discriminate.
    destruct (loop_invariant (estimate_invariant n opening)
                (loop_body_estimate n opening) fuel cm1 cmL H1 EL) as [HL Hexit].
    destruct (_print_final_summary _) as [ [] | e ]; [ | discriminate ].
    injection H as <-.
    assert (Hsame : seller_names_prices (conversation_history cmL)
                    /\ forall cmF,
                         cmF = (if DealStatus_eqb (deal_status cmL) ONGOING
                                then _add_turn (with_deal_status cmL TIMEOUT) system None
                                else cmL) ->
                         buyer_agent cmF = buyer_agent cmL
                         /\ round_number cmF = round_number cmL
                         /\ seller_offers (context cmF) = seller_offers (context cmL)).
    { destruct (DealStatus_eqb (deal_status cmL) ONGOING).
      - rewrite add_turn_history in Hnamed. apply names_prices_prefix in Hnamed.
        split; [ apply Hnamed | ]. intros cmF ->. repeat split.
      - split; [ exact Hnamed | ]. intros cmF ->. repeat split. }
    destruct Hsame as [HnL Hsame].
    destruct (Hsame _ eq_refl) as (Hfb & Hfr & Hfs). rewrite Hfb, Hfr, Hfs.
    destruct (HL HnL) as (Hname & [(Hr0 & Hong & _) | (observed & Hst & Hlen & Hso)]).
    + unfold loop_test in Hexit. rewrite Hong, Hr0 in Hexit. discriminate.
    + exists observed. split.
      * destruct (buyer_agent cmL) as [n0 st]. simpl in Hname, Hst. subst. reflexivity.
      * split; [ exact Hlen | ].
        destruct Hso as [(_ & Hso) | Hso]; [ left; exact Hso | right; exact Hso ].
Qed.
End Session.

Section Sessions.
Import Scenarios.
#[local] Existing Instance Exact.arith.

(** C8 as stated fails in a session.  In [run_full_conversation] the
    seller offers 300000, 180400, 192500 and accepts at 186000; the
    buyer was shown 180400 and 192500 only, so that its estimate is
    seeded from 180400, the seller's second offer, and stands at 162613,
    where the recurrence over the seller's offers, seeded at 0.9 times
    300000, gives 215667. *)
Lemma estimate_is_not_seeded_from_first_offer :
  seller_offers (context full_conversation_end) = [300000; 180400; 192500; 186000]
  /\ _state (buyer_agent full_conversation_end)
     = Some {| seller_history := [180400; 192500];
               seller_min_est := Some 162613;
               times_seen := 2 |}
  /\ SpecEstimate.estimate [180400; 192500] = Some 162613
  /\ SpecEstimate.estimate [300000; 180400; 192500; 186000] = Some 215667
  /\ SpecEstimate.estimate [300000] = Some 270000.
Proof. vm_compute. repeat split. Qed.

(** C8 (amended) at [run_full_conversation]. *)
Lemma seller_estimate_witness :
  exists observed,
    buyer_agent full_conversation_end
    = {| name := "CharmingBuyer";
         _state := Some {| seller_history := observed;
                           seller_min_est := SpecEstimate.estimate observed;
                           times_seen := Z.of_nat (List.length observed) |} |}
    /\ Z.of_nat (List.length observed) = round_number full_conversation_end - 1.
Proof.
  destruct (seller_estimate_follows_recurrence "CharmingBuyer"
              (advanced_seller 160000 "balanced") (alphonso "Export") 190000 10%nat
              full_conversation_end [])
    as (_ & _ & _ & observed & Hb & Hlen & _).
  - vm_compute. reflexivity.
  - vm_compute. repeat constructor.
  - exists observed. split; assumption.
Defined.
End Sessions.
End EstimateProofs.

(** ** The log of sessions *)

Module LoggerProofs.
Import Ai_negotiation NegotiationContext ConversationManager Invariants.
Import Ai_negotiation_analysis ConversationAnalyzer TranscriptInvariants.
Import Ai_negotiation_log.
Import ManagerProofs.

Section Concrete.
Context {F : PyFloat}.

(** What a returned session between [YourBuyerAgent] and
    [AdvancedSellerAgent] leaves in the manager. *)
Lemma returned_session_prices (Hsign : quotient_sign_law)
    (buyer0 : YourBuyerAgent.t) (seller0 : AdvancedSellerAgent.t)
    (product : Product.t) (budget : Z) (fuel : nat)
    (cm : ConversationManager.t YourBuyerAgent.t AdvancedSellerAgent.t) :
  0 < AdvancedSellerAgent.min_price seller0 ->
  start_conversation fuel (init buyer0 seller0 product budget) = Returned cm ->
  buyer_budget cm = budget
  /\ ((deal_status cm = ACCEPTED
       /\ exists p, final_price cm = Some p
                    /\ AdvancedSellerAgent.min_price seller0 <= p <= budget)
      \/ (deal_status cm <> ACCEPTED /\ final_price cm = None)).
Proof.
  intros Hfloor H. unfold start_conversation in H.
  set (cm1 := _add_turn (init buyer0 seller0 product budget) seller _) in H.
  assert (H1 : price_invariant (AdvancedSellerAgent.min_price seller0) budget cm1).
  { unfold price_invariant, cm1. fields. simpl.
    split; [ reflexivity | ]. split; [ reflexivity | ]. split; [ lia | ].
    left. split; [ reflexivity | ]. split; [ reflexivity | ]. lia. }
  destruct (negotiation_loop fuel cm1) as [cmL | e | ] eqn:EL; try discriminate.
  destruct (loop_invariant
              (price_invariant (AdvancedSellerAgent.min_price seller0) budget)
              (fun a b => loop_body_price_invariant Hsign _ _ a b Hfloor)
              fuel cm1 cmL H1 EL) as [(_ & _ & _ & Hst) _].
  destruct (loop_invariant
              (fun cm => buyer_budget cm = budget)
              (fun a b Ha _ Hb => eq_trans (proj1 (loop_body_frame a b Hb)) Ha)
              fuel cm1 cmL eq_refl EL) as [Hbudget _].
  destruct (_print_final_summary _) as [ [] | e ]; [ | discriminate ].
  destruct Hst as [(Hong & Hfin & _) | (Hacc & p & Hp & Hrange)].
  - rewrite Hong in H. simpl in H. injection H as <-. fields.
    split; [ exact Hbudget | ]. right. split; [ discriminate | exact Hfin ].
  - rewrite Hacc in H. simpl in H. injection H as <-.
    split; [ exact Hbudget | ]. left. split; [ exact Hacc | ]. exists p. auto.
Qed.

(** Logging a session that [start_conversation] returned for
    [YourBuyerAgent] and [AdvancedSellerAgent] with a positive minimum
    price: the log grows by one entry, numbered by its place; the rounds
    and the outcome of its results are those of its analysis; it has
    one line of conversation for each message of the context; the
    savings of a deal are the budget less the final price, between 0
    and the budget less the seller's minimum; and without a deal there
    is no final price and the savings are 0. *)
Theorem logged_session_is_consistent (Hsign : quotient_sign_law)
    (self : ConversationLogger.t)
    (buyer0 : YourBuyerAgent.t) (seller0 : AdvancedSellerAgent.t)
    (product : Product.t) (budget : Z) (fuel : nat)
    (cm : ConversationManager.t YourBuyerAgent.t AdvancedSellerAgent.t) :
  0 < AdvancedSellerAgent.min_price seller0 ->
  start_conversation fuel (init buyer0 seller0 product budget) = Returned cm ->
  exists d,
    ConversationLogger.session_logs
      (ConversationLogger.log_session self cm (conversation_history cm))
    = (ConversationLogger.session_logs self ++ [d])%list
    /\ ConversationLogger.timestamp d
       = Z.of_nat (List.length (ConversationLogger.session_logs self)) + 1
    /\ ConversationLogger.rounds_completed (ConversationLogger.results d)
       = total_rounds (ConversationLogger.analysis d)
    /\ ConversationLogger.deal_status (ConversationLogger.results d)
       = deal_outcome (ConversationLogger.analysis d)
    /\ List.length (ConversationLogger.conversation d)
       = List.length (messages (context cm))
    /\ (deal_status cm = ACCEPTED ->
        exists p,
          ConversationLogger.final_price (ConversationLogger.results d) = Some p
          /\ ConversationLogger.buyer_savings (ConversationLogger.results d) = budget - p
          /\ 0 <= ConversationLogger.buyer_savings (ConversationLogger.results d)
             <= budget - AdvancedSellerAgent.min_price seller0)
    /\ (deal_status cm <> ACCEPTED ->
        ConversationLogger.final_price (ConversationLogger.results d) = None
        /\ ConversationLogger.buyer_savings (ConversationLogger.results d) = 0).
Proof.
  intros Hfloor H.
  destruct (returned_session_prices Hsign _ _ _ _ _ _ Hfloor H) as [Hbudget Hprice].
  pose proof (AnalyzerProofs.returned_transcript_agrees _ _ _ _ _ _ H) as Hagrees.
  destruct (AnalyzerProofs.analysis_of_agreeing_transcript cm Hagrees)
    as (Hrounds & Houtcome & _).
  destruct Hagrees as (_ & _ & Hm & _).
  eexists. split; [ reflexivity | ].
  cbn [ConversationLogger.timestamp ConversationLogger.results
       ConversationLogger.analysis ConversationLogger.conversation
       ConversationLogger.rounds_completed ConversationLogger.deal_status
       ConversationLogger.final_price ConversationLogger.buyer_savings].
  split; [ reflexivity | ]. split; [ symmetry; exact Hrounds | ].
  split; [ symmetry; exact Houtcome | ].
  split; [ rewrite length_map; symmetry; exact Hm | ].
  destruct Hprice as [(Hacc & p & Hp & Hrange) | (Hno & Hnone)].
  - split; [ | congruence ].
    intros _. exists p. rewrite Hp, Hbudget. cbn [truthy].
    replace (p =? 0) with false by (symmetry; apply Z.eqb_neq; lia). cbn [negb].
    repeat split; lia.
  - split; [ contradiction | ]. intros _. rewrite Hnone. split; reflexivity.
Qed.
End Concrete.

Section Sessions.
Import Scenarios.
#[local] Existing Instance Exact.arith.

(** [run_full_conversation], accepted at 186000, logged into an empty
    log: the savings are 4000. *)
Lemma logged_session_witness :
  exists d,
    ConversationLogger.session_logs
      (ConversationLogger.log_session ConversationLogger.init full_conversation_end
         (conversation_history full_conversation_end))
    = [d]
    /\ ConversationLogger.timestamp d = 1
    /\ ConversationLogger.buyer_savings (ConversationLogger.results d) = 4000.
Proof.
  destruct (logged_session_is_consistent ExactLaws.quotient_sign ConversationLogger.init
              charming_buyer (advanced_seller 160000 "balanced") (alphonso "Export")
              190000 10%nat full_conversation_end)
    as (d & Hlog & Hstamp & _ & _ & _ & Hdeal & _).
  - reflexivity.
  - vm_compute. reflexivity.
  - exists d. split; [ exact Hlog | ]. split; [ exact Hstamp | ].
    destruct (Hdeal eq_refl) as (p & Hp & Hs & _).
    cbn [ConversationLogger.log_session ConversationLogger.session_logs
         ConversationLogger.init app] in Hlog.
    injection Hlog as <-. exact eq_refl.
Defined.
End Sessions.
End LoggerProofs.

(** ** The range of the buyer's offers *)

Module BuyerRangeProofs.
Import Ai_negotiation NegotiationContext YourBuyerAgent.

Section Generic.
Context {F : PyFloat}.

Lemma bounds_of_product_and_budget (c c' : NegotiationContext.t) :
  product c = product c' -> your_budget c = your_budget c' -> _bounds c = _bounds c'.
Proof. intros Hp Hb. unfold _bounds. rewrite Hp, Hb. reflexivity. Qed.

Lemma clamped_counter_range (c : NegotiationContext.t) (sp : Z) :
  fst (_bounds c) <= clamped_counter c sp <= snd (_bounds c).
Proof.
  pose proof (BuyerProofs.bounds_ordered c) as [Ho Hw].
  unfold clamped_counter. destruct (_bounds c) as [opening walkaway].
  cbn [fst snd] in Ho, Hw |- *.
  lia.
Qed.

Lemma counter_offer_range (c : NegotiationContext.t) (sp : Z) :
  fst (_bounds c) <= counter_offer c sp
  <= Z.min (your_budget c) (snd (_bounds c) + MIN_STEP).
Proof.
  pose proof (clamped_counter_range c sp) as [Hlo Hhi].
  pose proof (BuyerProofs.clamped_counter_le_budget c sp) as Hb.
  unfold counter_offer, MIN_STEP.
  destruct (clamped_counter c sp =? last_my c); cbn [andb]; [ | lia ].
  destruct (clamped_counter c sp + 1000 <=? your_budget c) eqn:E;
    [ apply Z.leb_le in E | ]; lia.
Qed.

Lemma nudge_range (c : NegotiationContext.t) :
  fst (_bounds c) <= nudge c <= your_budget c.
Proof.
  pose proof (BuyerProofs.bounds_ordered c) as [Ho Hw].
  unfold nudge. destruct (_bounds c) as [opening walkaway].
  cbn [fst snd] in Ho, Hw |- *. lia.
Qed.

(** Every counter-offer of [YourBuyerAgent] to a numeric seller price
    lies between its opening offer and the smaller of its budget and its
    walk-away price plus [MIN_STEP]; from round 10 on it accepts any
    seller price within budget, also one above the walk-away price. *)
Theorem counter_offer_between_opening_and_walkaway
    (self self' : YourBuyerAgent.t) (c : NegotiationContext.t)
    (sp : Z) (status : DealStatus) (p : Z) :
  respond_to_seller_offer self c (Some sp) = (self', (status, p)) ->
  (status = ONGOING ->
   fst (_bounds c) <= p <= Z.min (your_budget c) (snd (_bounds c) + MIN_STEP))
  /\ (status = ACCEPTED -> p = sp /\ sp <= your_budget c)
  /\ (10 <= current_round c -> sp <= your_budget c -> status = ACCEPTED)
  /\ (status = ONGOING \/ status = ACCEPTED).
Proof.
  intro H.
  destruct (BuyerProofs.respond_cases self c (Some sp))
    as [(x & Hx & E & Hle) | [(x & Hx & E) | (Hx & _)]]; try discriminate;
    injection Hx as <-; rewrite H in E; simpl in E; injection E as -> ->.
  - repeat split; try discriminate; auto.
  - split; [ intros _; apply counter_offer_range | ].
    split; [ discriminate | ]. split; [ | left; reflexivity ].
    intros Hr Hb. exfalso.
    unfold respond_to_seller_offer in H.
    match type of H with
    | context [accepts c ?e sp] => assert (Ha : accepts c e sp = true)
    end.
    { unfold accepts. destruct (_bounds c) as [opening walkaway].
      apply Z.leb_le in Hr, Hb. rewrite Hr, Hb. reflexivity. }
    rewrite Ha in H. discriminate.
Qed.
End Generic.

Section Sessions.
Import Scenarios.
#[local] Existing Instance Exact.arith.

(** Round 5 of [stubborn_conversation]: the buyer counters 200000 with
    180000, its walk-away price, above its opening offer 152000. *)
Lemma counter_offer_range_witness :
  fst (_bounds stubborn_round_5) <= 180000
  <= Z.min (your_budget stubborn_round_5) (snd (_bounds stubborn_round_5) + MIN_STEP).
Proof.
  apply (counter_offer_between_opening_and_walkaway
           charming_buyer
           (fst (respond_to_seller_offer charming_buyer stubborn_round_5 (Some 200000)))
           stubborn_round_5 200000 ONGOING 180000).
  - vm_compute. reflexivity.
  - reflexivity.
Defined.
End Sessions.
End BuyerRangeProofs.

(** ** A deal before the last rounds *)

Module DealProofs.
Import Ai_negotiation NegotiationContext ConversationManager Invariants DealInvariants.
Import ManagerProofs.

Section Generic.
Context {B S : Type} {buyer_class : BuyerAgent B} {seller_class : SellerAgent S}.

(** A loop whose body keeps an invariant and raises nothing returns. *)
Lemma loop_returns_with (P : ConversationManager.t B S -> Prop) :
  (forall cm, P cm -> loop_test cm = true -> exists cm', loop_body cm = Ok cm' /\ P cm') ->
  forall (fuel : nat) (cm : ConversationManager.t B S),
    P cm -> (Z.to_nat (max_rounds - round_number cm) <= fuel)%nat ->
    exists cm', negotiation_loop fuel cm = Returned cm' /\ P cm' /\ loop_test cm' = false.
Proof.
  intros Hstep fuel. induction fuel as [ | fuel IH ]; intros cm HP Hf.
  - pose proof (ManagerProofs.loop_terminates 0 cm Hf) as Hterm. simpl in Hterm |- *.
    destruct (loop_test cm) eqn:E; [ congruence | eauto ].
  - simpl. destruct (loop_test cm) eqn:Et; [ | eauto ].
    destruct (Hstep cm HP Et) as (cm1 & E1 & HP1). rewrite E1.
    apply IH; [ exact HP1 | ].
    rewrite (ManagerProofs.loop_body_round _ _ E1). unfold max_rounds in Hf |- *. lia.
Qed.
End Generic.

Lemma add_turn_context_product {B S : Type} (cm : ConversationManager.t B S)
    (who : Speaker) (p : option Z) :
  NegotiationContext.product (context (_add_turn cm who p))
  = NegotiationContext.product (context cm).
Proof.
  unfold _add_turn. destruct who, p as [v | ]; simpl; try reflexivity;
    destruct (negb (v =? 0)); reflexivity.
Qed.

Ltac context_product :=
  repeat progress
    (rewrite ?add_turn_context_product;
     cbn [context with_final_price with_deal_status with_seller_agent
          with_buyer_agent with_context with_round_number]).

Section Concrete.
Context {F : PyFloat}.

(** The seller raises nothing when its minimum price is not 0; it keeps
    its minimum price, never counters below it, accepts only the
    buyer's offer, and from round 8 on accepts every offer at or above
    its minimum. *)
Lemma seller_accepts_late (self : AdvancedSellerAgent.t) (buyer_offer round_num : Z) :
  AdvancedSellerAgent.min_price self <> 0 ->
  exists self' price accepted,
    AdvancedSellerAgent.respond_to_buyer self buyer_offer round_num
    = Ok (self', (price, accepted))
    /\ AdvancedSellerAgent.min_price self' = AdvancedSellerAgent.min_price self
    /\ (accepted = true -> price = buyer_offer)
    /\ (accepted = false -> AdvancedSellerAgent.min_price self <= price)
    /\ (8 <= round_num -> AdvancedSellerAgent.min_price self <= buyer_offer ->
        accepted = true).
Proof.
  intro Hm. unfold AdvancedSellerAgent.respond_to_buyer.
  cbn [AdvancedSellerAgent.min_price AdvancedSellerAgent.with_rounds_passed
       AdvancedSellerAgent.strategy].
  destruct (AdvancedSellerAgent.min_price self =? 0) eqn:E0;
    [ apply Z.eqb_eq in E0; contradiction | ].
  destruct (AdvancedSellerAgent.rates (AdvancedSellerAgent.strategy self))
    as [threshold rate].
  match goal with
  | |- context [if ?c then _ else _] => destruct c eqn:Eacc
  end.
  - eexists _, _, _. split; [ reflexivity | ]. simpl.
    repeat split; try reflexivity; try discriminate.
  - eexists _, _, _. split; [ reflexivity | ]. simpl.
    split; [ reflexivity | ]. split; [ discriminate | ]. split.
    + intros _. destruct (9 <=? round_num); [ lia | ].
      destruct (7 <=? round_num); lia.
    + intros Hr Ho. apply Z.leb_le in Hr, Ho. rewrite Hr, Ho in Eacc.
      rewrite orb_true_r in Eacc. discriminate.
Qed.

(** The buyer's move in a round is within budget and, when it continues,
    not below its opening offer. *)
Lemma buyer_move_at_least_opening
    (cm : ConversationManager.t YourBuyerAgent.t AdvancedSellerAgent.t)
    (b : YourBuyerAgent.t) (status : DealStatus) (offer : Z) :
  buyer_move cm = (b, (status, offer)) ->
  status = ONGOING -> fst (YourBuyerAgent._bounds (context cm)) <= offer.
Proof.
  unfold buyer_move. destruct (round_number cm =? 1).
  - change (@generate_opening_offer _ YourBuyerAgent_is_buyer)
      with YourBuyerAgent.generate_opening_offer.
    unfold YourBuyerAgent.generate_opening_offer.
    destruct (YourBuyerAgent._bounds (context cm)) as [opening walkaway].
    intros H _. injection H as _ _ <-. simpl. lia.
  - change (@respond_to_seller_offer _ YourBuyerAgent_is_buyer)
      with YourBuyerAgent.respond_to_seller_offer.
    intros H ->.
    destruct (BuyerProofs.respond_cases (buyer_agent cm) (context cm)
                (last_offer (seller_offers (context cm))))
      as [(sp & _ & Hr & _) | [(sp & _ & Hr) | (_ & Hr)]];
      rewrite H in Hr; simpl in Hr; try discriminate; injection Hr as ->.
    + apply BuyerRangeProofs.counter_offer_range.
    + apply BuyerRangeProofs.nudge_range.
Qed.

Lemma loop_body_early_deal (floor budget : Z) (product : Product.t)
    (cm : ConversationManager.t YourBuyerAgent.t AdvancedSellerAgent.t) :
  0 < floor ->
  floor <= fst (YourBuyerAgent._bounds (context cm)) ->
  early_deal_invariant floor product budget cm -> loop_test cm = true ->
  exists cm', loop_body cm = Ok cm' /\ early_deal_invariant floor product budget cm'.
Proof.
  intros Hfloor Hopen (Hprod & Hbud & Hmin & Hround & Hst) Ht.
  unfold loop_test in Ht. apply andb_prop in Ht. destruct Ht as [Hong _].
  destruct Hst as [(_ & Hfin & Hseven & Hlast) | (Hacc & _)];
    [ | rewrite Hacc in Hong; discriminate ].
  assert (Hreturns : exists cm', loop_body cm = Ok cm').
  { unfold loop_body.
    match goal with
    | |- context [let '(self, buyer_offer) := ?m in _] =>
        destruct m as [cmB offer] eqn:Em
    end.
    destruct (DealStatus_eqb _ ACCEPTED); [ eexists; reflexivity | ].
    assert (Hs : AdvancedSellerAgent.min_price
                   (seller_agent (_add_turn cmB buyer (Some offer)))
                 = AdvancedSellerAgent.min_price (seller_agent cm)).
    { rewrite ManagerProofs.add_turn_seller_agent.
      cbn [round_number with_round_number with_context] in Em.
      destruct (round_number cm + 1 =? 1).
      - destruct (generate_opening_offer _ _) as [b o]. injection Em as <- _. reflexivity.
      - destruct (respond_to_seller_offer _ _ _) as [b [st o]].
        injection Em as <- _. reflexivity. }
    destruct (seller_accepts_late (seller_agent (_add_turn cmB buyer (Some offer)))
                offer (round_number (_add_turn cmB buyer (Some offer)))
                ltac:(lia)) as (s0 & price0 & acc0 & Hans & _).
    change (@respond_to_buyer _ AdvancedSellerAgent_is_seller)
      with AdvancedSellerAgent.respond_to_buyer.
    rewrite Hans. simpl. destruct acc0; eexists; reflexivity. }
  destruct Hreturns as [cm' H]. exists cm'. split; [ exact H | ].
  destruct (ManagerProofs.loop_body_shape cm cm' H) as (b & status & offer & Hmove & Hc).
  destruct (ManagerProofs.buyer_move_cases _ _ _ _ Hmove) as [Hle Hstatus].
  pose proof (buyer_move_at_least_opening _ _ _ _ Hmove) as Hge.
  change (your_budget (context (enter_round cm))) with (your_budget (context cm)) in Hle.
  change (round_number (enter_round cm)) with (round_number cm + 1) in Hstatus.
  change (seller_offers (context (enter_round cm)))
    with (seller_offers (context cm)) in Hstatus.
  rewrite (BuyerRangeProofs.bounds_of_product_and_budget (context (enter_round cm))
             (context cm) eq_refl eq_refl) in Hge.
  rewrite Hbud in Hle.
  unfold early_deal_invariant.
  destruct Hc as [(-> & ->) | (Hn & s & price & accepted & Hresp & ->)].
  - destruct Hstatus as [ | (_ & Hr1 & Hoffer)]; [ discriminate | ].
    destruct (Hlast ltac:(lia)) as (p & Hp & Hfp).
    rewrite Hp in Hoffer. injection Hoffer as ->.
    fields. rewrite Hp.
    split; [ context_product; exact Hprod | ]. split; [ exact Hbud | ]. split; [ exact Hmin | ].
    split; [ lia | ].
    right. split; [ reflexivity | ]. split; [ lia | ].
    exists offer. split; [ reflexivity | lia ].
  - destruct Hstatus as [-> | (-> & _)]; [ | congruence ].
    specialize (Hge eq_refl).
    destruct (seller_accepts_late (seller_agent cm) offer (round_number cm + 1)
                ltac:(lia)) as (s0 & price0 & acc0 & Hans & Hmin' & Hacc & Hcounter & Hlate).
    change (@respond_to_buyer _ AdvancedSellerAgent_is_seller)
      with AdvancedSellerAgent.respond_to_buyer in Hresp.
    rewrite Hans in Hresp. injection Hresp as <- <- <-.
    rewrite Hmin in Hmin', Hcounter, Hlate.
    destruct acc0.
    + specialize (Hacc eq_refl). subst price0. fields.
      split; [ context_product; exact Hprod | ]. split; [ exact Hbud | ]. split; [ exact Hmin' | ].
      split; [ lia | ].
      right. split; [ reflexivity | ]. split; [ lia | ].
      exists offer. split; [ reflexivity | lia ].
    + specialize (Hcounter eq_refl).
      assert (Hearly : round_number cm + 1 <= 7).
      { destruct (Z_le_gt_dec 8 (round_number cm + 1)) as [Hl | ]; [ | lia ].
        specialize (Hlate Hl ltac:(lia)). discriminate. }
      fields. rewrite add_turn_seller_offers by lia. fields.
      split; [ context_product; exact Hprod | ]. split; [ exact Hbud | ]. split; [ exact Hmin' | ].
      split; [ lia | ].
      left. split; [ reflexivity | ]. split; [ assumption | ]. split; [ lia | ].
      intros _. exists price0. rewrite ManagerProofs.last_offer_snoc.
      split; [ reflexivity | lia ].
Qed.

(** When the seller's minimum price is positive and at most the buyer's
    opening offer, and the market price is not 0, the session between
    [YourBuyerAgent] and [AdvancedSellerAgent] returns with a deal: it
    is [ACCEPTED] in round 8 at the latest, at a price between the
    seller's minimum and the buyer's budget. *)
Theorem deal_by_round_8_when_floor_at_most_opening
    (buyer0 : YourBuyerAgent.t) (seller0 : AdvancedSellerAgent.t)
    (product : Product.t) (budget : Z) (fuel : nat) :
  0 < AdvancedSellerAgent.min_price seller0 ->
  AdvancedSellerAgent.min_price seller0
  <= fst (YourBuyerAgent._bounds (context (init buyer0 seller0 product budget))) ->
  Product.base_market_price product <> 0 ->
  (10 <= fuel)%nat ->
  exists cm p,
    start_conversation fuel (init buyer0 seller0 product budget) = Returned cm
    /\ deal_status cm = ACCEPTED
    /\ final_price cm = Some p
    /\ AdvancedSellerAgent.min_price seller0 <= p <= budget
    /\ 1 <= round_number cm <= 8.
Proof.
  intros Hfloor Hopen Hmarket Hfuel. unfold start_conversation.
  set (floor := AdvancedSellerAgent.min_price seller0) in *.
  set (cm0 := init buyer0 seller0 product budget) in *.
  set (P := fun cm : ConversationManager.t YourBuyerAgent.t AdvancedSellerAgent.t =>
              early_deal_invariant floor product budget cm
              /\ buyer_budget cm = budget
              /\ ConversationManager.product cm = product).
  assert (Hstep : forall cm, P cm -> loop_test cm = true ->
                             exists cm', loop_body cm = Ok cm' /\ P cm').
  { intros cm (Hinv & Hb & Hp) Ht.
    destruct (loop_body_early_deal floor budget product cm Hfloor) as (cm' & H & Hinv');
      try assumption.
    - destruct Hinv as (Hprod & Hbud & _).
      rewrite (BuyerRangeProofs.bounds_of_product_and_budget (context cm) (context cm0));
        [ exact Hopen | exact Hprod | exact Hbud ].
    - exists cm'. split; [ exact H | ]. split; [ exact Hinv' | ].
      destruct (loop_body_frame cm cm' H) as [E1 E2]. split; congruence. }
  set (cm1 := _add_turn cm0 seller _).
  assert (H1 : P cm1).
  { split; [ | split; reflexivity ].
    unfold early_deal_invariant, cm1.
    split; [ rewrite add_turn_context_product; reflexivity | ].
    split; [ rewrite add_turn_your_budget; reflexivity | ].
    split; [ reflexivity | ]. split; [ simpl; lia | ].
    left. split; [ reflexivity | ]. split; [ reflexivity | ].
    split; [ simpl; lia | ]. simpl. lia. }
  destruct (loop_returns_with P Hstep fuel cm1 H1)
    as (cmL & EL & ((_ & _ & _ & _ & Hst) & Hb & Hp) & Hexit).
  { unfold max_rounds. simpl. lia. }
  rewrite EL.
  destruct Hst as [(Hong & _ & Hseven & _) | (Hacc & Hround & p & Hfin & Hrange)].
  - unfold loop_test, max_rounds in Hexit. rewrite Hong in Hexit. simpl in Hexit.
    apply Z.ltb_ge in Hexit. lia.
  - rewrite Hacc. simpl. unfold _print_final_summary. rewrite Hacc, Hb, Hp. simpl.
    destruct (budget =? 0) eqn:E0; [ apply Z.eqb_eq in E0; lia | ].
    destruct (Product.base_market_price product =? 0) eqn:E1;
      [ apply Z.eqb_eq in E1; contradiction | ].
    exists cmL, p. repeat split; try assumption; lia.
Qed.
End Concrete.

Section Sessions.
Import Scenarios.
#[local] Existing Instance Exact.arith.

(** [run_full_conversation]: the seller's minimum 160000 is below the
    buyer's opening offer 164000. *)
Lemma deal_by_round_8_witness :
  exists cm p,
    start_conversation 10 full_conversation = Returned cm
    /\ deal_status cm = ACCEPTED
    /\ final_price cm = Some p
    /\ 160000 <= p <= 190000
    /\ 1 <= round_number cm <= 8.
Proof.
  apply (deal_by_round_8_when_floor_at_most_opening
           charming_buyer (advanced_seller 160000 "balanced") (alphonso "Export")
           190000 10%nat).
  - reflexivity.
  - vm_compute. discriminate.
  - discriminate.
  - apply le_n.
Defined.
End Sessions.
End DealProofs.

(** ** The conversation templates *)

Module TemplateProofs.
Import Ai_negotiation Ai_negotiation_templates.

Lemma scale_mono_wide_exact : scale_mono_wide_law (F := Exact.arith).
Proof.
  intros m [cn cd] [dn dd] Hm _ Hcd _. unfold int_mul. simpl.
  apply ExactLaws.Qtrunc_mono.
  unfold Qle in Hcd. unfold Qle. simpl in Hcd. simpl. nia.
Qed.

Section Generic.
Context {F : PyFloat}.

Lemma get_products_db (quality key : string) (product : Product.t) :
  get (products_db quality) key = Some product ->
  Product.quality_grade product = quality
  /\ 0 <= Product.base_market_price product.
Proof.
  unfold products_db, get.
  repeat match goal with
         | |- context [String.eqb ?k key] => destruct (String.eqb k key)
         end;
    intro H; try discriminate; injection H as <-; simpl; split; (reflexivity || lia).
Qed.

(** Every predefined scenario leaves room for a deal: whatever the
    product name, the quality and the difficulty, the seller's minimum
    is at most the buyer's budget, and the product carries the quality
    asked for. *)
Theorem scenario_floor_at_most_budget (mono : scale_mono_wide_law)
    (product_name quality scenario_difficulty : string) :
  let '(product, buyer_budget, seller_min) :=
    create_conversation_scenario product_name quality scenario_difficulty in
  seller_min <= buyer_budget /\ Product.quality_grade product = quality.
Proof.
  unfold create_conversation_scenario.
  set (product :=
         match get (products_db quality) (spaces_to_underscores (lower product_name)) with
         | Some product => product
         | None => _
         end).
  assert (Hp : Product.quality_grade product = quality
               /\ 0 <= Product.base_market_price product).
  { unfold product.
    destruct (get (products_db quality) (spaces_to_underscores (lower product_name)))
      as [p | ] eqn:E.
    - eapply get_products_db; eassumption.
    - simpl. split; (reflexivity || lia). }
  destruct Hp as [Hq Hm].
  destruct (String.eqb scenario_difficulty "easy");
    [ | destruct (String.eqb scenario_difficulty "medium");
        [ | destruct (String.eqb scenario_difficulty "hard") ] ];
    (split; [ apply mono; [ exact Hm | discriminate .. ] | assumption ]).
Qed.
End Generic.

(** The hard scenario for black pepper of grade B: a budget of 237500
    against a minimum of 220000. *)
Lemma scenario_witness :
  let '(product, buyer_budget, seller_min) :=
    create_conversation_scenario (F := Exact.arith) "Black Pepper" "B" "hard" in
  seller_min <= buyer_budget /\ Product.quality_grade product = "B".
Proof.
  exact (scenario_floor_at_most_budget (F := Exact.arith) scale_mono_wide_exact
           "Black Pepper" "B" "hard").
Defined.
End TemplateProofs.

(** ** The price patterns of the interactive mode *)

Module PatternProofs.
Import Ai_negotiation_interactive.

(** *** Runs and matches *)

Lemma run_accepted (cls : symbol -> bool) (s : list symbol) :
  forall (cap : option nat) (k : nat),
    (k <= run cls cap s)%nat -> Forall (fun c => cls c = true) (firstn k s).
Proof.
  induction s as [ | c s IH ]; intros cap k Hk.
  - destruct k; constructor || (simpl in Hk; lia).
  - destruct k as [ | k ]; [ constructor | ].
    simpl in Hk. destruct (cls c) eqn:Ec; [ | lia ].
    simpl. constructor; [ exact Ec | ].
    destruct cap as [ [ | n ] | ]; try lia; eapply IH with (cap := _); apply le_S_n, Hk.
Qed.

Lemma backtrack_eq (rest : list symbol -> option (list symbol)) (it : item)
    (s : list symbol) (k : nat) :
  backtrack rest it s k
  = if (k <? at_least it)%nat then None
    else
      match rest (skipn k s) with
      | Some g => Some ((if in_group it then firstn k s else []) ++ g)%list
      | None =>
          match k with
          | O => None
          | Datatypes.S k' => backtrack rest it s k'
          end
      end.
Proof. destruct k; reflexivity. Qed.

Lemma run_capped (cls : symbol -> bool) (n : nat) (s : list symbol) :
  (run cls (Some n) s <= n)%nat.
Proof.
  revert n. induction s as [ | c s IH ]; intro n; simpl; [ lia | ].
  destruct (cls c); [ | lia ]. destruct n; [ lia | ]. apply le_n_S, IH.
Qed.

Lemma run_all (cls : symbol -> bool) (g after : list symbol) :
  Forall (fun c => cls c = true) g ->
  (forall c after', after = c :: after' -> cls c = false) ->
  run cls None (g ++ after) = List.length g.
Proof.
  intros Hg Hafter. induction Hg as [ | c g Hc Hg IH ]; simpl.
  - destruct after as [ | c after' ]; [ reflexivity | ].
    simpl. rewrite (Hafter c after' eq_refl). reflexivity.
  - rewrite Hc, IH. reflexivity.
Qed.

Lemma run_once (cls : symbol -> bool) (c : symbol) (s : list symbol) :
  cls c = true -> run cls (Some 1%nat) (c :: s) = 1%nat.
Proof.
  intro H. cbn [run]. rewrite H. f_equal.
  pose proof (run_capped cls 0 s). lia.
Qed.

(** What [backtrack] gives: some [k] characters of the class, at least
    [at_least], and the group of the rest. *)
Lemma backtrack_some (rest : list symbol -> option (list symbol)) (it : item)
    (s : list symbol) (g : list symbol) :
  forall k0 : nat,
    (k0 <= run (accepted it) (at_most it) s)%nat ->
    backtrack rest it s k0 = Some g ->
    exists k g',
      (at_least it <= k <= k0)%nat
      /\ Forall (fun c => accepted it c = true) (firstn k s)
      /\ rest (skipn k s) = Some g'
      /\ g = ((if in_group it then firstn k s else []) ++ g')%list.
Proof.
  induction k0 as [ | k0 IH ]; intros Hk H; rewrite backtrack_eq in H.
  - destruct (0 <? at_least it)%nat eqn:E; [ discriminate | ].
    apply Nat.ltb_ge in E.
    destruct (rest (skipn 0 s)) as [g' | ] eqn:Er; [ | discriminate ].
    injection H as <-. exists O, g'. repeat split; try lia; auto.
  - destruct (Datatypes.S k0 <? at_least it)%nat eqn:E; [ discriminate | ].
    apply Nat.ltb_ge in E.
    destruct (rest (skipn (Datatypes.S k0) s)) as [g' | ] eqn:Er.
    + injection H as <-. exists (Datatypes.S k0), g'. repeat split; try lia; auto.
      eapply run_accepted; eassumption.
    + destruct (IH ltac:(lia) H) as (k & g' & Hr & Hf & Hrest & Hg).
      exists k, g'. repeat split; try lia; assumption.
Qed.

Lemma match_here_cons (it : item) (pattern : list item) (s g : list symbol) :
  match_here (it :: pattern) s = Some g ->
  exists k g',
    (at_least it <= k <= run (accepted it) (at_most it) s)%nat
    /\ Forall (fun c => accepted it c = true) (firstn k s)
    /\ match_here pattern (skipn k s) = Some g'
    /\ g = ((if in_group it then firstn k s else []) ++ g')%list.
Proof. intro H. simpl in H. eapply backtrack_some; [ | exact H ]. lia. Qed.

(** The greedy choice is taken when the rest of the pattern matches
    after it. *)
Lemma match_here_greedy (it : item) (pattern : list item) (s g' : list symbol) :
  (at_least it <= run (accepted it) (at_most it) s)%nat ->
  match_here pattern (skipn (run (accepted it) (at_most it) s) s) = Some g' ->
  match_here (it :: pattern) s
  = Some ((if in_group it then firstn (run (accepted it) (at_most it) s) s else [])
          ++ g')%list.
Proof.
  intros Hk Hrest. cbn [match_here]. rewrite backtrack_eq.
  replace (run (accepted it) (at_most it) s <? at_least it)%nat with false
    by (symmetry; apply Nat.ltb_ge; lia).
  rewrite Hrest. reflexivity.
Qed.

(** The same with the characters taken written out. *)
Lemma match_here_take (it : item) (pattern : list item) (taken s' g' : list symbol) :
  run (accepted it) (at_most it) (taken ++ s') = List.length taken ->
  (at_least it <= List.length taken)%nat ->
  match_here pattern s' = Some g' ->
  match_here (it :: pattern) (taken ++ s')
  = Some ((if in_group it then taken else []) ++ g')%list.
Proof.
  intros Hrun Hk Hrest.
  rewrite (match_here_greedy it pattern (taken ++ s') g'); rewrite Hrun.
  - rewrite firstn_app, firstn_all.
    replace (List.length taken - List.length taken)%nat with O by lia.
    cbn [firstn]. rewrite app_nil_r. reflexivity.
  - exact Hk.
  - rewrite skipn_app, skipn_all.
    replace (List.length taken - List.length taken)%nat with O by lia.
    exact Hrest.
Qed.

Lemma search_some (pattern : list item) (text g : list symbol) :
  search pattern text = Some g ->
  exists before s, text = (before ++ s)%list /\ match_here pattern s = Some g.
Proof.
  induction text as [ | c text IH ]; simpl.
  - destruct (match_here pattern []) as [g0 | ] eqn:E; [ | discriminate ].
    intro H. injection H as <-. exists [], []. auto.
  - destruct (match_here pattern (c :: text)) as [g0 | ] eqn:E.
    + intro H. injection H as <-. exists [], (c :: text). auto.
    + intro H. destruct (IH H) as (before & s & -> & Hs).
      exists (c :: before), s. auto.
Qed.

(** [search] passes over a prefix at which the pattern matches
    nowhere. *)
Lemma search_skip (pattern : list item) (before s : list symbol) :
  (forall b1 b2, before = (b1 ++ b2)%list -> b2 <> [] ->
                 match_here pattern (b2 ++ s) = None) ->
  search pattern (before ++ s) = search pattern s.
Proof.
  induction before as [ | c before IH ]; intro Hno; [ reflexivity | ].
  change (search pattern ((c :: before) ++ s))
    with (match match_here pattern ((c :: before) ++ s) with
          | Some g => Some g
          | None => search pattern (before ++ s)
          end).
  rewrite (Hno [] (c :: before) eq_refl ltac:(discriminate)).
  apply IH. intros b1 b2 -> Hb2. apply (Hno (c :: b1) b2 eq_refl Hb2).
Qed.

Lemma search_here (pattern : list item) (s g : list symbol) :
  match_here pattern s = Some g -> search pattern s = Some g.
Proof. intro H. destruct s; simpl; rewrite H; reflexivity. Qed.

(** A pattern that begins with at least one character of a class
    matches only where such a character stands. *)
Lemma match_here_head (it : item) (pattern : list item) (s g : list symbol) :
  (1 <= at_least it)%nat ->
  match_here (it :: pattern) s = Some g ->
  exists c s', s = c :: s' /\ accepted it c = true.
Proof.
  intros H1 H. destruct (match_here_cons _ _ _ _ H) as (k & g' & Hk & Hf & _).
  destruct k as [ | k ]; [ lia | ].
  destruct s as [ | c s' ]; [ simpl in Hk; lia | ].
  simpl in Hf. inversion Hf; subst. eauto.
Qed.

(** *** The groups of the three patterns *)

Lemma rupee_pattern_group (s g : list symbol) :
  match_here rupee_pattern s = Some g ->
  Forall (fun c => digit_or_comma c = true) g
  /\ exists s', s = Rupee :: s'.
Proof.
  intro H.
  destruct (match_here_head (once is_rupee false) _ _ _ (le_n 1) H)
    as (c & s' & -> & Hc).
  destruct c; try discriminate. split; [ | eauto ].
  destruct (match_here_cons _ _ _ _ H) as (k1 & g1 & _ & _ & H1 & ->).
  destruct (match_here_cons _ _ _ _ H1) as (k2 & g2 & _ & _ & H2 & ->).
  destruct (match_here_cons _ _ _ _ H2) as (k3 & g3 & _ & Hf & H3 & ->).
  simpl in H3. injection H3 as <-. simpl. rewrite app_nil_r. exact Hf.
Qed.

Lemma four_digits_group (s g : list symbol) :
  match_here long_number_pattern s = Some g ->
  Forall (fun c => is_digit c = true) g
  /\ (4 <= List.length g)%nat
  /\ (4 <= run is_digit None s)%nat.
Proof.
  intro H.
  destruct (match_here_cons _ _ _ _ H) as (k & g' & Hk & Hf & H1 & ->).
  simpl in H1. injection H1 as <-.
  cbn [from at_least at_most accepted in_group] in Hk, Hf |- *. rewrite app_nil_r.
  split; [ exact Hf | ]. split; [ | lia ].
  rewrite length_firstn. apply Nat.min_glb; [ lia | ].
  assert (Hrun : forall cap t, (run is_digit cap t <= List.length t)%nat).
  { intros cap t. revert cap. induction t as [ | c t IH ]; intro cap; simpl; [ lia | ].
    destruct (is_digit c); [ | lia ].
    destruct cap as [ [ | n ] | ]; try lia; apply le_n_S, IH. }
  specialize (Hrun None s). lia.
Qed.

Lemma comma_pattern_group (s g : list symbol) :
  match_here comma_pattern s = Some g ->
  exists a b,
    g = (a ++ Comma :: b)%list
    /\ a <> [] /\ b <> []
    /\ Forall (fun c => is_digit c = true) a
    /\ Forall (fun c => is_digit c = true) b
    /\ In Comma s.
Proof.
  intro H.
  destruct (match_here_cons _ _ _ _ H) as (k1 & g1 & Hk1 & Hf1 & H1 & ->).
  destruct (match_here_head (once is_comma true) _ _ _ (le_n 1) H1)
    as (c & s' & Es & Hc).
  destruct c; try discriminate.
  destruct (match_here_cons _ _ _ _ H1) as (k2 & g2 & Hk2 & Hf2 & H2 & ->).
  destruct (match_here_cons _ _ _ _ H2) as (k3 & g3 & Hk3 & Hf3 & H3 & ->).
  simpl in H3. injection H3 as <-.
  cbn [from once at_least at_most accepted in_group] in *. rewrite app_nil_r.
  assert (Hin : In Comma s).
  { rewrite <- (firstn_skipn k1 s), Es. apply in_or_app. right. left. reflexivity. }
  pose proof (run_capped is_comma 1 (skipn k1 s)) as Hcap.
  assert (k2 = 1%nat) by lia. subst k2.
  rewrite Es in *. cbn [firstn skipn] in *.
  exists (firstn k1 s), (firstn k3 s').
  repeat split; try assumption.
  - destruct s as [ | x s ]; [ rewrite skipn_nil in Es; discriminate | ].
    destruct k1; [ lia | discriminate ].
  - destruct s' as [ | x s' ]; [ simpl in Hk3; lia | ].
    destruct k3; [ lia | discriminate ].
Qed.

(** *** Reading the digits *)

Lemma digits_value_some (g : list symbol) :
  Forall (fun c => is_digit c = true) g ->
  forall acc, 0 <= acc -> exists v, digits_value acc g = Some v /\ 0 <= v.
Proof.
  induction 1 as [ | c g Hc Hg IH ]; intros acc Hacc; cbn [digits_value].
  - eauto.
  - destruct c; try discriminate. apply IH. lia.
Qed.

Lemma without_commas_digits (g : list symbol) :
  Forall (fun c => is_digit c = true) g -> without_commas g = g.
Proof.
  induction 1 as [ | c g Hc Hg IH ]; simpl; [ reflexivity | ].
  destruct c; try discriminate. simpl. f_equal. exact IH.
Qed.

Lemma without_commas_app (a b : list symbol) :
  without_commas (a ++ b) = (without_commas a ++ without_commas b)%list.
Proof. apply filter_app. Qed.

Lemma without_commas_all_digits (g : list symbol) :
  Forall (fun c => digit_or_comma c = true) g ->
  Forall (fun c => is_digit c = true) (without_commas g).
Proof.
  induction 1 as [ | c g Hc Hg IH ]; simpl; [ constructor | ].
  destruct c; try discriminate; simpl; auto.
Qed.

Lemma int_of_digits_nonneg (g : list symbol) (p : Z) :
  Forall (fun c => is_digit c = true) g -> int_of_digits g = Some p -> 0 <= p.
Proof.
  intros Hg H. destruct g as [ | c g ]; [ discriminate | ].
  unfold int_of_digits in H.
  destruct (digits_value_some _ Hg 0 ltac:(lia)) as (v & Hv & Hpos). congruence.
Qed.

Lemma int_of_digits_some (g : list symbol) :
  Forall (fun c => is_digit c = true) g -> g <> [] ->
  exists p, int_of_digits g = Some p /\ 0 <= p.
Proof.
  intros Hg Hne. destruct g as [ | c g ]; [ contradiction | ].
  apply (digits_value_some _ Hg 0). lia.
Qed.

Lemma search_rupee_needs_rupee (text g : list symbol) :
  search rupee_pattern text = Some g ->
  Forall (fun c => digit_or_comma c = true) g /\ In Rupee text.
Proof.
  intro H. destruct (search_some _ _ _ H) as (before & s & -> & Hs).
  destruct (rupee_pattern_group _ _ Hs) as (Hg & s' & ->).
  split; [ exact Hg | ]. apply in_or_app. right. left. reflexivity.
Qed.

(** A price read from a line is not negative. *)
Lemma price_read_nonneg (text : list symbol) (p : Z) :
  _extract_price_from_input text = Price p -> 0 <= p.
Proof.
  unfold _extract_price_from_input, price_patterns. cbn [first_price].
  destruct (search rupee_pattern text) as [g1 | ] eqn:E1.
  { destruct (search_rupee_needs_rupee _ _ E1) as [Hg _].
    destruct (int_of_digits (without_commas g1)) as [v | ] eqn:Ev; [ | discriminate ].
    intro H. injection H as <-.
    eapply int_of_digits_nonneg; [ | exact Ev ]. apply without_commas_all_digits, Hg. }
  destruct (search long_number_pattern text) as [g2 | ] eqn:E2.
  { destruct (search_some _ _ _ E2) as (before & s & -> & Hs).
    destruct (four_digits_group _ _ Hs) as (Hg & _ & _).
    rewrite (without_commas_digits _ Hg).
    destruct (int_of_digits g2) as [v | ] eqn:Ev; [ | discriminate ].
    intro H. injection H as <-. eapply int_of_digits_nonneg; eassumption. }
  destruct (search comma_pattern text) as [g3 | ] eqn:E3; [ | discriminate ].
  destruct (search_some _ _ _ E3) as (before & s & -> & Hs).
  destruct (comma_pattern_group _ _ Hs) as (a & b & -> & Ha & Hb & Hfa & Hfb & _).
  rewrite without_commas_app. simpl. rewrite !without_commas_digits by assumption.
  destruct (int_of_digits (a ++ b)) as [v | ] eqn:Ev; [ | discriminate ].
  intro H. injection H as <-.
  eapply int_of_digits_nonneg; [ | exact Ev ]. apply Forall_app. auto.
Qed.

(** On a line within the limit of [int] on the number of digits, that
    is with at most 4300 digits: the price read from the line is never
    negative, and [int] raises [ValueError] only for a line with a rupee
    sign; it does so when the rupee sign is followed by commas only.
    (Beyond the limit [int] raises [ValueError] on the digits
    themselves, also without a rupee sign.) *)
Theorem extracted_price_is_not_negative (text : list symbol) :
  within_digit_limit text ->
  (forall p, _extract_price_from_input text = Price p -> 0 <= p)
  /\ (_extract_price_from_input text = ValueError -> In Rupee text)
  /\ (forall n : nat,
        _extract_price_from_input (Rupee :: repeat Comma (Datatypes.S n)) = ValueError).
Proof.
  intros _.
  split; [ apply price_read_nonneg | ].
  unfold _extract_price_from_input, price_patterns. cbn [first_price].
  split.
  - destruct (search rupee_pattern text) as [g1 | ] eqn:E1.
    { intros _. apply (search_rupee_needs_rupee _ _ E1). }
    destruct (search long_number_pattern text) as [g2 | ] eqn:E2.
    { destruct (search_some _ _ _ E2) as (before & s & -> & Hs).
      destruct (four_digits_group _ _ Hs) as (Hg & Hlen & _).
      rewrite (without_commas_digits _ Hg).
      destruct (int_of_digits_some g2 Hg) as (p & -> & _); [ | discriminate ].
      intros ->. simpl in Hlen. lia. }
    destruct (search comma_pattern text) as [g3 | ] eqn:E3; [ | discriminate ].
    destruct (search_some _ _ _ E3) as (before & s & -> & Hs).
    destruct (comma_pattern_group _ _ Hs) as (a & b & -> & Ha & Hb & Hfa & Hfb & _).
    rewrite without_commas_app. simpl. rewrite !without_commas_digits by assumption.
    destruct (int_of_digits_some (a ++ b)) as (p & -> & _); [ | | discriminate ].
    + apply Forall_app. auto.
    + destruct a; [ contradiction | discriminate ].
  - intro n.
    assert (Hrun : forall m, run digit_or_comma None (repeat Comma m) = m).
    { induction m; simpl; congruence. }
    assert (Hm : match_here rupee_pattern (Rupee :: repeat Comma (Datatypes.S n))
                 = Some (repeat Comma (Datatypes.S n))).
    { pose proof (match_here_take (from 1 digit_or_comma true) []
                    (repeat Comma (Datatypes.S n)) [] [])
        as H3.
      rewrite !app_nil_r in H3. cbn [from accepted at_most at_least in_group] in H3.
      specialize (H3 ltac:(rewrite Hrun, repeat_length; reflexivity)
                     ltac:(rewrite repeat_length; lia) eq_refl).
      pose proof (match_here_take (from 0 is_space false) _ []
                    (repeat Comma (Datatypes.S n)) _ eq_refl (Nat.le_0_l _) H3) as H2.
      apply (match_here_take (once is_rupee false) _ [Rupee] _ _
               (run_once is_rupee Rupee _ eq_refl) (le_n 1) H2). }
    rewrite (search_here _ _ _ Hm).
    assert (Hw : forall m, without_commas (repeat Comma m) = []).
    { induction m; simpl; auto. }
    rewrite Hw. reflexivity.
Qed.

(** *** Lines without a price *)

Lemma tails_suffix (before s : list symbol) : In s (tails (before ++ s)).
Proof.
  induction before as [ | c before IH ]; simpl.
  - destruct s; left; reflexivity.
  - right. exact IH.
Qed.

Lemma not_in_suffix (x : symbol) (before s : list symbol) :
  ~ In x (before ++ s) -> ~ In x s.
Proof. intros H Hin. apply H, in_or_app. right. exact Hin. Qed.

(** A line with no rupee sign, no comma and no run of four digits holds
    no price: a plain number below 1000 is not read. *)
Theorem short_plain_number_is_not_read (text : list symbol) :
  existsb is_rupee text = false ->
  existsb is_comma text = false ->
  no_four_digits text = true ->
  _extract_price_from_input text = NoPrice.
Proof.
  intros Hr Hc Hd.
  assert (Hnr : ~ In Rupee text).
  { intro Hin. assert (existsb is_rupee text = true)
      by (apply existsb_exists; exists Rupee; auto). congruence. }
  assert (Hnc : ~ In Comma text).
  { intro Hin. assert (existsb is_comma text = true)
      by (apply existsb_exists; exists Comma; auto). congruence. }
  unfold _extract_price_from_input, price_patterns. cbn [first_price].
  destruct (search rupee_pattern text) as [g1 | ] eqn:E1.
  { destruct (search_rupee_needs_rupee _ _ E1) as [_ Hin]. contradiction. }
  destruct (search long_number_pattern text) as [g2 | ] eqn:E2.
  { destruct (search_some _ _ _ E2) as (before & s & -> & Hs).
    destruct (four_digits_group _ _ Hs) as (_ & _ & Hrun).
    unfold no_four_digits in Hd. rewrite forallb_forall in Hd.
    specialize (Hd s (tails_suffix before s)). apply Nat.ltb_lt in Hd. lia. }
  destruct (search comma_pattern text) as [g3 | ] eqn:E3; [ | reflexivity ].
  destruct (search_some _ _ _ E3) as (before & s & -> & Hs).
  destruct (comma_pattern_group _ _ Hs) as (a & b & _ & _ & _ & _ & _ & Hin).
  exfalso. apply (not_in_suffix _ _ _ Hnc Hin).
Qed.

(** *** Reading back a printed price *)

(** The rupee pattern finds the digits and commas after the first rupee
    sign of the line. *)
Lemma rupee_pattern_reads (before sp g after : list symbol) :
  ~ In Rupee before ->
  Forall (fun c => is_space c = true) sp ->
  Forall (fun c => digit_or_comma c = true) g -> g <> [] ->
  (forall c after', after = c :: after' -> digit_or_comma c = false) ->
  search rupee_pattern (before ++ Rupee :: sp ++ g ++ after) = Some g.
Proof.
  intros Hb Hsp Hg Hne Hafter.
  rewrite search_skip.
  - apply search_here.
    assert (H3 : match_here [ from 1 digit_or_comma true ] (g ++ after) = Some g).
    { pose proof (match_here_take (from 1 digit_or_comma true) [] g after []) as H3.
      rewrite app_nil_r in H3. apply H3.
      - apply run_all; assumption.
      - destruct g; [ contradiction | simpl; lia ].
      - reflexivity. }
    assert (H2 : match_here [ from 0 is_space false; from 1 digit_or_comma true ]
                   (sp ++ g ++ after) = Some g).
    { apply (match_here_take (from 0 is_space false) _ sp (g ++ after) g);
        [ | apply Nat.le_0_l | exact H3 ].
      apply run_all; [ exact Hsp | ].
      intros c after' E. destruct g as [ | x g ]; [ contradiction | ].
      injection E as <- _. inversion Hg; subst.
      destruct x; (reflexivity || discriminate). }
    apply (match_here_take (once is_rupee false) _ [Rupee] _ _
             (run_once is_rupee Rupee _ eq_refl) (le_n 1) H2).
  - intros b1 b2 -> Hb2.
    destruct (match_here rupee_pattern (b2 ++ Rupee :: sp ++ g ++ after))
      as [g0 | ] eqn:E; [ | reflexivity ].
    destruct (rupee_pattern_group _ _ E) as (_ & s' & Es).
    destruct b2 as [ | c b2 ]; [ contradiction | ].
    injection Es as -> _. exfalso. apply Hb, in_or_app. right. left. reflexivity.
Qed.

Lemma digits_from_last_value (fuel : nat) :
  forall n : Z,
    0 <= n < 2 ^ Z.of_nat fuel ->
    value_from_last (digits_from_last fuel n) = n.
Proof.
  induction fuel as [ | fuel IH ]; intros n Hn.
  - simpl in Hn |- *. lia.
  - cbn [digits_from_last value_from_last fold_right].
    fold (value_from_last (if n <? 10 then [] else digits_from_last fuel (n / 10))).
    rewrite Z2Nat.id by (apply Z.mod_pos_bound; lia).
    destruct (n <? 10) eqn:E.
    + apply Z.ltb_lt in E. simpl. rewrite Z.mod_small by lia. lia.
    + apply Z.ltb_ge in E. rewrite IH.
      * pose proof (Z.div_mod n 10 ltac:(lia)). lia.
      * rewrite Nat2Z.inj_succ, Z.pow_succ_r in Hn by lia.
        split; [ apply Z.div_pos; lia | ].
        apply Z.div_lt_upper_bound; lia.
Qed.

Lemma digits_value_map (m : list nat) :
  forall acc : Z,
    digits_value acc (map Digit m)
    = Some (fold_left (fun a d => 10 * a + Z.of_nat d) m acc).
Proof.
  induction m as [ | d m IH ]; intro acc; [ reflexivity | ].
  cbn [map digits_value fold_left]. apply IH.
Qed.

Lemma int_of_digits_from_last (l : list nat) :
  l <> [] ->
  int_of_digits (map Digit (rev l)) = Some (value_from_last l).
Proof.
  intro Hl. unfold int_of_digits.
  destruct (map Digit (rev l)) as [ | c g ] eqn:E.
  - apply map_eq_nil in E. apply (f_equal (@rev nat)) in E.
    rewrite rev_involutive in E. contradiction.
  - rewrite <- E, digits_value_map. f_equal.
    unfold value_from_last.
    rewrite <- (fold_left_rev_right (fun d a => 10 * a + Z.of_nat d) (rev l) 0).
    rewrite rev_involutive. clear.
    induction l as [ | d l IH ]; [ reflexivity | ].
    cbn [fold_right]. rewrite IH. lia.
Qed.

Lemma without_commas_group (l : list nat) :
  forall seen : nat, without_commas (group_from_last l seen) = map Digit l.
Proof.
  induction l as [ | d l IH ]; intro seen; [ reflexivity | ].
  cbn [group_from_last]. destruct (seen =? 3)%nat; simpl; rewrite IH; reflexivity.
Qed.

Lemma group_digit_or_comma (l : list nat) :
  forall seen : nat,
    Forall (fun c => digit_or_comma c = true) (group_from_last l seen).
Proof.
  induction l as [ | d l IH ]; intro seen; [ constructor | ].
  cbn [group_from_last]. destruct (seen =? 3)%nat; repeat constructor; apply IH.
Qed.

Lemma without_commas_rev (g : list symbol) :
  without_commas (rev g) = rev (without_commas g).
Proof.
  induction g as [ | c g IH ]; [ reflexivity | ].
  simpl. rewrite without_commas_app, IH. simpl.
  destruct (is_comma c); simpl; rewrite ?app_nil_r; reflexivity.
Qed.

(** The price the program prints, [₹] and the digits grouped by commas,
    is read back as the same price, wherever it stands in a line whose
    earlier part has no rupee sign and whose later part does not go on
    with a digit or a comma. *)
Theorem printed_price_is_read_back (n : Z) (before after : list symbol) :
  0 <= n ->
  existsb is_rupee before = false ->
  match after with
  | [] => true
  | c :: _ => negb (digit_or_comma c)
  end = true ->
  _extract_price_from_input (before ++ rupees n ++ after) = Price n.
Proof.
  intros Hn Hb Hafter.
  assert (Hnr : ~ In Rupee before).
  { intro Hin. assert (existsb is_rupee before = true)
      by (apply existsb_exists; exists Rupee; auto). congruence. }
  unfold rupees.
  set (ds := digits_from_last (Datatypes.S (Z.to_nat (Z.log2 n))) n).
  assert (Hds : ds <> []) by (unfold ds; simpl; discriminate).
  assert (Hval : value_from_last ds = n).
  { apply digits_from_last_value. split; [ exact Hn | ].
    rewrite Nat2Z.inj_succ, Z2Nat.id by apply Z.log2_nonneg.
    destruct (Z.eq_dec n 0) as [-> | Hpos]; [ reflexivity | ].
    apply Z.log2_spec. lia. }
  set (g := rev (group_from_last ds 0)).
  assert (Hg : Forall (fun c => digit_or_comma c = true) g)
    by (apply Forall_rev, group_digit_or_comma).
  assert (Hne : g <> []).
  { unfold g. intro E. apply (f_equal (@rev symbol)) in E.
    rewrite rev_involutive in E. simpl in E.
    destruct ds as [ | d ds' ]; [ contradiction | ].
    simpl in E. discriminate. }
  unfold _extract_price_from_input, price_patterns. cbn [first_price].
  change (before ++ (Rupee :: g) ++ after)%list
    with (before ++ Rupee :: [] ++ g ++ after)%list.
  rewrite rupee_pattern_reads; try assumption; try constructor.
  - unfold g. rewrite without_commas_rev, without_commas_group, <- map_rev.
    rewrite int_of_digits_from_last by exact Hds. rewrite Hval. reflexivity.
  - intros c after' ->. simpl in Hafter. apply negb_true_iff. exact Hafter.
Qed.

(** *** Digits around commas *)

(** Of a number written with commas and without a rupee sign, in a line
    without a run of four digits, only the digits around the first comma
    are read: the digits after a second comma are dropped. *)
Theorem only_two_groups_are_read (a b rest : list symbol) :
  Forall (fun c => is_digit c = true) a -> a <> [] ->
  Forall (fun c => is_digit c = true) b -> b <> [] ->
  match rest with
  | [] => true
  | c :: _ => negb (is_digit c)
  end = true ->
  existsb is_rupee rest = false ->
  no_four_digits (a ++ Comma :: b ++ rest) = true ->
  exists p,
    int_of_digits (a ++ b) = Some p
    /\ _extract_price_from_input (a ++ Comma :: b ++ rest) = Price p.
Proof.
  intros Ha Hane Hb Hbne Hrest Hr Hd.
  destruct (int_of_digits_some (a ++ b)) as (p & Hp & _).
  { apply Forall_app. auto. }
  { destruct a; [ contradiction | discriminate ]. }
  exists p. split; [ exact Hp | ].
  unfold _extract_price_from_input, price_patterns. cbn [first_price].
  destruct (search rupee_pattern (a ++ Comma :: b ++ rest)) as [g1 | ] eqn:E1.
  { destruct (search_rupee_needs_rupee _ _ E1) as [_ Hin]. exfalso.
    apply in_app_or in Hin. destruct Hin as [Hin | [Hin | Hin]]; try discriminate.
    - rewrite Forall_forall in Ha. specialize (Ha _ Hin). discriminate.
    - apply in_app_or in Hin. destruct Hin as [Hin | Hin].
      + rewrite Forall_forall in Hb. specialize (Hb _ Hin). discriminate.
      + assert (existsb is_rupee rest = true)
          by (apply existsb_exists; exists Rupee; auto). congruence. }
  destruct (search long_number_pattern (a ++ Comma :: b ++ rest)) as [g2 | ] eqn:E2.
  { destruct (search_some _ _ _ E2) as (before & s & E & Hs).
    destruct (four_digits_group _ _ Hs) as (_ & _ & Hrun).
    unfold no_four_digits in Hd. rewrite forallb_forall in Hd.
    rewrite E in Hd.
    specialize (Hd s (tails_suffix before s)). apply Nat.ltb_lt in Hd. lia. }
  assert (Hm : match_here comma_pattern (a ++ Comma :: b ++ rest)
               = Some (a ++ Comma :: b)%list).
  { assert (H3 : match_here [ from 1 is_digit true ] (b ++ rest) = Some b).
    { pose proof (match_here_take (from 1 is_digit true) [] b rest []) as H3.
      rewrite app_nil_r in H3. apply H3.
      - apply run_all; [ exact Hb | ]. intros c after' ->.
        apply negb_true_iff. exact Hrest.
      - destruct b; [ contradiction | simpl; lia ].
      - reflexivity. }
    pose proof (match_here_take (once is_comma true) _ [Comma] _ _
                  (run_once is_comma Comma _ eq_refl) (le_n 1) H3) as H2.
    apply (match_here_take (from 1 is_digit true) _ a _ _); [ | | exact H2 ].
    - apply run_all; [ exact Ha | ]. intros c after' E. injection E as <- _. reflexivity.
    - destruct a; [ contradiction | simpl; lia ]. }
  rewrite (search_here _ _ _ Hm).
  rewrite without_commas_app. cbn [without_commas filter is_comma negb].
  fold (without_commas b).
  rewrite !without_commas_digits by assumption. rewrite Hp. reflexivity.
Qed.

(** *** Concrete lines *)

Section Lines.
Import InteractiveScenarios.

(** The line [₹,] has no digit: it is within the limit, and [int]
    raises [ValueError] on it. *)
Lemma extracted_price_witness :
  (forall p, _extract_price_from_input [Rupee; Comma] = Price p -> 0 <= p)
  /\ (_extract_price_from_input [Rupee; Comma] = ValueError -> In Rupee [Rupee; Comma])
  /\ (forall n : nat,
        _extract_price_from_input (Rupee :: repeat Comma (Datatypes.S n)) = ValueError).
Proof.
  apply (extracted_price_is_not_negative [Rupee; Comma]).
  unfold within_digit_limit, max_str_digits. cbn [filter is_digit List.length].
  apply Nat.le_0_l.
Defined.

(** The line [I offer 500] holds no price. *)
Lemma short_plain_number_witness :
  _extract_price_from_input (Other :: Space :: number [5; 0; 0]%nat) = NoPrice.
Proof. apply short_plain_number_is_not_read; reflexivity. Defined.

(** [₹150,000], as the program prints 150000, is read back inside a
    line. *)
Lemma printed_price_witness :
  _extract_price_from_input
    ([Other; Space] ++ [Rupee; Digit 1; Digit 5; Digit 0; Comma; Digit 0; Digit 0; Digit 0]
     ++ [Space; Other])
  = Price 150000.
Proof.
  apply (printed_price_is_read_back 150000 [Other; Space] [Space; Other]).
  - lia.
  - reflexivity.
  - reflexivity.
Defined.

(** [1,50,000], the Indian way of writing 150000, is read as 150. *)
Lemma only_two_groups_witness :
  _extract_price_from_input
    (number [1]%nat ++ Comma :: number [5; 0]%nat ++ Comma :: number [0; 0; 0]%nat)
  = Price 150.
Proof.
  destruct (only_two_groups_are_read (number [1]%nat) (number [5; 0]%nat)
              (Comma :: number [0; 0; 0]%nat)) as (p & Hp & H).
  - repeat constructor.
  - discriminate.
  - repeat constructor.
  - discriminate.
  - reflexivity.
  - reflexivity.
  - reflexivity.
  - injection Hp as <-. exact H.
Defined.
End Lines.
End PatternProofs.

(** ** The interactive mode *)

Module InteractiveProofs.
Import Ai_negotiation Ai_negotiation_interactive InteractiveNegotiation.

Section Generic.
Context {S : Type} {seller_class : SellerAgent S}.

Lemma negotiation_rounds_eq (inputs : list line) (self : t S) :
  negotiation_rounds inputs self
  = if round_number self <? 10
    then
      let self := with_round_number self (round_number self + 1) in
      match inputs with
      | [] => (self, inr EOFError)
      | human_input :: inputs' =>
          if says_quit human_input then (self, inl EndedByUser)
          else
            match _extract_price_from_input (text human_input) with
            | ValueError => (self, inr PriceValueError)
            | NoPrice => negotiation_rounds inputs' self
            | Price human_price =>
                if human_budget self <? human_price
                then negotiation_rounds inputs' self
                else
                  let self :=
                    with_human_offers self (human_offers self ++ [human_price]) in
                  match respond_to_buyer (ai_agent self) human_price
                          (round_number self) with
                  | Raise e => (self, inr (SellerRaised e))
                  | Ok (a, (ai_counter, ai_accepts)) =>
                      let self := with_ai_agent self a in
                      if ai_accepts : bool
                      then (self, inl (DealClosed human_price))
                      else negotiation_rounds inputs'
                             (with_ai_offers self (ai_offers self ++ [ai_counter]))
                  end
            end
      end
    else (self, inl RoundsUsedUp).
Proof. destruct inputs; reflexivity. Qed.



(** What the loop keeps, whatever the lines and the seller are. *)
Lemma negotiation_rounds_bookkeeping (inputs : list line) :
  forall (self self' : t S) (how : ending),
    negotiation_rounds inputs self = (self', inl how) ->
    human_budget self' = human_budget self
    /\ (exists made countered,
          human_offers self' = (human_offers self ++ made)%list
          /\ ai_offers self' = (ai_offers self ++ countered)%list
          /\ Forall (fun p => 0 <= p <= human_budget self) made
          /\ List.length made
             = match how with
               | DealClosed _ => Datatypes.S (List.length countered)
               | _ => List.length countered
               end
          /\ (forall p, how = DealClosed p -> exists earlier, made = (earlier ++ [p])%list)
          /\ Z.of_nat (List.length made) <= round_number self' - round_number self)
    /\ round_number self <= round_number self'
    /\ round_number self' - round_number self <= Z.of_nat (List.length inputs)
    /\ (round_number self <= 10 -> round_number self' <= 10)
    /\ (how = RoundsUsedUp -> 10 <= round_number self')
    /\ (how <> RoundsUsedUp -> round_number self < round_number self').
Proof.
  induction inputs as [ | l inputs IH ]; intros self self' how H;
    rewrite negotiation_rounds_eq in H.
  - destruct (round_number self <? 10) eqn:Er; [ discriminate | ].
    apply Z.ltb_ge in Er. injection H as <- <-.
    split; [ reflexivity | ]. split.
    + exists [], []. rewrite !app_nil_r. repeat split; try constructor; try discriminate.
      simpl. lia.
    + simpl. repeat split; try lia. congruence.
  - destruct (round_number self <? 10) eqn:Er.
    2:{ apply Z.ltb_ge in Er. injection H as <- <-.
        split; [ reflexivity | ]. split.
        + exists [], []. rewrite !app_nil_r.
          repeat split; try constructor; try discriminate. simpl. lia.
        + simpl. repeat split; try lia. congruence. }
    apply Z.ltb_lt in Er. cbv zeta in H.
    set (self1 := with_round_number self (round_number self + 1)) in H.
    assert (Hpass : forall self2 made0 countered0,
               human_budget self2 = human_budget self ->
               human_offers self2 = (human_offers self ++ made0)%list ->
               ai_offers self2 = (ai_offers self ++ countered0)%list ->
               Forall (fun p => 0 <= p <= human_budget self) made0 ->
               List.length made0 = List.length countered0 ->
               (List.length made0 <= 1)%nat ->
               round_number self2 = round_number self + 1 ->
               negotiation_rounds inputs self2 = (self', inl how) ->
               human_budget self' = human_budget self
               /\ (exists made countered,
                     human_offers self' = (human_offers self ++ made)%list
                     /\ ai_offers self' = (ai_offers self ++ countered)%list
                     /\ Forall (fun p => 0 <= p <= human_budget self) made
                     /\ List.length made
                        = match how with
                          | DealClosed _ => Datatypes.S (List.length countered)
                          | _ => List.length countered
                          end
                     /\ (forall p, how = DealClosed p ->
                                   exists earlier, made = (earlier ++ [p])%list)
                     /\ Z.of_nat (List.length made)
                        <= round_number self' - round_number self)
               /\ round_number self <= round_number self'
               /\ round_number self' - round_number self
                  <= Z.of_nat (List.length (l :: inputs))
               /\ (round_number self <= 10 -> round_number self' <= 10)
               /\ (how = RoundsUsedUp -> 10 <= round_number self')
               /\ (how <> RoundsUsedUp -> round_number self < round_number self')).
    { intros self2 made0 countered0 Hb Hh Ha Hm Hl Hone Hr2 H2.
      destruct (IH _ _ _ H2)
        as (Hb' & (made & countered & Hh' & Ha' & Hm' & Hl' & Hd' & Hn')
            & Hr' & Hi' & Ht' & Hu' & Hq').
      split; [ congruence | ]. split.
      - exists (made0 ++ made)%list, (countered0 ++ countered)%list.
        rewrite Hh', Ha', Hh, Ha, <- !app_assoc.
        split; [ reflexivity | ]. split; [ reflexivity | ].
        split; [ apply Forall_app; split; [ exact Hm | rewrite <- Hb; exact Hm' ] | ].
        split; [ rewrite !length_app, Hl'; destruct how; lia | ].
        split.
        + intros p Hp. destruct (Hd' p Hp) as (earlier & ->).
          exists (made0 ++ earlier)%list. rewrite app_assoc. reflexivity.
        + rewrite length_app. lia.
      - cbn [List.length]. repeat split; try lia. intro Hh0. specialize (Hu' Hh0). lia. }
    destruct (says_quit l).
    { injection H as <- <-. split; [ reflexivity | ]. split.
      - exists [], []. rewrite !app_nil_r.
        repeat split; try constructor; try discriminate. simpl. lia.
      - cbn [List.length]. simpl. repeat split; try lia; try discriminate. }
    destruct (_extract_price_from_input (text l)) as [p | | ] eqn:Ep; [ | | discriminate ].
    2:{ apply (Hpass self1 [] []); try reflexivity; try (rewrite app_nil_r; reflexivity);
          try (simpl; lia); try constructor; try exact H. }
    destruct (human_budget self1 <? p) eqn:Eb.
    { apply (Hpass self1 [] []); try reflexivity; try (rewrite app_nil_r; reflexivity);
        try (simpl; lia); try constructor; try exact H. }
    apply Z.ltb_ge in Eb. cbn [human_budget with_round_number self1] in Eb.
    pose proof (PatternProofs.price_read_nonneg (text l) p Ep) as Hp.
    cbv zeta in H.
    set (self2 := with_human_offers self1 (human_offers self1 ++ [p])) in H.
    destruct (respond_to_buyer (ai_agent self2) p (round_number self2))
      as [ [a [ai_counter ai_accepts]] | e ]; [ | discriminate ].
    destruct ai_accepts.
    + injection H as <- <-. split; [ reflexivity | ]. split.
      * exists [p], []. rewrite !app_nil_r.
        split; [ reflexivity | ]. split; [ reflexivity | ].
        split; [ repeat constructor; lia | ]. split; [ reflexivity | ].
        split; [ intros q Hq; injection Hq as <-; exists []; reflexivity | ].
        simpl. lia.
      * cbn [List.length]. simpl. repeat split; try lia; try discriminate.
    + apply (Hpass (with_ai_offers (with_ai_agent self2 a)
                      (ai_offers (with_ai_agent self2 a) ++ [ai_counter]))
                   [p] [ai_counter]);
        try reflexivity; try exact H.
      repeat constructor; lia.
Qed.

(** For every session of the interactive mode that ends, whatever the
    lines and the seller: the round counter is the number of lines read,
    at most 10; every recorded offer of the human lies between 0 and the
    budget; a deal is closed at the human's last offer, and the seller
    made one counter-offer for each earlier one; and the notice of a
    timeout is printed exactly when the round counter stands at 10, also
    after a deal or a [quit] in round 10. *)
Theorem interactive_session_bookkeeping
    (a : S) (product : Product.t) (budget : Z) (inputs : list line)
    (self : t S) (how : ending) (notice : bool) :
  start_interactive_session inputs (init a product budget) = Ended self how notice ->
  0 <= round_number self <= 10
  /\ round_number self <= Z.of_nat (List.length inputs)
  /\ notice = (round_number self =? 10)
  /\ (how = RoundsUsedUp -> round_number self = 10)
  /\ (how <> RoundsUsedUp -> 1 <= round_number self)
  /\ Forall (fun p => 0 <= p <= budget) (human_offers self)
  /\ Z.of_nat (List.length (human_offers self)) <= round_number self
  /\ List.length (ai_offers self)
     = match how with
       | DealClosed _ => List.length (human_offers self)
       | _ => Datatypes.S (List.length (human_offers self))
       end
  /\ (forall p, how = DealClosed p ->
                exists earlier, human_offers self = (earlier ++ [p])%list).
Proof.
  unfold start_interactive_session. cbv zeta.
  destruct (negotiation_rounds inputs _) as [self' [how' | e]] eqn:H; [ | discriminate ].
  intro E. injection E as <- <- <-.
  destruct (negotiation_rounds_bookkeeping _ _ _ _ H)
    as (Hb & (made & countered & Hh & Ha & Hm & Hl & Hd & Hn) & Hr & Hi & Ht & Hu & Hq).
  cbn [round_number human_budget human_offers ai_offers with_ai_offers init] in *.
  rewrite Hh, Ha. cbn [app List.length].
  assert (Hround : 0 <= round_number self' <= 10) by lia.
  split; [ exact Hround | ]. split; [ lia | ].
  split.
  { destruct (round_number self' =? 10) eqn:E10.
    - apply Z.eqb_eq in E10. apply Z.leb_le. lia.
    - apply Z.eqb_neq in E10. apply Z.leb_gt. lia. }
  split; [ intro Hh0; specialize (Hu Hh0); lia | ].
  split; [ intro Hh0; specialize (Hq Hh0); lia | ].
  split; [ exact Hm | ]. split; [ lia | ].
  split; [ destruct how'; lia | exact Hd ].
Qed.
End Generic.

Section Concrete.
Context {F : PyFloat}.

(** Against [AdvancedSellerAgent] with a positive minimum price, the
    seller raises no exception, a deal is closed at a price between the
    seller's minimum and the human's budget, and every counter-offer
    after the opening price is at or above the seller's minimum. *)
Lemma rounds_against_advanced_seller (Hsign : quotient_sign_law) (inputs : list line) :
  forall (self self' : t AdvancedSellerAgent.t)
         (r : ending + failure),
    0 < AdvancedSellerAgent.min_price (ai_agent self) ->
    negotiation_rounds inputs self = (self', r) ->
    AdvancedSellerAgent.min_price (ai_agent self')
    = AdvancedSellerAgent.min_price (ai_agent self)
    /\ (forall e, r <> inr (SellerRaised e))
    /\ (forall p, r = inl (DealClosed p) ->
                  AdvancedSellerAgent.min_price (ai_agent self) <= p <= human_budget self)
    /\ exists countered,
         ai_offers self' = (ai_offers self ++ countered)%list
         /\ Forall (fun q => AdvancedSellerAgent.min_price (ai_agent self) <= q) countered.
Proof.
  induction inputs as [ | l inputs IH ]; intros self self' r Hfloor H;
    rewrite negotiation_rounds_eq in H.
  - destruct (round_number self <? 10); injection H as <- <-;
      (split; [ reflexivity | ]); (split; [ discriminate | ]);
      (split; [ discriminate | ]); exists []; rewrite app_nil_r; split; constructor.
  - destruct (round_number self <? 10).
    2:{ injection H as <- <-.
        split; [ reflexivity | ]. split; [ discriminate | ].
        split; [ discriminate | ]. exists []. rewrite app_nil_r. split; constructor. }
    cbv zeta in H.
    set (self1 := with_round_number self (round_number self + 1)) in H.
    destruct (says_quit l).
    { injection H as <- <-.
      split; [ reflexivity | ]. split; [ discriminate | ].
      split; [ discriminate | ]. exists []. rewrite app_nil_r. split; constructor. }
    destruct (_extract_price_from_input (text l)) as [p | | ] eqn:Ep.
    3:{ injection H as <- <-.
        split; [ reflexivity | ]. split; [ discriminate | ].
        split; [ discriminate | ]. exists []. rewrite app_nil_r. split; constructor. }
    2:{ apply (IH self1 self' r Hfloor H). }
    destruct (human_budget self1 <? p) eqn:Eb; [ apply (IH self1 self' r Hfloor H) | ].
    apply Z.ltb_ge in Eb. cbn [human_budget with_round_number self1] in Eb.
    cbv zeta in H.
    set (self2 := with_human_offers self1 (human_offers self1 ++ [p])) in H.
    destruct (ManagerProofs.seller_answer Hsign (ai_agent self2) p (round_number self2)
                Hfloor) as (a & price & accepted & Hans & Hmin & Hprice & Hacc).
    change (@respond_to_buyer _ AdvancedSellerAgent_is_seller)
      with AdvancedSellerAgent.respond_to_buyer in H.
    rewrite Hans in H. cbv iota beta in H.
    destruct accepted.
    + injection H as <- <-.
      split; [ exact Hmin | ]. split; [ discriminate | ]. split.
      * intros q Hq. injection Hq as <-. specialize (Hacc eq_refl). subst price.
        change (AdvancedSellerAgent.min_price (ai_agent self2))
          with (AdvancedSellerAgent.min_price (ai_agent self)) in Hprice. lia.
      * exists []. rewrite app_nil_r. split; constructor.
    + set (self3 := with_ai_offers (with_ai_agent self2 a)
                      (ai_offers (with_ai_agent self2 a) ++ [price])) in H.
      destruct (IH self3 self' r) as (Hmin' & Hno & Hdeal & countered & Ha & Hc).
      { cbn [ai_agent with_ai_offers with_ai_agent self3]. rewrite Hmin. exact Hfloor. }
      { exact H. }
      cbn [ai_agent with_ai_offers with_ai_agent self3 human_budget ai_offers] in *.
      rewrite Hmin in *.
      change (AdvancedSellerAgent.min_price (ai_agent self2))
        with (AdvancedSellerAgent.min_price (ai_agent self)) in *.
      split; [ exact Hmin' | ]. split; [ exact Hno | ]. split; [ exact Hdeal | ].
      exists (price :: countered). split.
      * rewrite Ha. change (ai_offers self2) with (ai_offers self).
        rewrite <- app_assoc. reflexivity.
      * constructor; assumption.
Qed.

(** In the interactive mode against [AdvancedSellerAgent] with a
    positive minimum price, the seller raises no exception; a deal is
    closed at the human's price, which lies between the seller's minimum
    and the human's budget; and every counter-offer of the seller is at
    or above its minimum. *)
Theorem interactive_deal_between_floor_and_budget (Hsign : quotient_sign_law)
    (a : AdvancedSellerAgent.t) (product : Product.t) (budget : Z)
    (inputs : list line) :
  0 < AdvancedSellerAgent.min_price a ->
  match start_interactive_session inputs (init a product budget) with
  | Ended self how _ =>
      AdvancedSellerAgent.min_price (ai_agent self) = AdvancedSellerAgent.min_price a
      /\ (forall p, how = DealClosed p -> AdvancedSellerAgent.min_price a <= p <= budget)
      /\ exists countered,
           ai_offers self = AdvancedSellerAgent.get_opening_price a product :: countered
           /\ Forall (fun q => AdvancedSellerAgent.min_price a <= q) countered
  | Failed e => e = EOFError \/ e = PriceValueError
  end.
Proof.
  intro Hfloor. unfold start_interactive_session. cbv zeta.
  destruct (negotiation_rounds inputs _) as [self' r] eqn:H.
  destruct (rounds_against_advanced_seller Hsign inputs
              (with_ai_offers (init a product budget)
                 (ai_offers (init a product budget)
                  ++ [get_opening_price (ai_agent (init a product budget))
                        (InteractiveNegotiation.product (init a product budget))]))
              self' r Hfloor H)
    as (Hmin & Hno & Hdeal & countered & Ha & Hc).
  destruct r as [how | e].
  - split; [ exact Hmin | ]. split.
    + intros p ->. apply (Hdeal p eq_refl).
    + exists countered. split; [ exact Ha | exact Hc ].
  - destruct e as [ | | e ]; auto. exfalso. apply (Hno e eq_refl).
Qed.
End Concrete.

(** *** Concrete sessions, in exact arithmetic *)

Section Sessions.
Import Scenarios InteractiveScenarios.
#[local] Existing Instance Exact.arith.


(** The bookkeeping of the session after [five_lines]. *)
Lemma interactive_bookkeeping_witness :
  round_number main_session_end <= Z.of_nat (List.length five_lines)
  /\ Forall (fun p => 0 <= p <= 170000) (human_offers main_session_end).
Proof.
  destruct (interactive_session_bookkeeping
              (advanced_seller 140000 "balanced") mangoes_A 170000 five_lines
              main_session_end (DealClosed 165000) false)
    as (_ & Hlines & _ & _ & _ & Hoffers & _).
  - vm_compute. reflexivity.
  - split; assumption.
Defined.

(** The deal of the session after [five_lines] is at 165000, between
    140000 and 170000. *)
Lemma interactive_deal_witness :
  match start_interactive_session five_lines main_session with
  | Ended self how _ =>
      forall p, how = DealClosed p -> 140000 <= p <= 170000
  | Failed e => e = EOFError \/ e = PriceValueError
  end.
Proof.
  pose proof (interactive_deal_between_floor_and_budget ExactLaws.quotient_sign
                (advanced_seller 140000 "balanced") mangoes_A 170000 five_lines
                eq_refl) as H.
  change (start_interactive_session five_lines
            (init (advanced_seller 140000 "balanced") mangoes_A 170000))
    with (start_interactive_session five_lines main_session) in H.
  destruct (start_interactive_session five_lines main_session) as [self how notice | e].
  - destruct H as (_ & H & _). exact H.
  - exact H.
Defined.
End Sessions.
End InteractiveProofs.

(** ** The command line of [negotiation_agent.py] *)

Module CliProofs.
Import Negotiation_agent NegotiationState BargainingSystem Negotiation_agent_cli.

Lemma scale_ge_exact : scale_ge_law (F := Exact.arith).
Proof.
  intros m [cn cd] [Hm _] Hc _. unfold int_mul. simpl.
  rewrite <- (Z.quot_1_r m) at 1.
  change (m ÷ 1) with (Exact.Qtrunc (inject_Z m)).
  apply ExactLaws.Qtrunc_mono. unfold Qle in Hc |- *. simpl in Hc |- *. nia.
Qed.

(** The saving on a market price that [float] holds exactly, for a price
    below [2 ^ 1023], is divided by the market price without overflow. *)
Lemma quotient_within_float (market price : Z) :
  0 < market < 2 ^ 53 -> 0 <= price < 2 ^ 1023 ->
  quotient_overflows (market - price) market = false.
Proof.
  intros Hm Hp. unfold quotient_overflows. apply Z.leb_gt.
  assert (Hlimit : 2 ^ 1023 <= float_limit) by (vm_compute; discriminate).
  assert (Hsmall : 2 ^ 53 <= 2 ^ 1023) by (vm_compute; discriminate).
  assert (Ha : Z.abs (market - price) < 2 ^ 1023) by (apply Z.abs_lt; lia).
  assert (Hb : float_limit * 1 <= float_limit * Z.abs market)
    by (apply Z.mul_le_mono_nonneg_l; lia).
  lia.
Qed.

(** Beyond that range it is not: a price of [10 ^ 400] on a market price
    of 200000 raises [OverflowError]. *)
Lemma quotient_beyond_float : quotient_overflows (200000 - 10 ^ 400) 200000 = true.
Proof. vm_compute. reflexivity. Qed.

Section Generic.
Context {S : Type} {seller_class : HumanSeller S}.
Variable int_of_str : string -> option Z.

Lemma run_negotiation_loop_eq (events : list event) (eof_clock : Q)
    (system : BargainingSystem.t S) :
  run_negotiation_loop int_of_str events eof_clock system
  = match current_negotiation system with
    | None => Finished system
    | Some n =>
        if deal_closed n then Finished system
        else
          let now := match events with
                     | [] => eof_clock
                     | ev :: _ => clock ev
                     end in
          let elapsed := (now - start_time n)%Q in
          if Qle_bool (inject_Z (time_limit n)) elapsed
          then
            match _end_negotiation system "timeout" None with
            | Ok system => Finished system
            | Raise e => Crashed e
            end
          else
            match events with
            | [] => EndOfInput system
            | ev :: events' =>
                let next := run_negotiation_loop int_of_str events' eof_clock in
                match parts ev with
                | [] => next system
                | command :: arguments =>
                    if String.eqb command "offer"
                    then
                      match arguments with
                      | [] => next system
                      | amount :: _ =>
                          match int_of_str amount with
                          | Some amount =>
                              after_call
                                (human_make_offer system amount
                                   (offer_clock ev) (seller_clock ev))
                                next
                          | None => next system
                          end
                      end
                    else if String.eqb command "accept"
                    then after_call (accept_seller_offer system) next
                    else if String.eqb command "reject"
                    then after_call (reject_and_exit system) next
                    else next system
                end
            end
    end.
Proof. destruct events; reflexivity. Qed.

(** At the command line of [negotiation_agent.py] a line that makes no
    valid move costs nothing: while the time limit has not elapsed, an
    offer with an amount that does not read as a number, that is not
    positive or that exceeds the budget, an offer without an amount, an
    [accept] of a price above the budget, an empty line and an unknown
    command all leave the negotiation as it is, and the loop goes on
    with the next line. *)
Theorem invalid_line_is_asked_again (ev : event) (events : list event) (eof_clock : Q)
    (system : BargainingSystem.t S) (n : NegotiationState.t) :
  current_negotiation system = Some n -> deal_closed n = false ->
  (clock ev - start_time n < inject_Z (time_limit n))%Q ->
  (offer_clock ev - start_time n < inject_Z (time_limit n))%Q ->
  match parts ev with
  | [] => True
  | command :: arguments =>
      if String.eqb command "offer"
      then match arguments with
           | [] => True
           | amount :: _ =>
               match int_of_str amount with
               | Some amount => amount <= 0 \/ human_budget n < amount
               | None => True
               end
           end
      else if String.eqb command "accept"
      then human_budget n < seller_current_price n
      else String.eqb command "reject" = false
  end ->
  run_negotiation_loop int_of_str (ev :: events) eof_clock system
  = run_negotiation_loop int_of_str events eof_clock system.
Proof.
  intros Hn Hopen Hclock Hoffer Hline.
  rewrite run_negotiation_loop_eq. rewrite Hn, Hopen. cbv zeta.
  destruct (Qle_bool (inject_Z (time_limit n)) (clock ev - start_time n)) eqn:Et.
  { apply Qle_bool_iff in Et. exfalso. exact (Qlt_not_le _ _ Hclock Et). }
  destruct (parts ev) as [ | command arguments ]; [ reflexivity | ].
  destruct (String.eqb command "offer").
  - destruct arguments as [ | amount more ]; [ reflexivity | ].
    destruct (int_of_str amount) as [a | ]; [ | reflexivity ].
    unfold human_make_offer. rewrite Hn, Hopen.
    destruct (Qle_bool (inject_Z (time_limit n)) (offer_clock ev - start_time n)) eqn:Eo.
    { apply Qle_bool_iff in Eo. exfalso. exact (Qlt_not_le _ _ Hoffer Eo). }
    destruct (human_budget n <? a) eqn:E1; [ reflexivity | ].
    destruct (a <=? 0) eqn:E2; [ reflexivity | ].
    apply Z.ltb_ge in E1. apply Z.leb_gt in E2. lia.
  - destruct (String.eqb command "accept").
    + unfold accept_seller_offer. rewrite Hn, Hopen.
      apply Z.ltb_lt in Hline. rewrite Hline. reflexivity.
    + rewrite Hline. reflexivity.
Qed.
End Generic.

(** Read the fields of a negotiation built by the setters. *)
Ltac state_fields :=
  cbn [NegotiationState.product human_budget seller_current_price
       human_current_offer round_number
       start_time time_limit conversation_history deal_closed final_price winner
       with_seller_current_price with_human_current_offer with_round_number
       with_conversation_history with_deal_closed with_final_price with_winner
       current_negotiation seller_agent with_current_negotiation] in *.

Section Seller.
Context {F : PyFloat}.

(** The seller's answer to an offer: it accepts the offer, which is then
    at or above its minimum price, or it counters at or above its
    minimum price. *)
Lemma ai_seller_answer (Hup : scale_up_law)
    (agent : AISellerAgent.t) (state : NegotiationState.t) (human_offer : Z) (now : Q) :
  0 < Product.seller_min_price (product state) ->
  let r := AISellerAgent.respond_to_human_offer agent state human_offer now in
  (fst r = ACCEPTED /\ snd r = human_offer
   /\ Product.seller_min_price (product state) <= human_offer)
  \/ (fst r = ONGOING /\ Product.seller_min_price (product state) <= snd r).
Proof.
  intros Hpos. unfold AISellerAgent.respond_to_human_offer.
  destruct (of_int (Product.seller_min_price (product state)) *~ lit (105 # 100)
            <=~ of_int human_offer) eqn:E.
  - left. simpl. repeat split.
    destruct (Z_lt_ge_dec human_offer (Product.seller_min_price (product state)))
      as [Hlt | ]; [ | lia ].
    rewrite (Hup _ human_offer (105 # 100) Hpos) in E by (discriminate || assumption).
    discriminate.
  - destruct (negb _).
    + destruct (Product.seller_min_price (product state) <=? human_offer) eqn:E1.
      * left. simpl. apply Z.leb_le in E1. auto.
      * right. simpl. split; [ reflexivity | lia ].
    + right. simpl. split; [ reflexivity | lia ].
Qed.

Lemma end_negotiation_no_deal (product : Product.t) (budget : Z)
    (system : BargainingSystem.t AISellerAgent.t) (result : string) :
  system_invariant product budget system ->
  result = "timeout" \/ result = "rejected" ->
  exists system',
    _end_negotiation system result None = Ok system'
    /\ system_invariant product budget system'
    /\ exists n', current_negotiation system' = Some n' /\ deal_closed n' = true.
Proof.
  intros (n & agent & Hn & Ha & Hp & Hb & Hs & Hr & Hlen & Hopen & Hwin) Hres.
  unfold _end_negotiation. rewrite Hn.
  assert (Hkeep : forall w,
             w <> Some "human" ->
             system_invariant product budget
               (with_current_negotiation system
                  (with_winner (with_final_price (with_deal_closed n true) None) w))).
  { intros w Hw.
    exists (with_winner (with_final_price (with_deal_closed n true) None) w), agent.
    split; [ reflexivity | ]. split; [ exact Ha | ].
    unfold negotiation_invariant. state_fields.
    repeat split; try assumption; try lia; try discriminate; try contradiction. }
  destruct Hres as [-> | ->]; cbn [String.eqb Ascii.eqb Bool.eqb andb];
    eexists; (split; [ reflexivity | ]);
      (split; [ apply Hkeep; discriminate | eexists; split; reflexivity ]).
Qed.

Lemma end_negotiation_deal (product : Product.t) (budget : Z)
    (system : BargainingSystem.t AISellerAgent.t)
    (n : NegotiationState.t) (agent : AISellerAgent.t) (price : Z) :
  sound_product product -> budget < 2 ^ 1023 ->
  current_negotiation system = Some n ->
  seller_agent system = Some agent ->
  NegotiationState.product n = product ->
  human_budget n = budget ->
  Product.seller_min_price product <= seller_current_price n ->
  1 <= round_number n ->
  2 * round_number n - 1 <= Z.of_nat (List.length (conversation_history n))
  <= 2 * round_number n ->
  Product.seller_min_price product <= price <= budget ->
  exists system',
    _end_negotiation system "deal" (Some price) = Ok system'
    /\ system_invariant product budget system'
    /\ exists n', current_negotiation system' = Some n' /\ deal_closed n' = true.
Proof.
  intros (Hmin & Hmarket & Hbig) Hrange Hn Ha Hp Hb Hs Hr Hlen Hprice.
  unfold _end_negotiation. rewrite Hn. cbn [String.eqb Ascii.eqb Bool.eqb andb truthy].
  replace (price =? 0) with false by (symmetry; apply Z.eqb_neq; lia). cbn [negb].
  cbn [NegotiationState.product with_final_price with_deal_closed]. rewrite Hp.
  cbv zeta.
  replace (Product.base_market_price product =? 0) with false
    by (symmetry; apply Z.eqb_neq; lia).
  rewrite quotient_within_float by lia.
  eexists. split; [ reflexivity | ]. split.
  - eexists _, agent. split; [ reflexivity | ]. split; [ exact Ha | ].
    unfold negotiation_invariant. state_fields.
    repeat split; try assumption; try lia; try discriminate.
    exists price. split; [ reflexivity | lia ].
  - eexists. split; reflexivity.
Qed.

(** Each of the three moves raises nothing and keeps the invariant. *)
Lemma human_make_offer_keeps (Hup : scale_up_law) (product : Product.t) (budget : Z)
    (system : BargainingSystem.t AISellerAgent.t) (amount : Z) (now now_seller : Q) :
  sound_product product -> budget < 2 ^ 1023 ->
  system_invariant product budget system ->
  exists system' b,
    human_make_offer system amount now now_seller = Ok (system', b)
    /\ system_invariant product budget system'.
Proof.
  intros Hsound Hrange Hinv.
  pose proof Hinv as (n & agent & Hn & Ha & Hp & Hb & Hs & Hr & Hlen & Hopen & Hwin).
  unfold human_make_offer. rewrite Hn.
  destruct (deal_closed n) eqn:Hc; [ eauto | ].
  destruct (Qle_bool _ _).
  { destruct (end_negotiation_no_deal product budget system "timeout" Hinv (or_introl eq_refl))
      as (system' & -> & Hinv' & _). cbn [bind]. eauto. }
  destruct (human_budget n <? amount) eqn:E1; [ eauto | ].
  destruct (amount <=? 0) eqn:E2; [ eauto | ].
  apply Z.ltb_ge in E1. apply Z.leb_gt in E2. cbv zeta. rewrite Ha.
  destruct (Hopen eq_refl) as (Hw & Hf & Hl).
  set (n1 := with_conversation_history _ _).
  assert (Hp1 : NegotiationState.product n1 = product) by exact Hp.
  destruct Hsound as (Hmin & Hmarket & Hbig).
  pose proof (ai_seller_answer Hup agent n1 amount now_seller
                ltac:(rewrite Hp1; exact Hmin)) as Hans.
  change (@respond_to_human_offer _ AISellerAgent_is_seller)
    with AISellerAgent.respond_to_human_offer.
  destruct (AISellerAgent.respond_to_human_offer agent n1 amount now_seller)
    as [status seller_price].
  cbn [fst snd] in Hans. rewrite Hp1 in Hans.
  set (n2 := with_conversation_history (with_seller_current_price n1 seller_price) _).
  assert (Hlen2 : Z.of_nat (List.length (conversation_history n2))
                  = 2 * (round_number n + 1) - 1).
  { unfold n2, n1. state_fields. rewrite !length_app. cbn [List.length]. lia. }
  destruct Hans as [(-> & -> & Hfloor) | (-> & Hfloor)].
  - cbn [DealStatus_eqb].
    destruct (end_negotiation_deal product budget (with_current_negotiation system n2)
                n2 agent amount (conj Hmin (conj Hmarket Hbig)) Hrange)
      as (system' & -> & Hinv' & _); try reflexivity; try assumption; try lia.
    all: try (unfold n2, n1; state_fields; rewrite ?length_app; cbn [List.length]; lia).
    cbn [bind]. eauto.
  - cbn [DealStatus_eqb]. eexists _, _. split; [ reflexivity | ].
    exists n2, agent. split; [ reflexivity | ]. split; [ exact Ha | ].
    unfold negotiation_invariant.
    split; [ exact Hp | ]. split; [ exact Hb | ]. split; [ exact Hfloor | ].
    split; [ unfold n2, n1; state_fields; lia | ].
    split; [ rewrite Hlen2; unfold n2, n1; state_fields; lia | ].
    split.
    + intros _. split; [ exact Hw | ]. split; [ exact Hf | exact Hlen2 ].
    + intro Hwin2. change (winner n2) with (winner n) in Hwin2. congruence.
Qed.

Lemma accept_seller_offer_keeps (product : Product.t) (budget : Z)
    (system : BargainingSystem.t AISellerAgent.t) :
  sound_product product -> budget < 2 ^ 1023 ->
  system_invariant product budget system ->
  exists system' b,
    accept_seller_offer system = Ok (system', b)
    /\ system_invariant product budget system'.
Proof.
  intros Hsound Hrange Hinv.
  pose proof Hinv as (n & agent & Hn & Ha & Hp & Hb & Hs & Hr & Hlen & Hopen & Hwin).
  unfold accept_seller_offer. rewrite Hn.
  destruct (deal_closed n) eqn:Hc; [ eauto | ].
  destruct (human_budget n <? seller_current_price n) eqn:E1; [ eauto | ].
  apply Z.ltb_ge in E1. cbv zeta.
  destruct (Hopen eq_refl) as (Hw & Hf & Hl).
  set (n1 := with_conversation_history _ _).
  destruct (end_negotiation_deal product budget (with_current_negotiation system n1)
              n1 agent (seller_current_price n) Hsound Hrange)
    as (system' & -> & Hinv' & _); try reflexivity; try assumption; try lia.
  all: try (unfold n1; state_fields; rewrite ?length_app; cbn [List.length]; lia).
  cbn [bind]. eauto.
Qed.

Lemma reject_and_exit_keeps (product : Product.t) (budget : Z)
    (system : BargainingSystem.t AISellerAgent.t) :
  system_invariant product budget system ->
  exists system' b,
    reject_and_exit system = Ok (system', b)
    /\ system_invariant product budget system'.
Proof.
  intros Hinv.
  pose proof Hinv as (n & agent & Hn & _).
  unfold reject_and_exit. rewrite Hn.
  destruct (end_negotiation_no_deal product budget system "rejected" Hinv
              (or_intror eq_refl)) as (system' & -> & Hinv' & _).
  cbn [bind]. eauto.
Qed.

Lemma catalog_is_sound : Forall sound_product _load_products.
Proof. unfold _load_products, sound_product. repeat constructor; simpl; lia. Qed.

Lemma opening_multiplier_between_1_and_2 (personality_type : string)
    (personality : AISellerPersonality.t) :
  AISellerPersonality.lookup personality_type = Some personality ->
  (1 <= AISellerPersonality.opening_multiplier personality)%Q
  /\ (AISellerPersonality.opening_multiplier personality <= 2)%Q.
Proof.
  unfold AISellerPersonality.lookup.
  destruct (String.eqb personality_type "AGGRESSIVE");
    [ | destruct (String.eqb personality_type "DIPLOMATIC");
        [ | destruct (String.eqb personality_type "CUNNING") ] ];
    intro H; try discriminate; injection H as <-; split; discriminate.
Qed.

Lemma start_new_negotiation_keeps (Hge : scale_ge_law)
    (product_index : nat) (budget : Z) (seller_personality : string)
    (time_limit : Z) (proceed : bool) (now : Q)
    (system : BargainingSystem.t AISellerAgent.t) :
  start_new_negotiation init product_index budget seller_personality time_limit
    proceed now = Some (system, true) ->
  exists product,
    nth_error _load_products product_index = Some product
    /\ sound_product product
    /\ system_invariant product budget system.
Proof.
  unfold start_new_negotiation. cbn [products_catalog init].
  destruct (nth_error _load_products product_index) as [product | ] eqn:Ei;
    [ | discriminate ].
  destruct (budget <=? 0); [ discriminate | ].
  destruct ((budget <? Product.seller_min_price product) && negb proceed);
    [ discriminate | ].
  destruct (AISellerPersonality.lookup seller_personality) as [personality | ] eqn:El;
    [ | discriminate ].
  intro H. injection H as <-.
  assert (Hsound : sound_product product).
  { pose proof catalog_is_sound as Hall. rewrite Forall_forall in Hall.
    apply Hall. eapply nth_error_In. exact Ei. }
  exists product. split; [ reflexivity | ]. split; [ exact Hsound | ].
  eexists _, _. split; [ reflexivity | ]. split; [ reflexivity | ].
  destruct Hsound as (Hmin & Hmarket & Hbig).
  destruct (opening_multiplier_between_1_and_2 _ _ El) as [H1 H2].
  pose proof (Hge (Product.base_market_price product)
                (AISellerPersonality.opening_multiplier personality)
                ltac:(lia) H1 H2) as Hopening.
  unfold negotiation_invariant, AISellerAgent.get_opening_offer. state_fields.
  cbn [AISellerAgent.personality List.length].
  repeat split; try lia; try discriminate.
Qed.

(** At the command line of [negotiation_agent.py], for a negotiation
    started on a product of the catalogue with a budget below
    [2 ^ 1023], so that the saving of a deal divided by the market price
    stays within the range of [float]: whatever is typed and whenever,
    the loop raises nothing; it is left with the negotiation closed, or
    at the end of the input with the negotiation open; and the
    negotiation keeps its invariant, so that a negotiation won by the
    human is closed at a price between the seller's minimum and the
    budget, the seller never asks less than its minimum, and the history
    holds the seller's opening and two entries for each later round.
    The bound on the budget is needed: see [huge_offer_crashes_the_loop]
    below. *)
Theorem command_line_keeps_negotiation_sound
    (Hup : scale_up_law) (Hge : scale_ge_law) (int_of_str : string -> option Z)
    (product_index : nat) (budget : Z) (seller_personality : string)
    (time_limit : Z) (proceed : bool) (now : Q)
    (system : BargainingSystem.t AISellerAgent.t)
    (events : list event) (eof_clock : Q) :
  budget < 2 ^ 1023 ->
  start_new_negotiation init product_index budget seller_personality time_limit
    proceed now = Some (system, true) ->
  exists product,
    nth_error _load_products product_index = Some product
    /\ match run_negotiation_loop int_of_str events eof_clock system with
       | Finished system' =>
           exists n, current_negotiation system' = Some n
                     /\ deal_closed n = true
                     /\ negotiation_invariant product budget n
       | EndOfInput system' =>
           exists n, current_negotiation system' = Some n
                     /\ deal_closed n = false
                     /\ negotiation_invariant product budget n
       | Crashed _ => False
       end.
Proof.
  intros Hrange Hstart.
  destruct (start_new_negotiation_keeps Hge _ _ _ _ _ _ _ Hstart)
    as (product & Hi & Hsound & Hinv).
  exists product. split; [ exact Hi | ]. clear Hstart Hi.
  revert system Hinv.
  induction events as [ | ev events IH ]; intros system Hinv;
    rewrite run_negotiation_loop_eq;
    pose proof Hinv as (n & agent & Hn & Ha & Hn_inv);
    rewrite Hn; destruct (deal_closed n) eqn:Hc; try (exists n; auto); cbv zeta.
  - destruct (Qle_bool _ _).
    + destruct (end_negotiation_no_deal product budget system "timeout" Hinv
                  (or_introl eq_refl))
        as (system' & -> & (n' & agent' & Hn' & _ & Hinv') & (n'' & Hn'' & Hc')).
      exists n'. rewrite Hn' in Hn''. injection Hn'' as <-. auto.
    + exists n. auto.
  - destruct (Qle_bool _ _).
    + destruct (end_negotiation_no_deal product budget system "timeout" Hinv
                  (or_introl eq_refl))
        as (system' & -> & (n' & agent' & Hn' & _ & Hinv') & (n'' & Hn'' & Hc')).
      exists n'. rewrite Hn' in Hn''. injection Hn'' as <-. auto.
    + destruct (parts ev) as [ | command arguments ]; [ apply IH; exact Hinv | ].
      destruct (String.eqb command "offer").
      * destruct arguments as [ | amount more ]; [ apply IH; exact Hinv | ].
        destruct (int_of_str amount) as [a | ]; [ | apply IH; exact Hinv ].
        destruct (human_make_offer_keeps Hup product budget system a
                    (offer_clock ev) (seller_clock ev) Hsound Hrange Hinv)
          as (system' & b & -> & Hinv').
        cbn [after_call]. apply IH. exact Hinv'.
      * destruct (String.eqb command "accept").
        -- destruct (accept_seller_offer_keeps product budget system Hsound Hrange Hinv)
             as (system' & b & -> & Hinv').
           cbn [after_call]. apply IH. exact Hinv'.
        -- destruct (String.eqb command "reject"); [ | apply IH; exact Hinv ].
           destruct (reject_and_exit_keeps product budget system Hinv)
             as (system' & b & -> & Hinv').
           cbn [after_call]. apply IH. exact Hinv'.
Qed.
End Seller.

(** *** Concrete lines, in exact arithmetic *)

Section Sessions.
Import Scenarios.
#[local] Existing Instance Exact.arith.

(** An offer of 250000 against the budget of 200000 of
    [bargaining_open] is passed over. *)
Lemma invalid_line_witness :
  run_negotiation_loop reads_two_amounts four_lines 20 bargaining_open
  = run_negotiation_loop reads_two_amounts (tl four_lines) 20 bargaining_open.
Proof.
  eapply (invalid_line_is_asked_again reads_two_amounts
            (typed 5 ["offer"; "250000"]) (tl four_lines) 20 bargaining_open).
  - vm_compute. reflexivity.
  - reflexivity.
  - vm_compute. reflexivity.
  - vm_compute. reflexivity.
  - vm_compute. right. reflexivity.
Defined.

(** [four_lines] typed into [bargaining_open]: the loop ends with the
    negotiation closed. *)
Lemma command_line_witness :
  exists product,
    nth_error _load_products 0 = Some product
    /\ match run_negotiation_loop reads_two_amounts four_lines 20 bargaining_open with
       | Finished system' =>
           exists n, current_negotiation system' = Some n
                     /\ deal_closed n = true
                     /\ negotiation_invariant product 200000 n
       | EndOfInput system' =>
           exists n, current_negotiation system' = Some n
                     /\ deal_closed n = false
                     /\ negotiation_invariant product 200000 n
       | Crashed _ => False
       end.
Proof.
  apply (command_line_keeps_negotiation_sound ExactLaws.scale_up scale_ge_exact
           reads_two_amounts 0%nat 200000 "DIPLOMATIC" 120 true 0%Q
           bargaining_open four_lines 20%Q).
  - vm_compute. reflexivity.
  - reflexivity.
Defined.

(** A budget beyond the range of [float] is accepted at the prompt, and
    the offer of the whole budget, [10 ^ 400], which the seller accepts
    at once, makes [_end_negotiation] raise [OverflowError], which the
    loop does not catch. *)
Lemma huge_offer_crashes_the_loop :
  match start_new_negotiation init 0%nat (10 ^ 400) "DIPLOMATIC" 120 true 0%Q with
  | Some (system, true) =>
      run_negotiation_loop reads_huge_amount [ typed 5 ["offer"; ten_to_the_400] ]
        20 system
      = Crashed OverflowError
  | _ => False
  end.
Proof. vm_compute. reflexivity. Qed.
End Sessions.
End CliProofs.

(** ** [in.py] *)

Module SmartProofs.
Import Negotiation_agent Negotiation_agent_cli.
Import In_py In_py.NegotiationState In_py.SmartBargainingSystem.

(** Read the fields of a negotiation built by the setters. *)
Ltac smart_fields :=
  cbn [In_py.NegotiationState.product human_budget seller_current_price
       human_current_offer round_number start_time time_limit conversation_history
       deal_closed final_price winner personality_revealed
       with_seller_current_price with_human_current_offer with_round_number
       with_conversation_history with_deal_closed with_final_price
       with_personality_revealed
       current_negotiation ai_seller with_current_negotiation] in *.

Section Seller.
Context {F : PyFloat}.

(** [SmartAISeller.respond_to_offer] never accepts an offer below a
    positive minimum price and never counters below that minimum; it
    accepts only at the human's offer; and while 15 seconds or more
    remain, its counter-offer is at least 2000 below its current price,
    or is its minimum price. *)
Theorem smart_seller_concedes_down_to_minimum (Hup : scale_up_law)
    (self : SmartAISeller.t) (state : NegotiationState.t) (human_offer : Z) (now : Q)
    (status : DealStatus) (price : Z) :
  0 < Product.seller_min_price (product state) ->
  SmartAISeller.respond_to_offer self state human_offer now = (status, price) ->
  (status = ACCEPTED \/ status = ONGOING)
  /\ (status = ACCEPTED ->
      price = human_offer /\ Product.seller_min_price (product state) <= human_offer)
  /\ (status = ONGOING ->
      Product.seller_min_price (product state) <= price
      /\ ((15 <= inject_Z (time_limit state) - (now - start_time state))%Q ->
          price <= Z.max (Product.seller_min_price (product state))
                         (seller_current_price state - 2000))).
Proof.
  intros Hpos. unfold SmartAISeller.respond_to_offer.
  destruct (of_int (Product.seller_min_price (product state)) *~ lit (108 # 100)
            <=~ of_int human_offer) eqn:E.
  - intro H. injection H as <- <-.
    split; [ left; reflexivity | ]. split; [ | discriminate ].
    intros _. split; [ reflexivity | ].
    destruct (Z_lt_ge_dec human_offer (Product.seller_min_price (product state)))
      as [Hlt | ]; [ | lia ].
    rewrite (Hup _ human_offer (108 # 100) Hpos) in E by (discriminate || assumption).
    discriminate.
  - destruct (Qle_bool 15 _) eqn:Et; cbn [negb].
    + intro H. injection H as <- <-.
      split; [ right; reflexivity | ]. split; [ discriminate | ].
      intros _. unfold SmartAISeller._calculate_smart_counter. split; lia.
    + destruct (Product.seller_min_price (product state) <=? human_offer) eqn:E1;
        intro H; injection H as <- <-.
      * split; [ left; reflexivity | ]. split; [ | discriminate ].
        intros _. apply Z.leb_le in E1. auto.
      * split; [ right; reflexivity | ]. split; [ discriminate | ].
        intros _. split; [ lia | ].
        intro Hq. apply Qle_bool_iff in Hq. congruence.
Qed.

(** The seller's answer to an offer, as the system uses it. *)
Lemma smart_seller_answer (Hup : scale_up_law)
    (self : SmartAISeller.t) (state : NegotiationState.t) (human_offer : Z) (now : Q) :
  0 < Product.seller_min_price (product state) ->
  let r := SmartAISeller.respond_to_offer self state human_offer now in
  (fst r = ACCEPTED /\ snd r = human_offer
   /\ Product.seller_min_price (product state) <= human_offer)
  \/ (fst r = ONGOING /\ Product.seller_min_price (product state) <= snd r).
Proof.
  intros Hpos. unfold SmartAISeller.respond_to_offer.
  destruct (of_int (Product.seller_min_price (product state)) *~ lit (108 # 100)
            <=~ of_int human_offer) eqn:E.
  - left. simpl. repeat split.
    destruct (Z_lt_ge_dec human_offer (Product.seller_min_price (product state)))
      as [Hlt | ]; [ | lia ].
    rewrite (Hup _ human_offer (108 # 100) Hpos) in E by (discriminate || assumption).
    discriminate.
  - destruct (negb _).
    + destruct (Product.seller_min_price (product state) <=? human_offer) eqn:E1.
      * left. simpl. apply Z.leb_le in E1. auto.
      * right. simpl. split; [ reflexivity | lia ].
    + right. cbn [fst snd]. split; [ reflexivity | ].
      unfold SmartAISeller._calculate_smart_counter. lia.
Qed.

Lemma smart_end_no_deal (product : Product.t) (budget : Z)
    (system : SmartBargainingSystem.t) (result : string) :
  system_invariant product budget system ->
  result = "timeout" \/ result = "rejected" ->
  exists system',
    _end_negotiation system result None = Ok system'
    /\ system_invariant product budget system'
    /\ exists n', current_negotiation system' = Some n' /\ deal_closed n' = true.
Proof.
  intros (n & seller & Hn & Ha & Hp & Hb & Hs & Hr & Hw & Hlen & Hopen & Hfin) Hres.
  unfold _end_negotiation. rewrite Hn. cbv zeta.
  unfold shown_personality. smart_fields. rewrite Ha.
  assert (Hkeep : system_invariant product budget
                    (with_current_negotiation system
                       (with_final_price (with_deal_closed n true) None))).
  { exists (with_final_price (with_deal_closed n true) None), seller.
    split; [ reflexivity | ]. split; [ exact Ha | ].
    unfold negotiation_invariant. smart_fields.
    repeat split; try assumption; try lia; try discriminate. }
  destruct Hres as [-> | ->]; cbn [String.eqb Ascii.eqb Bool.eqb andb bind];
    eexists; (split; [ reflexivity | ]);
      (split; [ exact Hkeep | eexists; split; reflexivity ]).
Qed.

Lemma smart_end_deal (product : Product.t) (budget : Z)
    (system : SmartBargainingSystem.t)
    (n : NegotiationState.t) (seller : SmartAISeller.t) (price : Z) :
  sound_product product -> budget < 2 ^ 1023 ->
  current_negotiation system = Some n ->
  ai_seller system = Some seller ->
  NegotiationState.product n = product ->
  human_budget n = budget ->
  Product.seller_min_price product <= seller_current_price n ->
  1 <= round_number n ->
  winner n = None ->
  2 * round_number n - 1 <= Z.of_nat (List.length (conversation_history n))
  <= 2 * round_number n ->
  Product.seller_min_price product <= price <= budget ->
  exists system',
    _end_negotiation system "deal" (Some price) = Ok system'
    /\ system_invariant product budget system'
    /\ exists n', current_negotiation system' = Some n' /\ deal_closed n' = true.
Proof.
  intros (Hmin & Hmarket & Hbig) Hrange Hn Ha Hp Hb Hs Hr Hw Hlen Hprice.
  unfold _end_negotiation. rewrite Hn. cbv zeta.
  cbn [String.eqb Ascii.eqb Bool.eqb andb truthy].
  replace (price =? 0) with false by (symmetry; apply Z.eqb_neq; lia). cbn [negb].
  cbn [NegotiationState.product with_final_price with_deal_closed]. rewrite Hp.
  replace (Product.base_market_price product =? 0) with false
    by (symmetry; apply Z.eqb_neq; lia).
  rewrite CliProofs.quotient_within_float by lia.
  unfold shown_personality. smart_fields. rewrite Ha. cbn [bind].
  eexists. split; [ reflexivity | ]. split.
  - eexists _, seller. split; [ reflexivity | ]. split; [ exact Ha | ].
    unfold negotiation_invariant. smart_fields.
    repeat split; try assumption; try lia; try discriminate;
      try (match goal with H : Some _ = Some _ |- _ => injection H as <-; lia end).
  - eexists. split; reflexivity.
Qed.

(** Each of the three moves raises nothing and keeps the invariant. *)
Lemma smart_offer_keeps (Hup : scale_up_law) (product : Product.t) (budget : Z)
    (system : SmartBargainingSystem.t) (amount : Z) (now now_seller : Q) :
  sound_product product -> budget < 2 ^ 1023 ->
  system_invariant product budget system ->
  exists system' b,
    make_human_offer system amount now now_seller = Ok (system', b)
    /\ system_invariant product budget system'.
Proof.
  intros Hsound Hrange Hinv.
  pose proof Hinv as (n & seller & Hn & Ha & Hp & Hb & Hs & Hr & Hw & Hlen & Hopen & Hfin).
  unfold make_human_offer. rewrite Hn.
  destruct (deal_closed n) eqn:Hc; [ eauto | ].
  destruct (Qle_bool _ _).
  { destruct (smart_end_no_deal product budget system "timeout" Hinv (or_introl eq_refl))
      as (system' & -> & Hinv' & _). cbn [bind]. eauto. }
  destruct (human_budget n <? amount) eqn:E1; [ eauto | ].
  destruct (amount <=? 0) eqn:E2; [ eauto | ].
  apply Z.ltb_ge in E1. apply Z.leb_gt in E2. cbv zeta. rewrite Ha.
  destruct (Hopen eq_refl) as (Hf & Hl).
  set (n1 := with_conversation_history _ _).
  assert (Hp1 : NegotiationState.product n1 = product) by exact Hp.
  destruct Hsound as (Hmin & Hmarket & Hbig).
  pose proof (smart_seller_answer Hup seller n1 amount now_seller
                ltac:(rewrite Hp1; exact Hmin)) as Hans.
  destruct (SmartAISeller.respond_to_offer seller n1 amount now_seller)
    as [status seller_price].
  cbn [fst snd] in Hans. rewrite Hp1 in Hans.
  set (n2 := with_conversation_history (with_seller_current_price n1 seller_price) _).
  assert (Hlen2 : Z.of_nat (List.length (conversation_history n2))
                  = 2 * (round_number n + 1) - 1).
  { unfold n2, n1. smart_fields. rewrite !length_app. cbn [List.length]. lia. }
  assert (Hshown : exists n3,
             _display_ai_response system n2 = Ok n3
             /\ (n3 = n2 \/ n3 = with_personality_revealed n2 true)).
  { unfold _display_ai_response, shown_personality. rewrite Ha.
    destruct (_ && _); cbn [bind]; eauto. }
  destruct Hshown as (n3 & -> & Hn3). cbn [bind].
  assert (Hsame : NegotiationState.product n3 = product
                  /\ human_budget n3 = budget
                  /\ seller_current_price n3 = seller_price
                  /\ round_number n3 = round_number n + 1
                  /\ winner n3 = None
                  /\ conversation_history n3 = conversation_history n2
                  /\ deal_closed n3 = false
                  /\ final_price n3 = None).
  { destruct Hn3 as [-> | ->]; unfold n2, n1; smart_fields; repeat split; assumption. }
  destruct Hsame as (Hp3 & Hb3 & Hs3 & Hr3 & Hw3 & Hh3 & Hc3 & Hf3).
  destruct Hans as [(-> & -> & Hfloor) | (-> & Hfloor)].
  - cbn [DealStatus_eqb].
    destruct (smart_end_deal product budget (with_current_negotiation system n3)
                n3 seller amount (conj Hmin (conj Hmarket Hbig)) Hrange)
      as (system' & -> & Hinv' & _); try reflexivity; try assumption; try lia.
    { rewrite Hh3, Hlen2, Hr3. lia. }
    cbn [bind]. eauto.
  - cbn [DealStatus_eqb]. eexists _, _. split; [ reflexivity | ].
    exists n3, seller. split; [ reflexivity | ]. split; [ exact Ha | ].
    unfold negotiation_invariant. rewrite Hh3, Hlen2, Hr3, Hs3, Hf3.
    repeat split; try assumption; try lia; try discriminate.
Qed.

Lemma smart_accept_keeps (product : Product.t) (budget : Z)
    (system : SmartBargainingSystem.t) :
  sound_product product -> budget < 2 ^ 1023 ->
  system_invariant product budget system ->
  exists system' b,
    accept_seller_offer system = Ok (system', b)
    /\ system_invariant product budget system'.
Proof.
  intros Hsound Hrange Hinv.
  pose proof Hinv as (n & seller & Hn & Ha & Hp & Hb & Hs & Hr & Hw & Hlen & Hopen & Hfin).
  unfold accept_seller_offer. rewrite Hn.
  destruct (deal_closed n) eqn:Hc; [ eauto | ].
  destruct (human_budget n <? seller_current_price n) eqn:E1; [ eauto | ].
  apply Z.ltb_ge in E1. cbv zeta.
  destruct (Hopen eq_refl) as (Hf & Hl).
  set (n1 := with_conversation_history _ _).
  assert (Hshown : (if personality_revealed n1 then Ok tt
                    else shown_personality (with_current_negotiation system n1)) = Ok tt).
  { unfold shown_personality. smart_fields. rewrite Ha.
    destruct (personality_revealed n1); reflexivity. }
  rewrite Hshown. cbn [bind].
  destruct (smart_end_deal product budget (with_current_negotiation system n1)
              n1 seller (seller_current_price n) Hsound Hrange)
    as (system' & -> & Hinv' & _); try reflexivity; try assumption; try lia.
  all: try (unfold n1; smart_fields; rewrite ?length_app; cbn [List.length]; lia).
  cbn [bind]. eauto.
Qed.

Lemma smart_reject_keeps (product : Product.t) (budget : Z)
    (system : SmartBargainingSystem.t) :
  system_invariant product budget system ->
  exists system' b,
    reject_negotiation system = Ok (system', b)
    /\ system_invariant product budget system'.
Proof.
  intros Hinv.
  pose proof Hinv as (n & seller & Hn & Ha & _).
  unfold reject_negotiation, shown_personality. rewrite Hn, Ha. cbn [bind].
  destruct (smart_end_no_deal product budget system "rejected" Hinv
              (or_intror eq_refl)) as (system' & -> & Hinv' & _).
  cbn [bind]. eauto.
Qed.

Lemma parse_command_keeps (Hup : scale_up_law) (int_of_str : string -> option Z)
    (product : Product.t) (budget : Z)
    (system : SmartBargainingSystem.t) (words : list string) (now now_seller : Q) :
  sound_product product -> budget < 2 ^ 1023 ->
  system_invariant product budget system ->
  exists system' b,
    parse_command int_of_str words system now now_seller = Ok (system', b)
    /\ system_invariant product budget system'.
Proof.
  intros Hsound Hrange Hinv. unfold parse_command.
  destruct words as [ | cmd arguments ]; [ eauto | ].
  destruct (String.eqb cmd "offer").
  { destruct arguments as [ | amount more ]; [ eauto | ].
    destruct (int_of_str amount) as [a | ]; [ | eauto ].
    apply smart_offer_keeps; assumption. }
  destruct (String.eqb cmd "accept"); [ apply smart_accept_keeps; assumption | ].
  destruct (_ || _); [ apply smart_reject_keeps; assumption | ].
  destruct (String.eqb cmd "status"); [ | eauto ].
  pose proof Hinv as (n & seller & Hn & Ha & _).
  unfold show_status, shown_personality. rewrite Hn, Ha.
  destruct (personality_revealed n); cbn [bind]; eauto.
Qed.

Lemma smart_catalog_is_sound : Forall sound_product ProductCatalog.get_products.
Proof.
  unfold ProductCatalog.get_products, sound_product. repeat constructor; simpl; lia.
Qed.

Lemma smart_opening_multiplier_between_1_and_2 (personality_key : string)
    (personality : AIPersonalities.t) :
  AIPersonalities.lookup personality_key = Some personality ->
  (1 <= AIPersonalities.opening_multiplier personality)%Q
  /\ (AIPersonalities.opening_multiplier personality <= 2)%Q.
Proof.
  unfold AIPersonalities.lookup.
  destruct (String.eqb personality_key "AGGRESSIVE_TRADER");
    [ | destruct (String.eqb personality_key "DIPLOMATIC_MERCHANT");
        [ | destruct (String.eqb personality_key "CUNNING_STRATEGIST") ] ];
    intro H; try discriminate; injection H as <-; split; discriminate.
Qed.

Lemma start_negotiation_keeps (Hge : scale_ge_law)
    (product_index : nat) (budget : Z) (time_limit : Z) (proceed : bool)
    (selected_personality : string) (client_ready : bool) (now : Q)
    (system : SmartBargainingSystem.t) :
  start_negotiation init product_index budget time_limit proceed
    selected_personality client_ready now = Started system true ->
  exists product,
    nth_error ProductCatalog.get_products product_index = Some product
    /\ sound_product product
    /\ system_invariant product budget system.
Proof.
  unfold start_negotiation. cbn [products init].
  destruct (nth_error ProductCatalog.get_products product_index) as [product | ] eqn:Ei;
    [ | discriminate ].
  destruct ((budget <? Product.seller_min_price product) && negb proceed);
    [ discriminate | ].
  destruct (AIPersonalities.lookup selected_personality) as [personality | ] eqn:El;
    [ | discriminate ].
  destruct client_ready; [ | discriminate ].
  intro H. injection H as <-.
  assert (Hsound : sound_product product).
  { pose proof smart_catalog_is_sound as Hall. rewrite Forall_forall in Hall.
    apply Hall. eapply nth_error_In. exact Ei. }
  exists product. split; [ reflexivity | ]. split; [ exact Hsound | ].
  eexists _, _. split; [ reflexivity | ]. split; [ reflexivity | ].
  destruct Hsound as (Hmin & Hmarket & Hbig).
  destruct (smart_opening_multiplier_between_1_and_2 _ _ El) as [H1 H2].
  pose proof (Hge (Product.base_market_price product)
                (AIPersonalities.opening_multiplier personality)
                ltac:(lia) H1 H2) as Hopening.
  unfold negotiation_invariant, SmartAISeller.get_opening_offer. smart_fields.
  cbn [SmartAISeller.personality List.length].
  repeat split; try lia; try discriminate.
Qed.

Lemma run_negotiation_eq (int_of_str : string -> option Z)
    (events : list event) (eof_clock : Q) (system : SmartBargainingSystem.t) :
  run_negotiation int_of_str events eof_clock system
  = match current_negotiation system with
    | None => Closed system
    | Some n =>
        if deal_closed n then Closed system
        else
          let now := match events with
                     | [] => eof_clock
                     | ev :: _ => clock ev
                     end in
          let elapsed := (now - start_time n)%Q in
          if Qle_bool (inject_Z (time_limit n)) elapsed
          then
            match _end_negotiation system "timeout" None with
            | Ok system => Closed system
            | Raise e => Raised e
            end
          else
            match events with
            | [] => InputEnded system
            | ev :: events' =>
                match parts ev with
                | [] => run_negotiation int_of_str events' eof_clock system
                | _ :: _ =>
                    match parse_command int_of_str (parts ev) system
                            (offer_clock ev) (seller_clock ev) with
                    | Ok (system, true) =>
                        run_negotiation int_of_str events' eof_clock system
                    | Ok (system, false) => Stopped system
                    | Raise e => Raised e
                    end
                end
            end
    end.
Proof. destruct events; reflexivity. Qed.

(** At the command line of [in.py] a move that is refused ends the
    session: while the time limit has not elapsed, an offer that is not
    positive or exceeds the budget, and an [accept] of a price above the
    budget, leave the negotiation as it is, open, and [run_negotiation]
    returns without reading another line. *)
Theorem refused_move_ends_the_session (int_of_str : string -> option Z)
    (ev : event) (events : list event) (eof_clock : Q)
    (system : SmartBargainingSystem.t) (n : NegotiationState.t) :
  current_negotiation system = Some n -> deal_closed n = false ->
  (clock ev - start_time n < inject_Z (time_limit n))%Q ->
  (offer_clock ev - start_time n < inject_Z (time_limit n))%Q ->
  (exists amount more a,
      parts ev = "offer" :: amount :: more
      /\ int_of_str amount = Some a
      /\ (a <= 0 \/ human_budget n < a))
  \/ (exists more,
        parts ev = "accept" :: more /\ human_budget n < seller_current_price n) ->
  run_negotiation int_of_str (ev :: events) eof_clock system = Stopped system.
Proof.
  intros Hn Hopen Hclock Hoffer Hline.
  rewrite run_negotiation_eq. rewrite Hn, Hopen. cbv zeta.
  destruct (Qle_bool (inject_Z (time_limit n)) (clock ev - start_time n)) eqn:Et.
  { apply Qle_bool_iff in Et. exfalso. exact (Qlt_not_le _ _ Hclock Et). }
  destruct Hline as [(amount & more & a & -> & Ha & Hbad) | (more & -> & Hbad)].
  - unfold parse_command. cbn [String.eqb Ascii.eqb Bool.eqb andb]. rewrite Ha.
    unfold make_human_offer. rewrite Hn, Hopen.
    destruct (Qle_bool (inject_Z (time_limit n)) (offer_clock ev - start_time n)) eqn:Eo.
    { apply Qle_bool_iff in Eo. exfalso. exact (Qlt_not_le _ _ Hoffer Eo). }
    destruct (human_budget n <? a) eqn:E1; [ reflexivity | ].
    destruct (a <=? 0) eqn:E2; [ reflexivity | ].
    apply Z.ltb_ge in E1. apply Z.leb_gt in E2. lia.
  - unfold parse_command. cbn [String.eqb Ascii.eqb Bool.eqb andb].
    unfold accept_seller_offer. rewrite Hn, Hopen.
    apply Z.ltb_lt in Hbad. rewrite Hbad. reflexivity.
Qed.

(** At the command line of [in.py], for a negotiation started by
    [start_negotiation] on a product of the catalogue with a budget
    below [2 ^ 1023], so that the saving of a deal divided by the market
    price stays within the range of [float]: whatever is typed and
    whenever, [run_negotiation] raises nothing; when it ends because the
    negotiation is closed, the negotiation is closed, and at the end of
    the input it is open; and the negotiation keeps its invariant, so
    that a final price lies between the seller's minimum and the budget,
    the seller never asks less than its minimum, and [winner] is never
    set.  The bound on the budget is needed: see
    [huge_offer_raises_in_the_session] below. *)
Theorem smart_session_keeps_negotiation_sound
    (Hup : scale_up_law) (Hge : scale_ge_law) (int_of_str : string -> option Z)
    (product_index : nat) (budget : Z) (time_limit : Z) (proceed : bool)
    (selected_personality : string) (client_ready : bool) (now : Q)
    (system : SmartBargainingSystem.t)
    (events : list event) (eof_clock : Q) :
  budget < 2 ^ 1023 ->
  start_negotiation init product_index budget time_limit proceed
    selected_personality client_ready now = Started system true ->
  exists product,
    nth_error ProductCatalog.get_products product_index = Some product
    /\ match run_negotiation int_of_str events eof_clock system with
       | Closed system' =>
           exists n, current_negotiation system' = Some n
                     /\ deal_closed n = true
                     /\ negotiation_invariant product budget n
       | Stopped system' =>
           exists n, current_negotiation system' = Some n
                     /\ negotiation_invariant product budget n
       | InputEnded system' =>
           exists n, current_negotiation system' = Some n
                     /\ deal_closed n = false
                     /\ negotiation_invariant product budget n
       | Raised _ => False
       end.
Proof.
  intros Hrange Hstart.
  destruct (start_negotiation_keeps Hge _ _ _ _ _ _ _ _ Hstart)
    as (product & Hi & Hsound & Hinv).
  exists product. split; [ exact Hi | ]. clear Hstart Hi.
  revert system Hinv.
  induction events as [ | ev events IH ]; intros system Hinv;
    rewrite run_negotiation_eq;
    pose proof Hinv as (n & seller & Hn & Ha & Hn_inv);
    rewrite Hn; destruct (deal_closed n) eqn:Hc; try (exists n; auto); cbv zeta.
  - destruct (Qle_bool _ _).
    + destruct (smart_end_no_deal product budget system "timeout" Hinv
                  (or_introl eq_refl))
        as (system' & -> & (n' & seller' & Hn' & _ & Hinv') & (n'' & Hn'' & Hc')).
      exists n'. rewrite Hn' in Hn''. injection Hn'' as <-. auto.
    + exists n. auto.
  - destruct (Qle_bool _ _).
    + destruct (smart_end_no_deal product budget system "timeout" Hinv
                  (or_introl eq_refl))
        as (system' & -> & (n' & seller' & Hn' & _ & Hinv') & (n'' & Hn'' & Hc')).
      exists n'. rewrite Hn' in Hn''. injection Hn'' as <-. auto.
    + destruct (parts ev) as [ | cmd arguments ] eqn:Eparts; [ apply IH; exact Hinv | ].
      destruct (parse_command_keeps Hup int_of_str product budget system
                  (cmd :: arguments) (offer_clock ev) (seller_clock ev) Hsound Hrange Hinv)
        as (system' & b & -> & Hinv').
      destruct b; [ apply IH; exact Hinv' | ].
      destruct Hinv' as (n' & seller' & Hn' & _ & Hinv'). exists n'. auto.
Qed.
End Seller.

(** *** Concrete sessions, in exact arithmetic *)

Section Sessions.
Import SmartScenarios.
#[local] Existing Instance Exact.arith.

(** The diplomatic merchant answers 170000 for the Alphonso lot, ten
    seconds in, with 290650: 6350 below its 297000. *)
Lemma smart_seller_witness :
  SmartAISeller.respond_to_offer
    {| SmartAISeller.personality := AIPersonalities.DIPLOMATIC_MERCHANT |}
    smart_round_2 170000 10%Q
  = (ONGOING, 290650)
  /\ 175000 <= 290650 <= Z.max 175000 (297000 - 2000).
Proof.
  assert (Hanswer : SmartAISeller.respond_to_offer
                      {| SmartAISeller.personality := AIPersonalities.DIPLOMATIC_MERCHANT |}
                      smart_round_2 170000 10%Q
                    = (ONGOING, 290650)) by (vm_compute; reflexivity).
  split; [ exact Hanswer | ].
  destruct (smart_seller_concedes_down_to_minimum ExactLaws.scale_up
              _ smart_round_2 170000 10%Q ONGOING 290650 eq_refl Hanswer)
    as (_ & _ & H).
  destruct (H eq_refl) as [Hfloor Hdown]. split; [ exact Hfloor | ].
  apply Hdown. vm_compute. discriminate.
Defined.

(** An offer of 250000 against the budget of 200000 of [smart_open]
    ends the session, the three lines after it unread. *)
Lemma refused_move_witness :
  run_negotiation reads_two_amounts four_lines 20 smart_open = Stopped smart_open.
Proof.
  eapply (refused_move_ends_the_session reads_two_amounts
            (typed 5 ["offer"; "250000"]) (tl four_lines) 20 smart_open).
  - vm_compute. reflexivity.
  - reflexivity.
  - vm_compute. reflexivity.
  - vm_compute. reflexivity.
  - left. exists "250000", [], 250000. vm_compute. repeat split. right. reflexivity.
Defined.

(** The last three of [four_lines] typed into [smart_open]: the input
    ends with the negotiation open. *)
Lemma smart_session_witness :
  exists product,
    nth_error ProductCatalog.get_products 0 = Some product
    /\ match run_negotiation reads_two_amounts (tl four_lines) 20 smart_open with
       | Closed system' =>
           exists n, current_negotiation system' = Some n
                     /\ deal_closed n = true
                     /\ negotiation_invariant product 200000 n
       | Stopped system' =>
           exists n, current_negotiation system' = Some n
                     /\ negotiation_invariant product 200000 n
       | InputEnded system' =>
           exists n, current_negotiation system' = Some n
                     /\ deal_closed n = false
                     /\ negotiation_invariant product 200000 n
       | Raised _ => False
       end.
Proof.
  apply (smart_session_keeps_negotiation_sound ExactLaws.scale_up CliProofs.scale_ge_exact
           reads_two_amounts 0%nat 200000 120 true "DIPLOMATIC_MERCHANT" true 0%Q
           smart_open (tl four_lines) 20%Q).
  - vm_compute. reflexivity.
  - reflexivity.
Defined.

(** A budget beyond the range of [float] and the offer of the whole of
    it, [10 ^ 400], which the seller accepts at once: the screen of the
    deal raises [OverflowError], which [run_negotiation] does not
    catch. *)
Lemma huge_offer_raises_in_the_session :
  match start_negotiation init 0%nat (10 ^ 400) 120 true "DIPLOMATIC_MERCHANT" true 0%Q
  with
  | Started system true =>
      run_negotiation reads_huge_amount [ typed 5 ["offer"; ten_to_the_400] ] 20 system
      = Raised OverflowError
  | _ => False
  end.
Proof. vm_compute. reflexivity. Qed.
End Sessions.
End SmartProofs.

(** ** The test bench of [new_bargain_platform.py] *)

Module BenchProofs.
Import Ai_negotiation NegotiationContext New_bargain_platform.

Section Sellers.
Context {F : PyFloat}.

(** [MockSellerAgent] with a positive minimum price accepts only the
    buyer's offer, and that at or above its minimum; it counters at or
    above its minimum. *)
Lemma mock_seller_answer (Hup : scale_up_law) (self : MockSellerAgent.t)
    (buyer_offer round_num : Z) :
  0 < MockSellerAgent.min_price self ->
  let r := MockSellerAgent.respond_to_buyer self buyer_offer round_num in
  (snd r = true /\ fst r = buyer_offer /\ MockSellerAgent.min_price self <= buyer_offer)
  \/ (snd r = false /\ MockSellerAgent.min_price self <= fst r).
Proof.
  intros Hpos. unfold MockSellerAgent.respond_to_buyer.
  destruct (of_int (MockSellerAgent.min_price self) *~ lit (11 # 10) <=~ of_int buyer_offer)
    eqn:E.
  - left. cbn [fst snd]. repeat split.
    destruct (Z_lt_ge_dec buyer_offer (MockSellerAgent.min_price self)) as [Hlt | ]; [ | lia ].
    rewrite (Hup _ buyer_offer (11 # 10) Hpos) in E by (discriminate || assumption).
    discriminate.
  - right. destruct (8 <=? round_num); cbn [fst snd]; split; (reflexivity || lia).
Qed.

Lemma template_buyer_keeps_to_budget : keeps_to_budget (B := TemplateBuyer.t).
Proof.
  intros self context. cbn [generate_opening_offer respond_to_seller_offer
                            TemplateBuyer_is_buyer snd].
  split.
  - unfold bb.YourBuyerAgent.generate_opening_offer. lia.
  - intro seller_price. unfold TemplateBuyer.respond_to_seller_offer.
    destruct (seller_price <=? your_budget context) eqn:E; cbn [andb].
    + destruct (_ <=~ _); cbn [DealStatus_eqb].
      * apply Z.leb_le. exact E.
      * destruct (8 <=? current_round context); lia.
    + cbn [DealStatus_eqb]. destruct (8 <=? current_round context); lia.
Qed.

Lemma example_agent_keeps_to_budget : keeps_to_budget (B := ExampleSimpleAgent.t).
Proof.
  intros self context. cbn [generate_opening_offer respond_to_seller_offer
                            ExampleSimpleAgent_is_buyer snd].
  split.
  - unfold ExampleSimpleAgent.generate_opening_offer. lia.
  - intro seller_price. unfold ExampleSimpleAgent.respond_to_seller_offer.
    destruct ((seller_price <=? your_budget context) && _) eqn:E.
    + cbn [DealStatus_eqb]. apply andb_prop in E. destruct E as [E _].
      apply Z.leb_le. exact E.
    + cbv zeta.
      destruct (_ *~ _ <=~ _); cbn [DealStatus_eqb]; lia.
Qed.
End Sellers.

Section Bench.
Context {F : PyFloat} {B : Type} {buyer_class : BaseBuyerAgent B}.

Lemma bench_rounds_eq (round_nums : list Z) (buyer_agent : B)
    (seller : MockSellerAgent.t) (context : NegotiationContext.t) (seller_price : Z) :
  negotiation_rounds round_nums buyer_agent seller context seller_price
  = match round_nums with
    | [] => (buyer_agent, context, None)
    | round_num :: round_nums' =>
        let context := with_current_round context (round_num + 1) in
        let '(buyer_agent, (status, buyer_offer)) :=
          if round_num =? 0
          then let '(b, offer) := generate_opening_offer buyer_agent context in
               (b, (ONGOING, offer))
          else respond_to_seller_offer buyer_agent context seller_price in
        let context := with_your_offers context (your_offers context ++ [buyer_offer]) in
        let context := with_messages context (messages context ++ [buyer]) in
        if DealStatus_eqb status ACCEPTED
        then (buyer_agent, context, Some seller_price)
        else
          let '(seller_price, seller_accepts) :=
            MockSellerAgent.respond_to_buyer seller buyer_offer round_num in
          if seller_accepts : bool
          then (buyer_agent, with_messages context (messages context ++ [Ai_negotiation.seller]),
                Some buyer_offer)
          else
            let context :=
              with_seller_offers context (seller_offers context ++ [seller_price]) in
            let context := with_messages context (messages context ++ [Ai_negotiation.seller]) in
            negotiation_rounds round_nums' buyer_agent seller context seller_price
    end.
Proof. destruct round_nums; reflexivity. Qed.

(** The loop from any pass on: the budget stays, the round counter ends
    at the number of the last pass made, and a deal is made at a price
    between the seller's minimum and the budget. *)
Lemma negotiation_rounds_sound (Hup : scale_up_law) (Hbuyer : keeps_to_budget)
    (seller : MockSellerAgent.t) (round_nums : list Z) :
  0 < MockSellerAgent.min_price seller ->
  forall (buyer_agent : B) (context : NegotiationContext.t) (seller_price : Z)
         (buyer_agent' : B) (context' : NegotiationContext.t) (outcome : option Z),
    (hd 1 round_nums <> 0 -> MockSellerAgent.min_price seller <= seller_price) ->
    Forall (fun r => r <> 0) (tl round_nums) ->
    Forall (fun r => 0 <= r <= 9) round_nums ->
    negotiation_rounds round_nums buyer_agent seller context seller_price
    = (buyer_agent', context', outcome) ->
    your_budget context' = your_budget context
    /\ product context' = product context
    /\ (round_nums = [] -> current_round context' = current_round context)
    /\ (round_nums <> [] -> 1 <= current_round context' <= 10)
    /\ (outcome = None -> round_nums <> [] ->
        current_round context' = last round_nums 0 + 1)
    /\ (forall price, outcome = Some price ->
                      MockSellerAgent.min_price seller <= price <= your_budget context).
Proof.
  intro Hpos. induction round_nums as [ | round_num round_nums IH ];
    intros buyer_agent context seller_price buyer_agent' context' outcome
           Hprice Hlater Hrange H;
    rewrite bench_rounds_eq in H.
  - injection H as <- <- <-. repeat split; try discriminate; try contradiction.
  - cbv zeta in H.
    set (c1 := with_current_round context (round_num + 1)) in H.
    destruct (Hbuyer buyer_agent c1) as [Hopen Hresp].
    specialize (Hresp seller_price).
    inversion Hrange as [ | ? ? Hr Hrange' ]; subst.
    assert (Hmove :
      exists b status offer,
        (if round_num =? 0
         then let '(b, offer) := generate_opening_offer buyer_agent c1 in
              (b, (ONGOING, offer))
         else respond_to_seller_offer buyer_agent c1 seller_price)
        = (b, (status, offer))
        /\ (if DealStatus_eqb status ACCEPTED
            then seller_price <= your_budget context /\ round_num <> 0
            else offer <= your_budget context)).
    { destruct (round_num =? 0) eqn:E0.
      - destruct (generate_opening_offer buyer_agent c1) as [b offer].
        exists b, ONGOING, offer. split; [ reflexivity | ]. exact Hopen.
      - apply Z.eqb_neq in E0.
        destruct (respond_to_seller_offer buyer_agent c1 seller_price)
          as [b [status offer]].
        exists b, status, offer. split; [ reflexivity | ].
        destruct (DealStatus_eqb status ACCEPTED); [ split; assumption | exact Hresp ]. }
    destruct Hmove as (b & status & offer & Em & Hmove). rewrite Em in H.
    destruct (DealStatus_eqb status ACCEPTED).
    + injection H as <- <- <-. destruct Hmove as [Hb Hr0].
      cbn [your_budget product current_round with_messages with_your_offers
           c1 with_current_round].
      split; [ reflexivity | ]. split; [ reflexivity | ].
      split; [ discriminate | ]. split; [ lia | ]. split; [ discriminate | ].
      intros price Hp. injection Hp as <-. split; [ apply Hprice; exact Hr0 | exact Hb ].
    + pose proof (mock_seller_answer Hup seller offer round_num Hpos) as Hans.
      destruct (MockSellerAgent.respond_to_buyer seller offer round_num)
        as [seller_price' seller_accepts].
      cbn [fst snd] in Hans.
      destruct Hans as [(-> & -> & Hfloor) | (-> & Hfloor)].
      * injection H as <- <- <-.
        cbn [your_budget product current_round with_messages with_your_offers
             c1 with_current_round].
        split; [ reflexivity | ]. split; [ reflexivity | ].
        split; [ discriminate | ]. split; [ lia | ]. split; [ discriminate | ].
        intros price Hp. injection Hp as <-. split; [ exact Hfloor | exact Hmove ].
      * cbn [tl] in Hlater.
        destruct (IH _ _ _ _ _ _
                    (fun _ => Hfloor)
                    ltac:(destruct round_nums; [ constructor | inversion Hlater; assumption ])
                    Hrange' H)
          as (Hb' & Hp' & Hnil & Hsome & Hnone & Hdeal).
        cbn [your_budget product current_round with_messages with_your_offers
             with_seller_offers c1 with_current_round] in Hb', Hp', Hnil, Hdeal.
        split; [ exact Hb' | ]. split; [ exact Hp' | ].
        split; [ discriminate | ].
        destruct round_nums as [ | r rs ].
        -- specialize (Hnil eq_refl). rewrite Hnil.
           split; [ intros _; lia | ]. split; [ intros _ _; reflexivity | exact Hdeal ].
        -- split; [ intros _; apply Hsome; discriminate | ].
           split; [ | exact Hdeal ].
           intros Ho _. rewrite (Hnone Ho ltac:(discriminate)). reflexivity.
Qed.

(** Every run of the test bench with a buyer that keeps to its budget,
    as the template buyer of [bb.py] and [ExampleSimpleAgent] do,
    against a positive minimum price of the seller and for a product
    whose market price is not 0: the test returns a result; the rounds
    are between 1 and 10, and 10 when there is no deal; a deal is made
    at a price between the seller's minimum and the buyer's budget, and
    the savings are the rest of the budget, never negative. *)
Theorem test_bench_deal_between_floor_and_budget
    (Hup : scale_up_law) (Hbuyer : keeps_to_budget)
    (buyer_agent : B) (product : Product.t) (buyer_budget seller_min : Z) :
  0 < seller_min ->
  Product.base_market_price product <> 0 ->
  exists r,
    run_negotiation_test buyer_agent product buyer_budget seller_min = Ok r
    /\ 1 <= rounds r <= 10
    /\ (deal_made r = false ->
        final_price r = None /\ rounds r = 10 /\ savings r = 0)
    /\ (deal_made r = true ->
        exists price,
          final_price r = Some price
          /\ seller_min <= price <= buyer_budget
          /\ savings r = buyer_budget - price
          /\ 0 <= savings r).
Proof.
  intros Hpos Hmarket. unfold run_negotiation_test. cbv zeta.
  match goal with
  | |- context [negotiation_rounds range_10 buyer_agent ?s ?c ?p] =>
      destruct (negotiation_rounds range_10 buyer_agent s c p)
        as [[buyer_agent' context'] outcome] eqn:H;
      destruct (negotiation_rounds_sound Hup Hbuyer s range_10 Hpos _ _ _ _ _ _
                  ltac:(cbn [hd range_10]; intro Hne; exfalso; apply Hne; reflexivity)
                  ltac:(unfold range_10; cbn [tl]; repeat constructor; discriminate)
                  ltac:(unfold range_10; repeat constructor; lia)
                  H)
        as (Hb & Hp & _ & Hrounds & Hnone & Hdeal)
  end.
  cbn [your_budget with_messages with_seller_offers] in Hb, Hdeal.
  specialize (Hrounds ltac:(discriminate)).
  destruct outcome as [price | ].
  - specialize (Hdeal price eq_refl). cbn [MockSellerAgent.min_price] in Hdeal.
    destruct (buyer_budget =? 0) eqn:E0; [ apply Z.eqb_eq in E0; lia | ].
    destruct (Product.base_market_price product =? 0) eqn:E1;
      [ apply Z.eqb_eq in E1; contradiction | ].
    eexists. split; [ reflexivity | ]. cbn [rounds deal_made final_price savings].
    split; [ exact Hrounds | ]. split; [ discriminate | ].
    intros _. exists price. repeat split; lia.
  - eexists. split; [ reflexivity | ]. cbn [rounds deal_made final_price savings].
    split; [ exact Hrounds | ]. split; [ | discriminate ].
    intros _. split; [ reflexivity | ]. split; [ | reflexivity ].
    rewrite (Hnone eq_refl ltac:(discriminate)). reflexivity.
Qed.
End Bench.

(** *** A concrete test, in exact arithmetic *)

Section Sessions.
#[local] Existing Instance Exact.arith.

(** The first scenario of [test_your_agent] with the template buyer of
    [bb.py]: a budget of 250000 against a minimum of 185000. *)
Lemma test_bench_witness :
  exists r,
    run_negotiation_test {| TemplateBuyer.name := "Template" |} alphonso_mango
      250000 185000 = Ok r
    /\ 1 <= rounds r <= 10
    /\ (deal_made r = false ->
        final_price r = None /\ rounds r = 10 /\ savings r = 0)
    /\ (deal_made r = true ->
        exists price,
          final_price r = Some price
          /\ 185000 <= price <= 250000
          /\ savings r = 250000 - price
          /\ 0 <= savings r).
Proof.
  apply (test_bench_deal_between_floor_and_budget ExactLaws.scale_up
           template_buyer_keeps_to_budget).
  - reflexivity.
  - discriminate.
Defined.
End Sessions.
End BenchProofs.
